(** * webagents.md: the manifest parser, serializer, declaration generator,
      validator and client lookups of the [webagent] package

    The Python sources embedded here are [webagent/types.py],
    [webagent/parser.py], [webagent/serializer.py], [webagent/codegen.py],
    [webagent/site.py], [webagent/discovery.py] over an abstract network,
    and the methods of [webagent/client.py] that need no browser.

    A Python [str] is a Rocq [string]; its characters are read as the code
    points 0..255, and the character classes below are CPython's Unicode
    classes restricted to that range. *)

From Stdlib Require Import Ascii String List Bool Arith Lia.
From stdpp Require Import base option list strings gmap.

Import ListNotations.
Local Open Scope stdpp_scope.
#[local] Arguments String.append !s1 s2 : simpl nomatch.

(* ===================================================================== *)
(** * Characters and the [str] methods the package calls *)
(* ===================================================================== *)

Module Py.

(** The line feed, the carriage return and the two quote characters. *)
Definition nl_char : ascii := ascii_of_nat 10.
Definition cr_char : ascii := ascii_of_nat 13.
Definition dquote_char : ascii := ascii_of_nat 34.
Definition squote_char : ascii := ascii_of_nat 39.
Definition nl : string := String nl_char EmptyString.

Definition code_in (codes : list nat) (c : ascii) : bool :=
  existsb (Nat.eqb (nat_of_ascii c)) codes.

Definition in_range (lo hi : nat) (c : ascii) : bool :=
  (lo <=? nat_of_ascii c) && (nat_of_ascii c <=? hi).

(** [str.isspace] on one character, which is also the class [\s] of [re]:
    TAB LF VT FF CR, FS GS RS US, SPACE, NEL and NBSP. *)
Definition is_space (c : ascii) : bool :=
  in_range 9 13 c || in_range 28 32 c || code_in [133; 160] c.

(** The line boundaries of [str.splitlines]: LF VT FF CR FS GS RS NEL. *)
Definition is_linebreak (c : ascii) : bool :=
  in_range 10 13 c || in_range 28 30 c || code_in [133] c.

(** The class [\w] of [re] on [str] patterns: alphanumeric or underscore. *)
Definition is_word (c : ascii) : bool :=
  in_range 48 57 c || in_range 65 90 c || in_range 97 122 c || code_in [95] c
  || code_in [170; 178; 179; 181; 185; 186] c || in_range 188 190 c
  || in_range 192 214 c || in_range 216 246 c || in_range 248 255 c.

Definition is_nl (c : ascii) : bool := Ascii.eqb c nl_char.
Definition not_nl (c : ascii) : bool := negb (is_nl c).
Definition any_char (c : ascii) : bool := true.

(** [str.lower] on one character. *)
Definition lower_char (c : ascii) : ascii :=
  if in_range 65 90 c || (in_range 192 222 c && negb (code_in [215] c))
  then ascii_of_nat (nat_of_ascii c + 32) else c.

Fixpoint lower (s : string) : string :=
  match s with
  | EmptyString => EmptyString
  | String c s' => String (lower_char c) (lower s')
  end.

(** Truthiness of a [str]: non-empty. *)
Definition nonempty (s : string) : bool :=
  match s with EmptyString => false | String _ _ => true end.

(** [s.lstrip(chars)], [s.rstrip(chars)], [s.strip(chars)] for a class. *)
Fixpoint lstrip_of (cls : ascii -> bool) (s : string) : string :=
  match s with
  | EmptyString => EmptyString
  | String c s' => if cls c then lstrip_of cls s' else s
  end.

Fixpoint rstrip_of (cls : ascii -> bool) (s : string) : string :=
  match s with
  | EmptyString => EmptyString
  | String c s' =>
      match rstrip_of cls s' with
      | EmptyString => if cls c then EmptyString else String c EmptyString
      | r => String c r
      end
  end.

Definition strip_of (cls : ascii -> bool) (s : string) : string :=
  rstrip_of cls (lstrip_of cls s).

Definition lstrip := lstrip_of is_space.
Definition rstrip := rstrip_of is_space.
Definition strip := strip_of is_space.

(** [s.strip(chars)] where [chars] holds the two quote characters. *)
Definition is_quote (c : ascii) : bool :=
  Ascii.eqb c squote_char || Ascii.eqb c dquote_char.
Definition strip_quotes := strip_of is_quote.

(** [s.startswith(p)] and [s.removeprefix(p)]. *)
Definition startswith (p s : string) : bool := String.prefix p s.

Fixpoint drop (n : nat) (s : string) : string :=
  match n, s with
  | S k, String _ s' => drop k s'
  | _, _ => s
  end.

Definition removeprefix (p s : string) : string :=
  if startswith p s then drop (String.length p) s else s.

(** [sub in s]. *)
Fixpoint contains (sub s : string) : bool :=
  String.prefix sub s ||
  match s with
  | EmptyString => false
  | String _ s' => contains sub s'
  end.

Definition has_char (c : ascii) (s : string) : bool :=
  contains (String c EmptyString) s.

(** [sep.join(parts)]. *)
Definition join (sep : string) (parts : list string) : string :=
  String.concat sep parts.

(** Prefix a character to the first string of a non-empty list of pieces. *)
Definition cons_head (c : ascii) (pieces : list string) : list string :=
  match pieces with
  | [] => [String c EmptyString]
  | p :: ps => String c p :: ps
  end.

(** [s.split(sep)] for a one-character separator. *)
Fixpoint split (sep : ascii) (s : string) : list string :=
  match s with
  | EmptyString => [EmptyString]
  | String c s' =>
      if Ascii.eqb c sep then EmptyString :: split sep s'
      else cons_head c (split sep s')
  end.

(** [s.split(sep, 1)]: one or two pieces. *)
Fixpoint split1 (sep : ascii) (s : string) : list string :=
  match s with
  | EmptyString => [EmptyString]
  | String c s' =>
      if Ascii.eqb c sep then [EmptyString; s']
      else cons_head c (split1 sep s')
  end.

(** [s.splitlines()]: CR LF counts as one boundary, and a final boundary
    opens no further line. *)
Fixpoint splitlines (s : string) : list string :=
  match s with
  | EmptyString => []
  | String c s' =>
      if Ascii.eqb c cr_char then
        match s' with
        | String c' s'' =>
            if Ascii.eqb c' nl_char then EmptyString :: splitlines s''
            else EmptyString :: splitlines s'
        | EmptyString => [EmptyString]
        end
      else if is_linebreak c then EmptyString :: splitlines s'
      else cons_head c (splitlines s')
  end.

End Py.

(* ===================================================================== *)
(** * Regular expressions, as backtracking matchers *)
(* ===================================================================== *)

(** A pattern is a function from the text at the current position to the
    result of the match; what follows a sub-pattern is its continuation, so
    that a quantifier can fall back to a shorter (greedy) or longer (lazy)
    repetition when the rest of the pattern fails, in the order of [re]. *)
Module Re.

Definition matcher (A : Type) := string -> option A.

(** One literal character, one character of a class. *)
Definition lit {A} (c : ascii) (k : matcher A) : matcher A :=
  fun s =>
    match s with
    | String c' s' => if Ascii.eqb c c' then k s' else None
    | EmptyString => None
    end.

Definition one {A} (cls : ascii -> bool) (k : matcher A) : matcher A :=
  fun s =>
    match s with
    | String c s' => if cls c then k s' else None
    | EmptyString => None
    end.

(** A literal string. *)
Fixpoint lits {A} (p : string) (k : matcher A) : matcher A :=
  match p with
  | EmptyString => k
  | String c p' => lit c (lits p' k)
  end.

(** Greedy [cls*]; the continuation receives the text matched. *)
Fixpoint star {A} (cls : ascii -> bool) (k : string -> matcher A)
    (s : string) : option A :=
  match s with
  | String c s' =>
      if cls c then
        match star cls (fun w => k (String c w)) s' with
        | Some r => Some r
        | None => k EmptyString s
        end
      else k EmptyString s
  | EmptyString => k EmptyString s
  end.

(** Greedy [cls+]. *)
Definition plus {A} (cls : ascii -> bool) (k : string -> matcher A)
    : matcher A :=
  fun s =>
    match s with
    | String c s' => if cls c then star cls (fun w => k (String c w)) s' else None
    | EmptyString => None
    end.

(** Lazy [cls*?]. *)
Fixpoint lazy_star {A} (cls : ascii -> bool) (k : string -> matcher A)
    (s : string) : option A :=
  match k EmptyString s with
  | Some r => Some r
  | None =>
      match s with
      | String c s' =>
          if cls c then lazy_star cls (fun w => k (String c w)) s' else None
      | EmptyString => None
      end
  end.

(** [$] without MULTILINE: the end of the text, or just before a final
    line feed. *)
Definition eos {A} (r : A) : matcher A :=
  fun s =>
    match s with
    | EmptyString => Some r
    | String c EmptyString => if Py.is_nl c then Some r else None
    | _ => None
    end.

(** The text left after the match. *)
Definition rest : matcher string := fun s => Some s.

(** [pattern.search(s)] for a pattern without anchors: the leftmost
    position where it matches. *)
Fixpoint search {A} (m : matcher A) (s : string) : option A :=
  match m s with
  | Some r => Some r
  | None =>
      match s with
      | String _ s' => search m s'
      | EmptyString => None
      end
  end.

(** [re.search] of a MULTILINE pattern [^m]: [m] is tried only where a line
    starts, that is at the start of the text and after each line feed. *)
Fixpoint search_bol {A} (m : matcher A) (bol : bool) (s : string) : option A :=
  match (if bol then m s else None) with
  | Some r => Some r
  | None =>
      match s with
      | String c s' => search_bol m (Py.is_nl c) s'
      | EmptyString => None
      end
  end.

(** Length of the match of a separator pattern at the head of [s]. *)
Definition match_len (m : matcher string) (s : string) : option nat :=
  match m s with
  | Some r => Some (String.length s - String.length r)
  | None => None
  end.

(** [re.split] of a MULTILINE pattern [^m] whose matches are never empty.
    [skip] counts the characters of the separator still to pass; the head
    of the result is the piece under construction. *)
Fixpoint split_bol (m : matcher string) (bol : bool) (skip : nat)
    (s : string) : list string :=
  match s with
  | EmptyString => [EmptyString]
  | String c s' =>
      match skip with
      | S k => split_bol m (Py.is_nl c) k s'
      | O =>
          match (if bol then match_len m s else None) with
          | Some (S k) => EmptyString :: split_bol m (Py.is_nl c) k s'
          | _ => Py.cons_head c (split_bol m (Py.is_nl c) 0 s')
          end
      end
  end.

Definition split_lines_at (m : matcher string) (s : string) : list string :=
  split_bol m true 0 s.

End Re.

(* ===================================================================== *)
(** * The patterns of [parser.py] *)
(* ===================================================================== *)

Definition not_rparen (c : ascii) : bool := negb (Ascii.eqb c ")").

(** [_PARAM_RE]: a dash, blanks, the name in backquotes, the modifiers in
    parentheses, a colon and the description, up to the end of the line.
    Groups: name, modifiers, description. *)
Definition _PARAM_RE : Re.matcher (string * string * string) :=
  Re.lit "-" (Re.plus Py.is_space (fun _ =>
  Re.lit "`" (Re.plus Py.is_word (fun name =>
  Re.lit "`" (Re.star Py.is_space (fun _ =>
  Re.lit "(" (Re.plus not_rparen (fun modifiers =>
  Re.lit ")" (Re.star Py.is_space (fun _ =>
  Re.lit ":" (Re.star Py.is_space (fun _ =>
  Re.plus Py.not_nl (fun desc =>
  Re.eos (name, modifiers, desc)))))))))))))).

(** [_CODE_BLOCK_RE], DOTALL: an opening fence with an optional language
    word, a line feed, the shortest text up to the next fence.
    Group: the text between the fences. *)
Definition _CODE_BLOCK_RE : Re.matcher string :=
  Re.lits "```" (Re.star Py.is_word (fun _ =>
  Re.lit Py.nl_char (Re.lazy_star Py.any_char (fun body =>
  Re.lits "```" (fun _ => Some body))))).

(** [_TOOL_HEADER_RE]: groups are the tool name and the raw argument list. *)
Definition _TOOL_HEADER_RE : Re.matcher (string * string) :=
  Re.lits "tool:" (Re.plus Py.is_space (fun _ =>
  Re.plus Py.is_word (fun name =>
  Re.lit "(" (Re.star not_rparen (fun args =>
  Re.lit ")" (Re.star Py.is_space (fun _ =>
  Re.eos (name, args)))))))).

(** The separator [tool:\s+] of the compact dialect (tried at line starts). *)
Definition tool_prefix : Re.matcher string :=
  Re.lits "tool:" (Re.plus Py.is_space (fun _ => Re.rest)).

(** The separators [## ] and [### ] of the heading dialect. *)
Definition h2_prefix : Re.matcher string := Re.lits "## " Re.rest.
Definition h3_prefix : Re.matcher string := Re.lits "### " Re.rest.

(** The section key test of the compact dialect: two blanks, a word, a
    colon. *)
Definition section_key_re : Re.matcher unit :=
  Re.one Py.is_space (Re.one Py.is_space (Re.plus Py.is_word (fun _ =>
  Re.lit ":" (fun _ => Some tt)))).

(* ===================================================================== *)
(** * The data model of [types.py] *)
(* ===================================================================== *)

Record Param := mkParam {
  param_name : string;
  param_type : string;
  param_description : string;
  param_required : bool;
  param_default : option string
}.

Record Tool := mkTool {
  tool_name : string;
  tool_description : string;
  tool_params : list Param;
  tool_returns : string;
  tool_sample_code : string
}.

Record Manifest := mkManifest {
  manifest_name : string;
  manifest_description : string;
  manifest_version : string;
  manifest_tools : list Tool;
  manifest_content : string
}.

(** The field defaults of the three models. *)
Definition default_type : string := "string".
Definition default_version : string := "0.1".

(** [Manifest()]. *)
Definition empty_manifest : Manifest :=
  mkManifest EmptyString EmptyString default_version [] EmptyString.

(** [Manifest.get_tool]: the first tool of that name, or [None]. *)
Fixpoint get_tool_in (tools : list Tool) (name : string) : option Tool :=
  match tools with
  | [] => None
  | tool :: tools' =>
      if String.eqb (tool_name tool) name then Some tool
      else get_tool_in tools' name
  end.

Definition Manifest_get_tool (self : Manifest) (name : string) : option Tool :=
  get_tool_in (manifest_tools self) name.

(** [Manifest.tool_names]. *)
Definition tool_names (self : Manifest) : list string :=
  map tool_name (manifest_tools self).

(* ===================================================================== *)
(** * Exceptions *)
(* ===================================================================== *)

Inductive exn : Type :=
| ValueError (msg : string)
| IndexError (msg : string)
| RuntimeError (msg : string)
| KeyError (name : string) (available : list string)
| HTTPStatusError (status : nat).

Inductive result (A : Type) : Type :=
| Ok (a : A)
| Raise (e : exn).
Arguments Ok {A} a.
Arguments Raise {A} e.

Definition bind {A B} (m : result A) (k : A -> result B) : result B :=
  match m with
  | Ok a => k a
  | Raise e => Raise e
  end.

Notation "'let*' x ':=' m 'in' k" := (bind m (fun x => k))
  (at level 10, x pattern, m at level 100, k at level 200).

(** A list comprehension or an appending loop whose body may raise. *)
Fixpoint map_result {A B} (f : A -> result B) (l : list A) : result (list B) :=
  match l with
  | [] => Ok []
  | x :: l' =>
      let* y := f x in
      let* ys := map_result f l' in
      Ok (y :: ys)
  end.

(** A loop that updates a state and whose body may raise. *)
Fixpoint fold_result {A S} (f : S -> A -> result S) (l : list A) (s : S)
    : result S :=
  match l with
  | [] => Ok s
  | x :: l' => let* s' := f s x in fold_result f l' s'
  end.

Definition is_Some_bool {A} (o : option A) : bool :=
  match o with Some _ => true | None => false end.

(** [l[i]]. *)
Definition index {A} (l : list A) (i : nat) : result A :=
  match nth_error l i with
  | Some x => Ok x
  | None => Raise (IndexError "list index out of range")
  end.

(** [a, b = l]. *)
Definition unpack2 {A} (l : list A) : result (A * A) :=
  match l with
  | [a; b] => Ok (a, b)
  | _ => Raise (ValueError "wrong number of values to unpack")
  end.

(* ===================================================================== *)
(** * [parser.py] *)
(* ===================================================================== *)

(** [_extract_code_block]: the content of the first fenced block, else the
    whole text, trimmed. *)
Definition _extract_code_block (text : string) : string :=
  match Re.search _CODE_BLOCK_RE text with
  | Some body => Py.strip body
  | None => Py.strip text
  end.

(** The loop over the modifiers of one param line; the state is
    [(ptype, required, default)]. *)
Definition apply_modifier (st : string * bool * option string) (mod_ : string)
    : string * bool * option string :=
  let '(ptype, required, default) := st in
  if String.eqb mod_ "optional" then (ptype, false, default)
  else if String.eqb mod_ "required" then (ptype, true, default)
  else if Py.startswith "default=" mod_ then
    (ptype, false, Some (Py.strip (Py.removeprefix "default=" mod_)))
  else if existsb (String.eqb mod_) ["string"; "number"; "boolean"; "object"; "array"]
  then (mod_, required, default)
  else (mod_, required, default).

(** One line of a heading-format params block, already trimmed. *)
Definition parse_param_line (line : string) : option Param :=
  match _PARAM_RE line with
  | None => None
  | Some (name, modifiers, desc) =>
      let desc := Py.strip desc in
      let '(ptype, required, default) :=
        fold_left apply_modifier
          (map Py.strip (Py.split "," modifiers))
          (default_type, true, None) in
      Some (mkParam name ptype desc required default)
  end.

(** [_parse_params_block]. *)
Definition _parse_params_block (text : string) : list Param :=
  omap (fun line => parse_param_line (Py.strip line))
       (Py.splitlines (Py.strip text)).

(** The loop of [_parse_manifest_header]; the state is [(name, desc_lines)]. *)
Fixpoint header_loop (lines : list string) (name : string)
    (desc_lines : list string) : string * list string :=
  match lines with
  | [] => (name, desc_lines)
  | line :: lines' =>
      if Py.startswith "# " line then
        header_loop lines' (Py.strip (Py.removeprefix "# " line)) desc_lines
      else if Py.nonempty name then
        header_loop lines' name (desc_lines ++ [line])
      else header_loop lines' name desc_lines
  end.

(** [_parse_manifest_header]. *)
Definition _parse_manifest_header (header : string) : string * string :=
  let lines := Py.splitlines (Py.strip header) in
  let '(name, desc_lines) := header_loop lines EmptyString [] in
  (name, Py.strip (Py.join Py.nl desc_lines)).

(** The dict comprehension of [_parse_heading_tool]: the lowercased title
    of each sub-section mapped to its body; a later title replaces an
    earlier equal one. *)
Definition add_sub_section (d : gmap string string) (s : string)
    : result (gmap string string) :=
  let* title := index (Py.split1 Py.nl_char s) 0 in
  let* body :=
    (if Py.has_char Py.nl_char s then index (Py.split1 Py.nl_char s) 1
     else Ok EmptyString) in
  Ok (<[Py.lower (Py.strip title) := body]> d).

(** [_parse_heading_tool]. *)
Definition _parse_heading_tool (section : string) : result Tool :=
  let sub_parts := Re.split_lines_at h3_prefix section in
  let* header := index sub_parts 0 in
  let* sub_sections := fold_result add_sub_section (tl sub_parts) ∅ in
  let lines := Py.splitlines (Py.strip header) in
  let tool_name := match lines with l :: _ => Py.strip l | [] => EmptyString end in
  let tool_desc := Py.strip (Py.join Py.nl (tl lines)) in
  let params :=
    match sub_sections !! "params" with
    | Some text => _parse_params_block text
    | None => []
    end in
  let sample_code :=
    match sub_sections !! "sample code" with
    | Some text => _extract_code_block text
    | None => EmptyString
    end in
  let returns :=
    match sub_sections !! "output" with
    | Some text => _extract_code_block text
    | None =>
        match sub_sections !! "returns" with
        | Some text => _extract_code_block text
        | None => EmptyString
        end
    end in
  Ok (mkTool tool_name tool_desc params returns sample_code).

(** [_parse_heading]. *)
Definition _parse_heading (markdown : string) : result Manifest :=
  let parts := Re.split_lines_at h2_prefix markdown in
  let* header := index parts 0 in
  let tool_sections := tl parts in
  let '(name, description) := _parse_manifest_header header in
  let* tools := map_result _parse_heading_tool tool_sections in
  Ok (mkManifest name description default_version tools EmptyString).

(** The inner loop of [_parse_compact_params] over the entries of the
    header signature; the state is [(default, required)]. *)
Definition signature_default (pname : string)
    (st : option string * bool) (part : string) : result (option string * bool) :=
  let part := Py.strip part in
  if Py.has_char "=" part then
    let* before := index (Py.split "=" part) 0 in
    if String.eqb (Py.strip before) pname then
      let* after := index (Py.split1 "=" part) 1 in
      Ok (Some (Py.strip_quotes (Py.strip after)), false)
    else Ok st
  else Ok st.

(** The body of the outer loop of [_parse_compact_params]. *)
Definition compact_param_line (raw_params_str : string)
    (params : list Param) (line : string) : result (list Param) :=
  let stripped := Py.strip line in
  if negb (Py.nonempty stripped) then Ok params
  else if Py.has_char ":" stripped then
    let* (pname, ptype) := unpack2 (Py.split1 ":" stripped) in
    let pname := Py.strip pname in
    let ptype := Py.strip ptype in
    let* (default, required) :=
      fold_result (signature_default pname) (Py.split "," raw_params_str)
        (None, true) in
    Ok (params ++ [mkParam pname ptype EmptyString required default])
  else Ok params.

(** [_parse_compact_params]. *)
Definition _parse_compact_params (lines : list string)
    (raw_params_str : string) : result (list Param) :=
  fold_result (compact_param_line raw_params_str) lines [].

(** The body of the loop of [_params_from_signature]. *)
Definition signature_part (params : list Param) (part : string)
    : result (list Param) :=
  let part := Py.strip part in
  if negb (Py.nonempty part) then Ok params
  else if Py.has_char "=" part then
    let* (name, default) := unpack2 (Py.split1 "=" part) in
    let default_val := Py.strip_quotes (Py.strip default) in
    Ok (params ++
        [mkParam (Py.strip name) default_type EmptyString false (Some default_val)])
  else
    Ok (params ++ [mkParam (Py.strip part) default_type EmptyString true None]).

(** [_params_from_signature]. *)
Definition _params_from_signature (sig : string) : result (list Param) :=
  fold_result signature_part (Py.split "," sig) [].

(** The running state of one compact tool block. *)
Record ToolState := mkToolState {
  st_description : string;
  st_params : list Param;
  st_returns : string;
  st_sample_code : string
}.

Definition code_or_text (lines : list string) : string :=
  let code_text := Py.join Py.nl lines in
  if Py.contains "```" code_text then _extract_code_block code_text
  else Py.strip code_text.

(** [_apply_section]. *)
Definition _apply_section (key : string) (lines : list string)
    (raw_params_str : string) (st : ToolState) : result ToolState :=
  let '(mkToolState description params returns sample_code) := st in
  if String.eqb key "description" then
    Ok (mkToolState (Py.strip (Py.join Py.nl (map Py.strip lines)))
          params returns sample_code)
  else if String.eqb key "params" then
    let* params' := _parse_compact_params lines raw_params_str in
    Ok (mkToolState description params' returns sample_code)
  else if String.eqb key "output" || String.eqb key "returns" then
    Ok (mkToolState description params (code_or_text lines) sample_code)
  else if String.eqb key "sample_code" then
    Ok (mkToolState description params returns (code_or_text lines))
  else Ok st.

(** The loop state of [_parse_compact_tool]: the tool fields, the key of
    the section being read and its lines. *)
Record BlockState := mkBlockState {
  bs_tool : ToolState;
  bs_current_key : string;
  bs_current_lines : list string
}.

(** The body of the loop of [_parse_compact_tool] over the lines after the
    header. *)
Definition block_line (raw_params_str : string) (bs : BlockState)
    (line : string) : result BlockState :=
  let '(mkBlockState st current_key current_lines) := bs in
  let stripped := Py.strip line in
  if is_Some_bool (section_key_re line) && negb (Py.startswith "    " line) then
    let* st' :=
      (if Py.nonempty current_key
       then _apply_section current_key current_lines raw_params_str st
       else Ok st) in
    let* key := index (Py.split ":" stripped) 0 in
    let current_key' := Py.strip key in
    let rest := Py.strip (Py.drop (String.length current_key' + 1) stripped) in
    let current_lines' :=
      if Py.nonempty rest && negb (String.eqb rest "|") then [rest] else [] in
    Ok (mkBlockState st' current_key' current_lines')
  else Ok (mkBlockState st current_key (current_lines ++ [line])).

(** [_parse_compact_tool]. *)
Definition _parse_compact_tool (block : string) : result Tool :=
  let lines := Py.splitlines (Py.strip block) in
  match lines with
  | [] => Raise (ValueError "Empty tool block")
  | line0 :: lines' =>
      let* (tool_name, raw_params_str) :=
        match _TOOL_HEADER_RE ("tool: " +:+ line0) with
        | None =>
            let* before := index (Py.split "(" line0) 0 in
            Ok (Py.strip before, EmptyString)
        | Some (name, args) => Ok (name, args)
        end in
      let* bs :=
        fold_result (block_line raw_params_str) lines'
          (mkBlockState (mkToolState EmptyString [] EmptyString EmptyString)
             EmptyString []) in
      let* st :=
        (if Py.nonempty (bs_current_key bs)
         then _apply_section (bs_current_key bs) (bs_current_lines bs)
                raw_params_str (bs_tool bs)
         else Ok (bs_tool bs)) in
      let* params :=
        (match st_params st with
         | [] =>
             if Py.nonempty raw_params_str
             then _params_from_signature raw_params_str
             else Ok []
         | _ :: _ => Ok (st_params st)
         end) in
      Ok (mkTool tool_name (st_description st) params (st_returns st)
            (st_sample_code st))
  end.

(** The preamble loop of [_parse_compact], which stops at the first tool
    header; the state is [(name, preamble_lines)]. *)
Fixpoint preamble_loop (lines : list string) (name : string)
    (preamble_lines : list string) : string * list string :=
  match lines with
  | [] => (name, preamble_lines)
  | line :: lines' =>
      if Py.startswith "# " line then
        preamble_loop lines' (Py.strip (Py.removeprefix "# " line)) preamble_lines
      else if is_Some_bool (_TOOL_HEADER_RE line) then (name, preamble_lines)
      else preamble_loop lines' name (preamble_lines ++ [line])
  end.

(** [_parse_compact]. *)
Definition _parse_compact (markdown : string) : result Manifest :=
  let lines := Py.splitlines markdown in
  let '(name, preamble_lines) := preamble_loop lines EmptyString [] in
  let description := Py.strip (Py.join Py.nl preamble_lines) in
  let tool_blocks := Re.split_lines_at tool_prefix markdown in
  let* tools := map_result _parse_compact_tool (tl tool_blocks) in
  Ok (mkManifest name description default_version tools EmptyString).

(** The format test of [parse]: [re.search] of [^tool:\s+], MULTILINE. *)
Definition has_tool_line (markdown : string) : bool :=
  is_Some_bool (Re.search_bol tool_prefix true markdown).

Definition set_content (m : Manifest) (content : string) : Manifest :=
  mkManifest (manifest_name m) (manifest_description m) (manifest_version m)
    (manifest_tools m) content.

(** [parse]. *)
Definition parse (markdown : string) : result Manifest :=
  let markdown := Py.strip markdown in
  if negb (Py.nonempty markdown) then Ok empty_manifest
  else
    let* manifest :=
      (if has_tool_line markdown then _parse_compact markdown
       else _parse_heading markdown) in
    Ok (set_content manifest markdown).

(* ===================================================================== *)
(** * [serializer.py] *)
(* ===================================================================== *)

(** [_serialize_param]. *)
Definition _serialize_param (param : Param) : string :=
  let modifiers :=
    [param_type param]
    ++ [if param_required param then "required" else "optional"]
    ++ match param_default param with
       | Some d => ["default=" +:+ d]
       | None => []
       end in
  let mod_str := Py.join ", " modifiers in
  let desc :=
    if Py.nonempty (param_description param)
    then ": " +:+ param_description param else EmptyString in
  "- `" +:+ param_name param +:+ "` (" +:+ mod_str +:+ ")" +:+ desc.

(** [_serialize_tool]. *)
Definition _serialize_tool (tool : Tool) : list string :=
  ["## " +:+ tool_name tool]
  ++ (if Py.nonempty (tool_description tool) then [tool_description tool] else [])
  ++ [EmptyString]
  ++ match tool_params tool with
     | [] => []
     | _ :: _ => ["### Params"] ++ map _serialize_param (tool_params tool) ++ [EmptyString]
     end
  ++ (if Py.nonempty (tool_returns tool)
      then ["### Output"; "```typescript"; tool_returns tool; "```"; EmptyString]
      else [])
  ++ (if Py.nonempty (tool_sample_code tool)
      then ["### Sample Code"; "```javascript"; tool_sample_code tool; "```"]
      else []).

(** The lines [to_markdown] joins. *)
Definition markdown_lines (manifest : Manifest) : list string :=
  let lines :=
    (if Py.nonempty (manifest_name manifest)
     then ["# " +:+ manifest_name manifest] else [])
    ++ (if Py.nonempty (manifest_description manifest)
        then [manifest_description manifest] else []) in
  let lines := match lines with [] => lines | _ :: _ => lines ++ [EmptyString] end in
  lines ++ concat (map (fun tool => _serialize_tool tool ++ [EmptyString])
                       (manifest_tools manifest)).

(** [to_markdown]. *)
Definition to_markdown (manifest : Manifest) : string :=
  Py.rstrip (Py.join Py.nl (markdown_lines manifest)) +:+ Py.nl.

(* ===================================================================== *)
(** * [codegen.py] *)
(* ===================================================================== *)

Definition _TS_TYPE_MAP : gmap string string :=
  list_to_map
    [("string", "string"); ("number", "number"); ("boolean", "boolean");
     ("object", "Record<string, unknown>"); ("array", "unknown[]")].

(** [_param_to_ts]. *)
Definition _param_to_ts (param : Param) : string :=
  let ts_type := default (param_type param) (_TS_TYPE_MAP !! param_type param) in
  let optional := if negb (param_required param) then "?" else EmptyString in
  param_name param +:+ optional +:+ ": " +:+ ts_type.

(** The [@param] line of one param in the JSDoc block. *)
Definition jsdoc_param (param : Param) : string :=
  let desc :=
    if Py.nonempty (param_description param)
    then " " +:+ param_description param else EmptyString in
  let default :=
    match param_default param with
    | Some d => if Py.nonempty d then " (default: " +:+ d +:+ ")" else EmptyString
    | None => EmptyString
    end in
  "   * @param " +:+ param_name param +:+ " -" +:+ desc +:+ default.

(** The signature line of [_tool_declaration]. *)
Definition signature_line (tool : Tool) : string :=
  let params_str := Py.join ", " (map _param_to_ts (tool_params tool)) in
  let return_type :=
    if Py.nonempty (tool_returns tool) then tool_returns tool else "any" in
  "  " +:+ tool_name tool +:+ "(" +:+ params_str +:+ "): Promise<"
    +:+ return_type +:+ ">;".

(** [_tool_declaration]. *)
Definition _tool_declaration (tool : Tool) : string :=
  let lines :=
    ["  /**"]
    ++ (if Py.nonempty (tool_description tool)
        then map (fun desc_line => "   * " +:+ desc_line)
                 (Py.splitlines (tool_description tool))
        else [])
    ++ match tool_params tool with
       | [] => []
       | _ :: _ =>
           (if Py.nonempty (tool_description tool) then ["   *"] else [])
           ++ map jsdoc_param (tool_params tool)
       end
    ++ ["   */"]
    ++ [signature_line tool] in
  Py.join Py.nl lines.

(** [generate_typescript]. *)
Definition generate_typescript (manifest : Manifest) : string :=
  match manifest_tools manifest with
  | [] => "declare const global: {};" +:+ Py.nl
  | _ :: _ =>
      let tool_decls := map _tool_declaration (manifest_tools manifest) in
      let inner := Py.join (Py.nl +:+ Py.nl) tool_decls in
      "declare const global: {" +:+ Py.nl +:+ inner +:+ Py.nl +:+ "};" +:+ Py.nl
  end.

(* ===================================================================== *)
(** * [site.py]: validation *)
(* ===================================================================== *)

(** The state of [validate]: the manifest it was given, the warnings
    appended so far and the set of tool names seen. *)
Record ValidateState := mkValidateState {
  vs_manifest : Manifest;
  vs_warnings : list string;
  vs_seen_names : gset string
}.

Definition warn (w : string) (vs : ValidateState) : ValidateState :=
  mkValidateState (vs_manifest vs) (vs_warnings vs ++ [w]) (vs_seen_names vs).

Definition see (name : string) (vs : ValidateState) : ValidateState :=
  mkValidateState (vs_manifest vs) (vs_warnings vs) ({[name]} ∪ vs_seen_names vs).

Definition params_empty (tool : Tool) : bool :=
  match tool_params tool with [] => true | _ :: _ => false end.

(** The body of the loop of [validate] over the tools. *)
Definition validate_tool (vs : ValidateState) (tool : Tool) : ValidateState :=
  let vs :=
    if negb (Py.nonempty (tool_name tool)) then warn "A tool has no name." vs
    else if bool_decide (tool_name tool ∈ vs_seen_names vs)
    then warn ("Duplicate tool name: '" +:+ tool_name tool +:+ "'.") vs
    else see (tool_name tool) vs in
  let vs :=
    if negb (Py.nonempty (tool_description tool))
    then warn ("Tool '" +:+ tool_name tool +:+ "' has no description.") vs
    else vs in
  if params_empty tool && negb (Py.nonempty (tool_sample_code tool))
  then warn ("Tool '" +:+ tool_name tool +:+ "' has no params and no sample_code.") vs
  else vs.

(** [validate], with the state it ends in. *)
Definition validate_run (manifest : Manifest) : ValidateState :=
  let vs := mkValidateState manifest [] ∅ in
  let vs :=
    if negb (Py.nonempty (manifest_name manifest))
    then warn "Manifest has no name." vs else vs in
  let vs :=
    match manifest_tools manifest with
    | [] => warn "Manifest has no tools." vs
    | _ :: _ => vs
    end in
  fold_left validate_tool (manifest_tools manifest) vs.

(** [validate]. *)
Definition validate (manifest : Manifest) : list string :=
  vs_warnings (validate_run manifest).

(** [validate_markdown]. *)
Definition validate_markdown (markdown : string) : result (list string) :=
  let* manifest := parse markdown in
  Ok (validate manifest).

(* ===================================================================== *)
(** * [client.py]: the tool lookups of [AgentClient] *)
(* ===================================================================== *)

(** The client's state besides its HTTP connection: the loaded manifest. *)
Record AgentClient := mkAgentClient {
  _manifest : option Manifest
}.

(** [AgentClient.__init__]. *)
Definition new_client : AgentClient := mkAgentClient None.

(** [AgentClient.load_manifest]. *)
Definition load_manifest (self : AgentClient) (manifest : Manifest) : AgentClient :=
  mkAgentClient (Some manifest).

Definition no_manifest_loaded : exn :=
  RuntimeError "No manifest loaded. Call detect() or load() first.".

(** [AgentClient.list_tools]. *)
Definition list_tools (self : AgentClient) : result (list string) :=
  match _manifest self with
  | None => Raise no_manifest_loaded
  | Some manifest => Ok (tool_names manifest)
  end.

(** [AgentClient.get_tool]. The [KeyError] carries the two values its
    message is formatted from: the name asked for and the tool names. *)
Definition get_tool (self : AgentClient) (name : string) : result Tool :=
  match _manifest self with
  | None => Raise no_manifest_loaded
  | Some manifest =>
      match Manifest_get_tool manifest name with
      | None => Raise (KeyError name (tool_names manifest))
      | Some tool => Ok tool
      end
  end.

(** [AgentClient.typescript]. *)
Definition typescript (self : AgentClient) : result string :=
  match _manifest self with
  | None => Raise no_manifest_loaded
  | Some manifest => Ok (generate_typescript manifest)
  end.

(** The failure of a fetch is the [HTTPStatusError] that
    [raise_for_status] raises in [discovery.py]. *)
Definition is_fetch_error (e : exn) : bool :=
  match e with HTTPStatusError _ => true | _ => false end.

(* ===================================================================== *)
(** * Facts about strings *)
(* ===================================================================== *)

Module StrFacts.

Lemma app_nil_r (s : string) : s +:+ EmptyString = s.
Proof. induction s as [|c s IH]; simpl; congruence. Qed.

Lemma app_assoc (a b c : string) : (a +:+ b) +:+ c = a +:+ (b +:+ c).
Proof. induction a as [|x a IH]; simpl; congruence. Qed.

Lemma length_app (a b : string) :
  String.length (a +:+ b) = String.length a + String.length b.
Proof. induction a as [|x a IH]; simpl; congruence. Qed.

Lemma prefix_nil (s : string) : String.prefix EmptyString s = true.
Proof. destruct s; reflexivity. Qed.

Lemma prefix_cons c p d s :
  String.prefix (String c p) (String d s) = Ascii.eqb c d && String.prefix p s.
Proof.
  simpl. destruct (ascii_dec c d) as [->|Hne].
  - rewrite Ascii.eqb_refl. reflexivity.
  - apply Ascii.eqb_neq in Hne. rewrite Hne. reflexivity.
Qed.

Lemma prefix_app_same (a b c : string) :
  String.prefix (a +:+ b) (a +:+ c) = String.prefix b c.
Proof.
  induction a as [|x a IH]; [reflexivity|].
  change (String.prefix (String x (a +:+ b)) (String x (a +:+ c)) = String.prefix b c).
  rewrite prefix_cons, Ascii.eqb_refl. exact IH.
Qed.

Lemma prefix_app (p s : string) : String.prefix p (p +:+ s) = true.
Proof.
  rewrite <- (app_nil_r p) at 1. rewrite prefix_app_same. apply prefix_nil.
Qed.

Lemma drop_app (p s : string) : Py.drop (String.length p) (p +:+ s) = s.
Proof. induction p as [|c p IH]; simpl; [destruct s|]; auto. Qed.

Lemma join_snoc sep l x :
  l <> [] -> Py.join sep (l ++ [x]) = Py.join sep l +:+ sep +:+ x.
Proof.
  induction l as [|y l IH]; [congruence|]. intros _.
  destruct l as [|z l].
  - reflexivity.
  - change (Py.join sep ((y :: z :: l) ++ [x]))
      with (y +:+ sep +:+ Py.join sep ((z :: l) ++ [x])).
    rewrite IH by discriminate.
    change (Py.join sep (y :: z :: l)) with (y +:+ sep +:+ Py.join sep (z :: l)).
    rewrite !app_assoc. reflexivity.
Qed.

End StrFacts.

Definition ts_type (param : Param) : string :=
  default (param_type param) (_TS_TYPE_MAP !! param_type param).

Definition rendered_optional (param : Param) : Prop :=
  Py.startswith (param_name param +:+ "?") (_param_to_ts param) = true.

(** C2, counterexample: a param with a default whose [required] flag is
    true is rendered without the [?] marker. *)
Lemma default_does_not_make_optional :
  let param := mkParam "limit" "number" EmptyString true (Some "20") in
  param_default param <> None
  /\ _param_to_ts param = "limit: number"
  /\ ~ rendered_optional param.
Proof.
  cbv zeta. split; [discriminate|]. split; [vm_compute; reflexivity|].
  unfold rendered_optional. vm_compute. discriminate.
Qed.

(** C2 (as amended): [_param_to_ts] writes the [?] marker after the name
    exactly when the stored [required] flag is false; the [default] of the
    param plays no part in the signature. *)
Theorem optional_marker_follows_required (param : Param) :
  _param_to_ts param
  = param_name param +:+ (if param_required param then EmptyString else "?")
      +:+ ": " +:+ ts_type param
  /\ (rendered_optional param <-> param_required param = false).
Proof.
  unfold rendered_optional, _param_to_ts, Py.startswith. fold (ts_type param).
  destruct (param_required param); simpl negb; cbv iota.
  - split; [reflexivity|].
    rewrite StrFacts.prefix_app_same. simpl. split; discriminate.
  - split; [reflexivity|].
    rewrite StrFacts.prefix_app_same. simpl. split; reflexivity.
Qed.

Definition getBasket : Tool := mkTool "getBasket" "View basket." [] EmptyString EmptyString.

(** The comment block of a tool without params. *)
Definition jsdoc_lines (tool : Tool) : list string :=
  ["  /**"]
  ++ (if Py.nonempty (tool_description tool)
      then map (fun desc_line => "   * " +:+ desc_line)
               (Py.splitlines (tool_description tool))
      else [])
  ++ ["   */"].

(** The declarations of the tools in front of a tool, each with the blank
    line that follows it, and those of the tools behind it, each with the
    blank line in front of it. *)
Definition decls_before (tools : list Tool) : string :=
  fold_right (fun tool acc => _tool_declaration tool +:+ Py.nl +:+ Py.nl +:+ acc)
    EmptyString tools.

Definition decls_after (tools : list Tool) : string :=
  fold_right (fun tool acc => Py.nl +:+ Py.nl +:+ _tool_declaration tool +:+ acc)
    EmptyString tools.

(** The member line of a tool without params. *)
Definition member_line (tool : Tool) : string :=
  "  " +:+ tool_name tool +:+ "(): Promise<"
    +:+ (if Py.nonempty (tool_returns tool) then tool_returns tool else "any")
    +:+ ">;".

Lemma join_decls_after tool after :
  Py.join (Py.nl +:+ Py.nl) (map _tool_declaration (tool :: after))
  = _tool_declaration tool +:+ decls_after after.
Proof.
  revert tool. induction after as [|t after IH]; intros tool.
  - cbn [map decls_after fold_right]. rewrite StrFacts.app_nil_r. reflexivity.
  - change (Py.join (Py.nl +:+ Py.nl) (map _tool_declaration (tool :: t :: after)))
      with (_tool_declaration tool +:+ (Py.nl +:+ Py.nl)
            +:+ Py.join (Py.nl +:+ Py.nl) (map _tool_declaration (t :: after))).
    rewrite IH. cbn [decls_after fold_right].
    rewrite !StrFacts.app_assoc. reflexivity.
Qed.

Lemma join_decls before : forall tool after,
  Py.join (Py.nl +:+ Py.nl) (map _tool_declaration (before ++ tool :: after))
  = decls_before before +:+ _tool_declaration tool +:+ decls_after after.
Proof.
  induction before as [|b before IH]; intros tool after.
  - apply join_decls_after.
  - assert (Hne : exists x xs, map _tool_declaration (before ++ tool :: after) = x :: xs).
    { destruct before; cbn; eauto. }
    destruct Hne as (x & xs & Hx).
    cbn [app map]. rewrite Hx.
    change (Py.join (Py.nl +:+ Py.nl) (_tool_declaration b :: x :: xs))
      with (_tool_declaration b +:+ (Py.nl +:+ Py.nl)
            +:+ Py.join (Py.nl +:+ Py.nl) (x :: xs)).
    rewrite <- Hx, IH. cbn [decls_before fold_right].
    rewrite !StrFacts.app_assoc. reflexivity.
Qed.

Lemma _tool_declaration_no_params tool :
  tool_params tool = [] ->
  _tool_declaration tool
  = Py.join Py.nl (jsdoc_lines tool) +:+ Py.nl +:+ member_line tool.
Proof.
  intros Hp. unfold _tool_declaration, jsdoc_lines. rewrite Hp. cbv iota.
  rewrite app_nil_l.
  rewrite !(app_assoc _ _ [signature_line tool]).
  rewrite StrFacts.join_snoc by (simpl; discriminate).
  unfold signature_line, member_line. rewrite Hp. reflexivity.
Qed.

Lemma generate_typescript_middle name description version content before tool after :
  generate_typescript
    (mkManifest name description version (before ++ tool :: after) content)
  = "declare const global: {" +:+ Py.nl
    +:+ decls_before before +:+ _tool_declaration tool +:+ decls_after after
    +:+ Py.nl +:+ "};" +:+ Py.nl.
Proof.
  unfold generate_typescript. cbn [manifest_tools].
  destruct (before ++ tool :: after) as [|x xs] eqn:E.
  - destruct before; discriminate E.
  - rewrite <- E, join_decls. rewrite !StrFacts.app_assoc. reflexivity.
Qed.

(** C8: an empty tool list gives the empty container declaration. In the
    declaration of a manifest, a tool without params has a declaration of
    its own, between those of the tools in front of it and behind it, that
    ends with a member line of its own whose signature has no argument;
    without a return type that line is [name(): Promise<any>;], as for
    [getBasket]. *)
Theorem declaration_edge_cases :
  (forall name description version content,
     generate_typescript (mkManifest name description version [] content)
     = "declare const global: {};" +:+ Py.nl)
  /\ (forall mname mdescription version content before after
             name description returns sample_code,
        let tool := mkTool name description [] returns sample_code in
        generate_typescript
          (mkManifest mname mdescription version (before ++ tool :: after) content)
        = "declare const global: {" +:+ Py.nl
          +:+ decls_before before
          +:+ Py.join Py.nl (jsdoc_lines tool) +:+ Py.nl
          +:+ "  " +:+ name +:+ "(): Promise<"
          +:+ (if Py.nonempty returns then returns else "any") +:+ ">;"
          +:+ decls_after after
          +:+ Py.nl +:+ "};" +:+ Py.nl)
  /\ (forall name description returns sample_code,
        let tool := mkTool name description [] returns sample_code in
        _tool_declaration tool
        = Py.join Py.nl (jsdoc_lines tool) +:+ Py.nl
            +:+ "  " +:+ name +:+ "(): Promise<"
            +:+ (if Py.nonempty returns then returns else "any") +:+ ">;")
  /\ (forall mname mdescription version content before after
             name description sample_code,
        exists above below,
          generate_typescript
            (mkManifest mname mdescription version
               (before ++ mkTool name description [] EmptyString sample_code :: after)
               content)
          = above +:+ Py.nl +:+ "  " +:+ name +:+ "(): Promise<any>;"
              +:+ Py.nl +:+ below)
  /\ generate_typescript
       (mkManifest EmptyString EmptyString default_version [getBasket] EmptyString)
     = "declare const global: {" +:+ Py.nl
       +:+ "  /**" +:+ Py.nl
       +:+ "   * View basket." +:+ Py.nl
       +:+ "   */" +:+ Py.nl
       +:+ "  getBasket(): Promise<any>;" +:+ Py.nl
       +:+ "};" +:+ Py.nl.
Proof.
  assert (Hgen : forall mname mdescription version content before after
             name description returns sample_code,
        let tool := mkTool name description [] returns sample_code in
        generate_typescript
          (mkManifest mname mdescription version (before ++ tool :: after) content)
        = "declare const global: {" +:+ Py.nl
          +:+ decls_before before
          +:+ Py.join Py.nl (jsdoc_lines tool) +:+ Py.nl
          +:+ "  " +:+ name +:+ "(): Promise<"
          +:+ (if Py.nonempty returns then returns else "any") +:+ ">;"
          +:+ decls_after after
          +:+ Py.nl +:+ "};" +:+ Py.nl).
  { intros. rewrite generate_typescript_middle.
    rewrite (_tool_declaration_no_params tool) by reflexivity.
    unfold member_line. cbn [tool_name tool_returns tool].
    rewrite !StrFacts.app_assoc. reflexivity. }
  split; [reflexivity|]. split; [exact Hgen|]. split; [|split].
  - intros name description returns sample_code tool.
    rewrite (_tool_declaration_no_params tool) by reflexivity.
    unfold member_line. reflexivity.
  - intros mname mdescription version content before after name description sample_code.
    rewrite Hgen. cbn [Py.nonempty].
    exists ("declare const global: {" +:+ Py.nl +:+ decls_before before
            +:+ Py.join Py.nl
                  (jsdoc_lines (mkTool name description [] EmptyString sample_code))),
      (match after with
       | [] => "};" +:+ Py.nl
       | t :: after' =>
           Py.nl +:+ _tool_declaration t +:+ decls_after after'
           +:+ Py.nl +:+ "};" +:+ Py.nl
       end).
    destruct after as [|t after']; cbn [decls_after fold_right];
      rewrite !StrFacts.app_assoc; reflexivity.
  - vm_compute. reflexivity.
Qed.

Lemma get_tool_in_spec tools name :
  match get_tool_in tools name with
  | None => name ∉ map tool_name tools
  | Some tool =>
      exists before after,
        tools = before ++ tool :: after /\ tool_name tool = name
        /\ (name ∉ map tool_name before)
  end.
Proof.
  induction tools as [|t tools IH]; simpl.
  - apply not_elem_of_nil.
  - destruct (String.eqb (tool_name t) name) eqn:Heq.
    + apply String.eqb_eq in Heq. exists [], tools. simpl.
      split; [reflexivity|]. split; [exact Heq|]. apply not_elem_of_nil.
    + apply String.eqb_neq in Heq.
      destruct (get_tool_in tools name) as [tool|].
      * destruct IH as (before & after & -> & Hname & Hnot).
        exists (t :: before), after. simpl. split; [reflexivity|].
        split; [exact Hname|]. rewrite not_elem_of_cons. split; [congruence|exact Hnot].
      * rewrite not_elem_of_cons. split; [congruence|exact IH].
Qed.

(** C9: without a loaded manifest [get_tool] and [list_tools] raise the
    no-manifest-loaded [RuntimeError]; with a manifest, a name that no tool
    has raises a [KeyError], which is no fetch error, and a name that some
    tool has returns the first tool of that name. *)
Theorem client_lookup_errors (self : AgentClient) (name : string) :
  match _manifest self with
  | None =>
      get_tool self name = Raise no_manifest_loaded
      /\ list_tools self = Raise no_manifest_loaded
  | Some manifest =>
      list_tools self = Ok (tool_names manifest)
      /\ (name ∉ tool_names manifest ->
          get_tool self name = Raise (KeyError name (tool_names manifest))
          /\ is_fetch_error (KeyError name (tool_names manifest)) = false)
      /\ (name ∈ tool_names manifest ->
          exists before tool after,
            manifest_tools manifest = before ++ tool :: after
            /\ tool_name tool = name
            /\ (name ∉ map tool_name before)
            /\ get_tool self name = Ok tool)
  end.
Proof.
  unfold get_tool, list_tools, Manifest_get_tool, tool_names.
  destruct (_manifest self) as [manifest|]; [|split; reflexivity].
  split; [reflexivity|].
  pose proof (get_tool_in_spec (manifest_tools manifest) name) as Hspec.
  destruct (get_tool_in (manifest_tools manifest) name) as [tool|].
  - destruct Hspec as (before & after & Htools & Hname & Hnot). split.
    + intros Habs. exfalso. apply Habs. rewrite Htools, map_app. simpl.
      rewrite elem_of_app, elem_of_cons. right. left. symmetry. exact Hname.
    + intros _. exists before, tool, after. auto.
  - split; [intros _; split; reflexivity|]. intros Hin. contradiction.
Qed.

Lemma client_lookup_errors_witness :
  let manifest := mkManifest "Shop" EmptyString default_version
                    [getBasket; mkTool "getBasket" "Other." [] EmptyString "x"] EmptyString in
  get_tool new_client "getBasket" = Raise no_manifest_loaded
  /\ get_tool (load_manifest new_client manifest) "search"
     = Raise (KeyError "search" ["getBasket"; "getBasket"])
  /\ get_tool (load_manifest new_client manifest) "getBasket" = Ok getBasket.
Proof.
  cbv zeta. split; [|split].
  - exact (proj1 (client_lookup_errors new_client "getBasket")).
  - refine (proj1 (proj1 (proj2 (client_lookup_errors (load_manifest new_client _) "search")) _)).
    simpl. vm_compute. intros H. 
    repeat (apply elem_of_cons in H; destruct H as [H|H]; [discriminate|]).
    exact (not_elem_of_nil _ H).
  - reflexivity.
Defined.

(** ** Specification side of [validate] *)

Definition earlier_has_name (earlier : list Tool) (name : string) : bool :=
  bool_decide (name ∈ map tool_name earlier).

Definition expected_tool_warnings (tools : list Tool) (i : nat) (tool : Tool)
    : list string :=
  (if negb (Py.nonempty (tool_name tool)) then ["A tool has no name."]
   else if earlier_has_name (take i tools) (tool_name tool)
   then ["Duplicate tool name: '" +:+ tool_name tool +:+ "'."]
   else [])
  ++ (if negb (Py.nonempty (tool_description tool))
      then ["Tool '" +:+ tool_name tool +:+ "' has no description."] else [])
  ++ (if params_empty tool && negb (Py.nonempty (tool_sample_code tool))
      then ["Tool '" +:+ tool_name tool +:+ "' has no params and no sample_code."]
      else []).

Definition expected_warnings (m : Manifest) : list string :=
  (if negb (Py.nonempty (manifest_name m)) then ["Manifest has no name."] else [])
  ++ (match manifest_tools m with [] => ["Manifest has no tools."] | _ => [] end)
  ++ concat (imap (expected_tool_warnings (manifest_tools m)) (manifest_tools m)).

Definition named (tools : list Tool) : gset string :=
  list_to_set (filter (fun n => Py.nonempty n = true) (map tool_name tools)).

Lemma elem_of_named tools name :
  Py.nonempty name = true ->
  name ∈ named tools <-> name ∈ map tool_name tools.
Proof.
  intros Hn. unfold named. rewrite elem_of_list_to_set, list_elem_of_filter. tauto.
Qed.

Lemma named_snoc_nonempty tools tool :
  Py.nonempty (tool_name tool) = true ->
  named (tools ++ [tool]) = {[tool_name tool]} ∪ named tools.
Proof.
  intros Hn. unfold named. rewrite map_app, filter_app. simpl.
  rewrite filter_cons_True by done. rewrite filter_nil.
  rewrite list_to_set_app_L. simpl. set_solver.
Qed.

Lemma named_snoc_empty tools tool :
  Py.nonempty (tool_name tool) = false ->
  named (tools ++ [tool]) = named tools.
Proof.
  intros Hn. unfold named. rewrite map_app, filter_app. simpl.
  rewrite filter_cons_False by congruence. rewrite filter_nil.
  rewrite list_to_set_app_L. simpl. set_solver.
Qed.

Lemma validate_tool_step m ws earlier tool all :
  take (length earlier) all = earlier ->
  validate_tool (mkValidateState m ws (named earlier)) tool
  = mkValidateState m
      (ws ++ expected_tool_warnings all (length earlier) tool)
      (named (earlier ++ [tool])).
Proof.
  intros Htake. unfold validate_tool, expected_tool_warnings, earlier_has_name.
  rewrite Htake.
  destruct (Py.nonempty (tool_name tool)) eqn:Hname; simpl.
  - rewrite named_snoc_nonempty by done.
    destruct (bool_decide (tool_name tool ∈ named earlier)) eqn:Hseen.
    + apply bool_decide_eq_true in Hseen. rewrite elem_of_named in Hseen by done.
      rewrite bool_decide_eq_true_2 by done.
      assert (Hsame : {[tool_name tool]} ∪ named earlier = named earlier).
      { apply (elem_of_named _ _ Hname) in Hseen. set_solver. }
      rewrite Hsame.
      destruct (Py.nonempty (tool_description tool)),
        (params_empty tool && negb (Py.nonempty (tool_sample_code tool)));
        unfold warn; simpl; rewrite <- ?app_assoc; reflexivity.
    + apply bool_decide_eq_false in Hseen. rewrite elem_of_named in Hseen by done.
      rewrite bool_decide_eq_false_2 by done.
      destruct (Py.nonempty (tool_description tool)),
        (params_empty tool && negb (Py.nonempty (tool_sample_code tool)));
        unfold warn, see; simpl; rewrite <- ?app_assoc, ?app_nil_r; reflexivity.
  - rewrite named_snoc_empty by done.
    destruct (Py.nonempty (tool_description tool)),
      (params_empty tool && negb (Py.nonempty (tool_sample_code tool)));
      unfold warn; simpl; rewrite <- ?app_assoc; reflexivity.
Qed.

Lemma validate_loop m all : forall rest earlier ws,
  all = earlier ++ rest ->
  fold_left validate_tool rest (mkValidateState m ws (named earlier))
  = mkValidateState m
      (ws ++ concat (imap (fun j => expected_tool_warnings all (length earlier + j)) rest))
      (named all).
Proof.
  induction rest as [|tool rest IH]; intros earlier ws Hall.
  - simpl. rewrite app_nil_r in *. subst. reflexivity.
  - simpl. rewrite (validate_tool_step m ws earlier tool all).
    2:{ subst all. rewrite take_app_length. reflexivity. }
    rewrite (IH (earlier ++ [tool])).
    2:{ rewrite <- app_assoc. exact Hall. }
    f_equal. rewrite <- app_assoc. f_equal. rewrite Nat.add_0_r. f_equal.
    f_equal. apply imap_ext. intros j x _. simpl. rewrite length_app. simpl.
    f_equal. lia.
Qed.

(** C6: [validate] returns the manifest-level warnings (no name, no tools)
    followed, tool by tool in declaration order, by the warnings of that
    tool (no name, or a name already borne by an earlier tool; no
    description; neither params nor sample code), and the manifest it ends
    with is the one it was given. *)
Theorem validate_warnings (manifest : Manifest) :
  validate manifest = expected_warnings manifest
  /\ vs_manifest (validate_run manifest) = manifest.
Proof.
  unfold validate, validate_run, expected_warnings.
  set (ws0 := (if negb (Py.nonempty (manifest_name manifest)) then _ else _) ++ _).
  assert (Hinit :
    (let vs := mkValidateState manifest [] ∅ in
     let vs := if negb (Py.nonempty (manifest_name manifest))
               then warn "Manifest has no name." vs else vs in
     match manifest_tools manifest with
     | [] => warn "Manifest has no tools." vs
     | _ :: _ => vs
     end) = mkValidateState manifest
      ((if negb (Py.nonempty (manifest_name manifest)) then ["Manifest has no name."] else [])
       ++ (match manifest_tools manifest with [] => ["Manifest has no tools."] | _ => [] end))
      (named [])).
  { destruct (Py.nonempty (manifest_name manifest)), (manifest_tools manifest); reflexivity. }
  cbv zeta in Hinit. rewrite Hinit.
  rewrite (validate_loop manifest (manifest_tools manifest) (manifest_tools manifest) [] _ eq_refl).
  simpl. split; [|reflexivity]. subst ws0. rewrite <- app_assoc. reflexivity.
Qed.

(** ** Results of loops whose body cannot raise *)

Lemma map_result_ok {A B} (f : A -> result B) (l : list A) :
  (forall x, In x l -> exists y, f x = Ok y) ->
  exists ys, map_result f l = Ok ys.
Proof.
  induction l as [|x l IH]; intros Hf; simpl.
  - eauto.
  - destruct (Hf x (or_introl eq_refl)) as [y ->]. simpl.
    destruct IH as [ys ->]; [intros; apply Hf; right; assumption|]. simpl. eauto.
Qed.

Lemma map_result_raise {A B} (f : A -> result B) (e : exn) (l : list A) :
  (forall x, (exists y, f x = Ok y) \/ f x = Raise e) ->
  Exists (fun x => f x = Raise e) l ->
  map_result f l = Raise e.
Proof.
  intros Hf. induction 1 as [x l Hx|x l Hex IH]; simpl.
  - rewrite Hx. reflexivity.
  - destruct (Hf x) as [[y ->]| ->]; simpl; [|reflexivity]. rewrite IH. reflexivity.
Qed.

Lemma fold_result_ok {A S} (f : S -> A -> result S) (l : list A) :
  (forall s x, exists s', f s x = Ok s') ->
  forall s, exists s', fold_result f l s = Ok s'.
Proof.
  intros Hf. induction l as [|x l IH]; intros s; simpl.
  - eauto.
  - destruct (Hf s x) as [s' ->]. simpl. apply IH.
Qed.

(** ** Shapes of the results of [split], [split1] and [re.split] *)

Lemma cons_head_cons c pieces : exists p ps, Py.cons_head c pieces = p :: ps.
Proof. destruct pieces; simpl; eauto. Qed.

Lemma split_cons sep s : exists p ps, Py.split sep s = p :: ps.
Proof.
  destruct s as [|c s]; simpl; [eauto|].
  destruct (Ascii.eqb c sep); [eauto|apply cons_head_cons].
Qed.

Lemma has_char_cons c d s :
  Py.has_char c (String d s) = Ascii.eqb d c || Py.has_char c s.
Proof.
  unfold Py.has_char.
  change (Py.contains (String c EmptyString) (String d s))
    with (String.prefix (String c EmptyString) (String d s)
          || Py.contains (String c EmptyString) s).
  rewrite StrFacts.prefix_cons, StrFacts.prefix_nil, andb_true_r.
  rewrite (Ascii.eqb_sym c d). reflexivity.
Qed.

Lemma has_char_nil c : Py.has_char c EmptyString = false.
Proof. reflexivity. Qed.

Lemma split1_shape sep s :
  if Py.has_char sep s
  then exists a b, Py.split1 sep s = [a; b]
  else Py.split1 sep s = [s].
Proof.
  induction s as [|c s IH]; [reflexivity|].
  rewrite has_char_cons. simpl. destruct (Ascii.eqb c sep); simpl; [eauto|].
  destruct (Py.has_char sep s).
  - destruct IH as (a & b & ->). simpl. eauto.
  - rewrite IH. reflexivity.
Qed.

Lemma split1_index0 sep s : exists a, index (Py.split1 sep s) 0 = Ok a.
Proof.
  pose proof (split1_shape sep s) as H. destruct (Py.has_char sep s).
  - destruct H as (a & b & ->). eauto.
  - rewrite H. eauto.
Qed.

Lemma split1_index1 sep s :
  Py.has_char sep s = true -> exists b, index (Py.split1 sep s) 1 = Ok b.
Proof.
  intros Hc. pose proof (split1_shape sep s) as H. rewrite Hc in H.
  destruct H as (a & b & ->). eauto.
Qed.

Lemma split1_unpack sep s :
  Py.has_char sep s = true -> exists a b, unpack2 (Py.split1 sep s) = Ok (a, b).
Proof.
  intros Hc. pose proof (split1_shape sep s) as H. rewrite Hc in H.
  destruct H as (a & b & ->). simpl. eauto.
Qed.

Lemma split_bol_cons m bol skip s :
  exists p ps, Re.split_bol m bol skip s = p :: ps.
Proof.
  revert bol skip. induction s as [|c s IH]; intros bol skip; simpl; [eauto|].
  destruct skip as [|k]; [|apply IH].
  destruct (if bol then Re.match_len m (String c s) else None) as [[|k]|];
    eauto using cons_head_cons.
Qed.

Lemma splitlines_nil s : Py.splitlines s = [] <-> s = EmptyString.
Proof.
  split; [|intros ->; reflexivity].
  destruct s as [|c s]; [reflexivity|]. simpl.
  destruct (Ascii.eqb c Py.cr_char).
  - destruct s as [|c' s]; [discriminate|]. destruct (Ascii.eqb c' Py.nl_char); discriminate.
  - destruct (Py.is_linebreak c); [discriminate|].
    destruct (cons_head_cons c (Py.splitlines s)) as (p & ps & ->). discriminate.
Qed.

(** ** The heading dialect never raises *)

Lemma add_sub_section_ok d s : exists d', add_sub_section d s = Ok d'.
Proof.
  unfold add_sub_section.
  destruct (split1_index0 Py.nl_char s) as [a ->]. simpl.
  destruct (Py.has_char Py.nl_char s) eqn:Hc.
  - destruct (split1_index1 _ _ Hc) as [b ->]. simpl. eauto.
  - simpl. eauto.
Qed.

Lemma _parse_heading_tool_ok section : exists tool, _parse_heading_tool section = Ok tool.
Proof.
  unfold _parse_heading_tool, Re.split_lines_at.
  destruct (split_bol_cons h3_prefix true 0 section) as (p & ps & ->). simpl.
  destruct (fold_result_ok add_sub_section ps add_sub_section_ok ∅) as [d ->].
  simpl. eauto.
Qed.

Lemma _parse_heading_ok markdown :
  exists tools,
    _parse_heading markdown
    = Ok (mkManifest
            (fst (_parse_manifest_header (hd EmptyString (Re.split_lines_at h2_prefix markdown))))
            (snd (_parse_manifest_header (hd EmptyString (Re.split_lines_at h2_prefix markdown))))
            default_version tools EmptyString).
Proof.
  unfold _parse_heading, Re.split_lines_at.
  destruct (split_bol_cons h2_prefix true 0 markdown) as (p & ps & ->). simpl.
  destruct (_parse_manifest_header p) as [name description].
  destruct (map_result_ok _parse_heading_tool ps) as [tools ->].
  { intros; apply _parse_heading_tool_ok. }
  simpl. eauto.
Qed.

(** ** The compact dialect raises only for an empty block *)

Lemma signature_default_ok pname st part :
  exists st', signature_default pname st part = Ok st'.
Proof.
  unfold signature_default. destruct (Py.has_char "=" (Py.strip part)) eqn:Hc; [|eauto].
  destruct (split_cons "=" (Py.strip part)) as (p & ps & ->). simpl.
  destruct (String.eqb (Py.strip p) pname); [|eauto].
  destruct (split1_index1 _ _ Hc) as [b ->]. simpl. eauto.
Qed.

Lemma compact_param_line_ok raw params line :
  exists params', compact_param_line raw params line = Ok params'.
Proof.
  unfold compact_param_line.
  destruct (negb (Py.nonempty (Py.strip line))); [eauto|].
  destruct (Py.has_char ":" (Py.strip line)) eqn:Hc; [|eauto].
  destruct (split1_unpack _ _ Hc) as (a & b & ->). simpl.
  destruct (fold_result_ok (signature_default (Py.strip a)) (Py.split "," raw)
              (signature_default_ok _) (None, true)) as [[d r] ->].
  simpl. eauto.
Qed.

Lemma _parse_compact_params_ok lines raw :
  exists params, _parse_compact_params lines raw = Ok params.
Proof. apply fold_result_ok. apply compact_param_line_ok. Qed.

Lemma signature_part_ok params part :
  exists params', signature_part params part = Ok params'.
Proof.
  unfold signature_part.
  destruct (negb (Py.nonempty (Py.strip part))); [eauto|].
  destruct (Py.has_char "=" (Py.strip part)) eqn:Hc; [|eauto].
  destruct (split1_unpack _ _ Hc) as (a & b & ->). simpl. eauto.
Qed.

Lemma _params_from_signature_ok sig :
  exists params, _params_from_signature sig = Ok params.
Proof. apply fold_result_ok. apply signature_part_ok. Qed.

Lemma _apply_section_ok key lines raw st :
  exists st', _apply_section key lines raw st = Ok st'.
Proof.
  unfold _apply_section. destruct st as [d p r sc].
  destruct (String.eqb key "description"); [eauto|].
  destruct (String.eqb key "params").
  - destruct (_parse_compact_params_ok lines raw) as [ps ->]. simpl. eauto.
  - destruct (String.eqb key "output" || String.eqb key "returns"); [eauto|].
    destruct (String.eqb key "sample_code"); eauto.
Qed.

Lemma block_line_ok raw bs line : exists bs', block_line raw bs line = Ok bs'.
Proof.
  unfold block_line. destruct bs as [st key lines].
  destruct (is_Some_bool (section_key_re line) && negb (Py.startswith "    " line)); [|eauto].
  assert (Hst : exists st',
    (if Py.nonempty key then _apply_section key lines raw st else Ok st) = Ok st').
  { destruct (Py.nonempty key); [apply _apply_section_ok|eauto]. }
  destruct Hst as [st' ->]. simpl.
  destruct (split_cons ":" (Py.strip line)) as (p & ps & ->). simpl. eauto.
Qed.

Lemma _parse_compact_tool_cases block :
  if Py.nonempty (Py.strip block)
  then exists tool, _parse_compact_tool block = Ok tool
  else _parse_compact_tool block = Raise (ValueError "Empty tool block").
Proof.
  unfold _parse_compact_tool.
  destruct (Py.strip block) as [|c s] eqn:Hs; [reflexivity|].
  simpl Py.nonempty. cbv iota.
  destruct (Py.splitlines (String c s)) as [|line0 lines'] eqn:Hl.
  { apply splitlines_nil in Hl. discriminate. }
  assert (Hhead : exists name raw,
    match _TOOL_HEADER_RE ("tool: " +:+ line0) with
    | Some (name, args) => Ok (name, args)
    | None => let* before := index (Py.split "(" line0) 0 in Ok (Py.strip before, EmptyString)
    end = Ok (name, raw)).
  { destruct (_TOOL_HEADER_RE ("tool: " +:+ line0)) as [[name args]|]; [eauto|].
    destruct (split_cons "(" line0) as (p & ps & ->). simpl. eauto. }
  destruct Hhead as (name & raw & ->). simpl.
  destruct (fold_result_ok (block_line raw) lines' (block_line_ok raw)
              (mkBlockState (mkToolState EmptyString [] EmptyString EmptyString) EmptyString []))
    as [bs ->]. simpl.
  assert (Hst : exists st,
    (if Py.nonempty (bs_current_key bs)
     then _apply_section (bs_current_key bs) (bs_current_lines bs) raw (bs_tool bs)
     else Ok (bs_tool bs)) = Ok st).
  { destruct (Py.nonempty (bs_current_key bs)); [apply _apply_section_ok|eauto]. }
  destruct Hst as [st ->]. simpl.
  destruct (st_params st); simpl; [|eauto].
  destruct (Py.nonempty raw); simpl; [|eauto].
  destruct (_params_from_signature_ok raw) as [ps ->]. simpl. eauto.
Qed.

(** ** Totality of [parse] *)

Definition tool_blocks (markdown : string) : list string :=
  tl (Re.split_lines_at tool_prefix markdown).

Definition has_empty_tool_block (markdown : string) : Prop :=
  has_tool_line markdown = true
  /\ Exists (fun block => Py.strip block = EmptyString) (tool_blocks markdown).

Lemma nonempty_false s : Py.nonempty s = false <-> s = EmptyString.
Proof. destruct s; simpl; split; congruence. Qed.

Lemma _parse_compact_tool_raise block :
  Py.strip block = EmptyString ->
  _parse_compact_tool block = Raise (ValueError "Empty tool block").
Proof.
  intros H. pose proof (_parse_compact_tool_cases block) as Hc.
  rewrite H in Hc. exact Hc.
Qed.

Lemma _parse_compact_tool_ok block :
  Py.strip block <> EmptyString -> exists tool, _parse_compact_tool block = Ok tool.
Proof.
  intros H. pose proof (_parse_compact_tool_cases block) as Hc.
  destruct (Py.strip block); [congruence|exact Hc].
Qed.

Lemma _parse_compact_tool_alt block :
  (exists tool, _parse_compact_tool block = Ok tool)
  \/ _parse_compact_tool block = Raise (ValueError "Empty tool block").
Proof.
  pose proof (_parse_compact_tool_cases block) as Hc.
  destruct (Py.nonempty (Py.strip block)); auto.
Qed.

(** C3, counterexample: on two adjacent [tool:] lines [parse] raises. *)
Lemma parse_raises_on_adjacent_tool_lines :
  parse ("tool:" +:+ Py.nl +:+ "tool: x") = Raise (ValueError "Empty tool block").
Proof. vm_compute. reflexivity. Qed.

(** C3 (as amended): blank input gives the empty manifest; [parse] raises
    [ValueError] exactly when the compact dialect is selected and some tool
    block is empty once trimmed; on every other input it returns a manifest
    whose content is the trimmed text. *)
Theorem parse_raises_only_for_empty_tool_block (text : string) :
  (Py.strip text = EmptyString -> parse text = Ok empty_manifest)
  /\ (has_empty_tool_block (Py.strip text) ->
      parse text = Raise (ValueError "Empty tool block"))
  /\ (~ has_empty_tool_block (Py.strip text) ->
      exists manifest,
        parse text = Ok manifest /\ manifest_content manifest = Py.strip text).
Proof.
  unfold parse, has_empty_tool_block, tool_blocks.
  destruct (Py.strip text) as [|c s] eqn:Hs.
  { split; [reflexivity|]. split.
    - intros [Hline _]. discriminate.
    - intros _. exists empty_manifest. split; reflexivity. }
  simpl Py.nonempty. simpl negb. cbv iota.
  split; [discriminate|].
  destruct (has_tool_line (String c s)) eqn:Hline.
  - unfold _parse_compact.
    destruct (preamble_loop (Py.splitlines (String c s)) EmptyString []) as [name pre].
    split.
    + intros [_ Hex].
      rewrite (map_result_raise _parse_compact_tool (ValueError "Empty tool block")).
      * reflexivity.
      * apply _parse_compact_tool_alt.
      * eapply Exists_impl; [exact Hex|]. intros b. apply _parse_compact_tool_raise.
    + intros Hno.
      destruct (map_result_ok _parse_compact_tool
                  (tl (Re.split_lines_at tool_prefix (String c s)))) as [tools ->].
      * intros b Hb. apply _parse_compact_tool_ok. intros Hblank. apply Hno.
        split; [reflexivity|]. apply List.Exists_exists. eauto.
      * simpl. eexists. split; reflexivity.
  - split; [intros [Habs _]; discriminate|]. intros _.
    destruct (_parse_heading_ok (String c s)) as [tools ->]. simpl.
    eexists. split; reflexivity.
Qed.

Lemma parse_raises_only_for_empty_tool_block_witness :
  parse (" " +:+ Py.nl) = Ok empty_manifest
  /\ parse ("tool:" +:+ Py.nl +:+ "tool: x") = Raise (ValueError "Empty tool block")
  /\ exists manifest, parse "# Shop" = Ok manifest /\ manifest_content manifest = "# Shop".
Proof.
  split; [|split].
  - apply (proj1 (parse_raises_only_for_empty_tool_block (" " +:+ Py.nl))).
    vm_compute. reflexivity.
  - apply (proj1 (proj2 (parse_raises_only_for_empty_tool_block
                           ("tool:" +:+ Py.nl +:+ "tool: x")))).
    split; [vm_compute; reflexivity|].
    apply Exists_cons_hd. vm_compute. reflexivity.
  - apply (proj2 (proj2 (parse_raises_only_for_empty_tool_block "# Shop"))).
    intros [Habs _]. vm_compute in Habs. discriminate.
Defined.

(** ** Searching at line starts *)

(** [before] ends where a line starts: it is empty (and the scan began at a
    line start) or it ends with a line feed. *)
Definition line_start (bol : bool) (before : string) : Prop :=
  (before = EmptyString /\ bol = true) \/ exists b, before = b +:+ Py.nl.

Lemma line_start_cons bol c before :
  line_start bol (String c before) -> line_start (Py.is_nl c) before.
Proof.
  intros [[Habs _]|[b Hb]]; [discriminate|].
  destruct b as [|d b]; unfold Py.nl in Hb; simpl in Hb.
  - injection Hb as -> ->. left. split; reflexivity.
  - injection Hb as -> ->. right. exists b. reflexivity.
Qed.

Lemma line_start_cons_inv c before bol :
  line_start (Py.is_nl c) before -> line_start bol (String c before).
Proof.
  intros [[-> Hnl]|[b ->]].
  - right. exists EmptyString. simpl. unfold Py.is_nl in Hnl.
    apply Ascii.eqb_eq in Hnl. subst. reflexivity.
  - right. exists (String c b). reflexivity.
Qed.

Lemma search_bol_complete {A} (m : Re.matcher A) before : forall bol suffix,
  line_start bol before -> m suffix <> None ->
  Re.search_bol m bol (before +:+ suffix) <> None.
Proof.
  induction before as [|c before IH]; intros bol suffix Hstart Hm.
  - destruct Hstart as [[_ ->]|[b Hb]].
    + simpl. destruct suffix; simpl; destruct (m _) eqn:E; congruence.
    + destruct b; discriminate.
  - simpl. destruct (if bol then m (String c (before +:+ suffix)) else None);
      [discriminate|].
    apply IH; [|exact Hm]. eapply line_start_cons. exact Hstart.
Qed.

Lemma search_bol_sound {A} (m : Re.matcher A) s : forall bol,
  Re.search_bol m bol s <> None ->
  exists before suffix,
    s = before +:+ suffix /\ line_start bol before /\ m suffix <> None.
Proof.
  induction s as [|c s IH]; intros bol Hs.
  - simpl in Hs. destruct bol; [|congruence].
    exists EmptyString, EmptyString. split; [reflexivity|]. split.
    + left. split; reflexivity.
    + destruct (m EmptyString); congruence.
  - simpl in Hs.
    destruct (if bol then m (String c s) else None) eqn:E.
    + destruct bol; [|discriminate].
      exists EmptyString, (String c s). split; [reflexivity|]. split.
      * left. split; reflexivity.
      * congruence.
    + destruct (IH _ Hs) as (before & suffix & -> & Hstart & Hm).
      exists (String c before), suffix. split; [reflexivity|]. split; [|exact Hm].
      eapply line_start_cons_inv. exact Hstart.
Qed.

(** ** Literal prefixes and the tool separator *)

Lemma lits_app {A} (p : string) (k : Re.matcher A) s : Re.lits p k (p +:+ s) = k s.
Proof.
  induction p as [|c p IH]; [reflexivity|].
  simpl. rewrite Ascii.eqb_refl. exact IH.
Qed.

Lemma lits_inv {A} (p : string) (k : Re.matcher A) s :
  Re.lits p k s <> None -> exists s', s = p +:+ s' /\ k s' <> None.
Proof.
  revert s. induction p as [|c p IH]; intros s H.
  - exists s. split; [reflexivity|exact H].
  - simpl in H. unfold Re.lit in H. destruct s as [|d s]; [congruence|].
    destruct (Ascii.eqb c d) eqn:E; [|congruence].
    apply Ascii.eqb_eq in E. subst d.
    destruct (IH _ H) as (s' & -> & Hk). exists s'. split; [reflexivity|exact Hk].
Qed.

Lemma star_total {A} cls (k : string -> Re.matcher A) s :
  (forall w r, k w r <> None) -> Re.star cls k s <> None.
Proof.
  revert k. induction s as [|c s IH]; intros k Hk; simpl; [apply Hk|].
  destruct (cls c); [|apply Hk].
  destruct (Re.star cls (fun w => k (String c w)) s) eqn:E; [discriminate|].
  exfalso. revert E. apply IH. intros w r. apply Hk.
Qed.

Lemma plus_inv {A} cls (k : string -> Re.matcher A) s :
  Re.plus cls k s <> None -> exists c s', s = String c s' /\ cls c = true.
Proof.
  unfold Re.plus. destruct s as [|c s]; [congruence|].
  destruct (cls c) eqn:E; [|congruence]. eauto.
Qed.

Lemma tool_prefix_matches s :
  tool_prefix s <> None
  <-> exists c after, s = "tool:" +:+ String c after /\ Py.is_space c = true.
Proof.
  unfold tool_prefix. split.
  - intros H. apply lits_inv in H. destruct H as (s' & -> & H).
    apply plus_inv in H. destruct H as (c & after & -> & Hc). eauto.
  - intros (c & after & -> & Hc). rewrite lits_app. unfold Re.plus. rewrite Hc.
    apply star_total. intros w r. discriminate.
Qed.

Lemma _TOOL_HEADER_RE_prefix line :
  _TOOL_HEADER_RE line <> None ->
  exists c after, line = "tool:" +:+ String c after /\ Py.is_space c = true.
Proof.
  unfold _TOOL_HEADER_RE. intros H. apply lits_inv in H.
  destruct H as (s' & -> & H). apply plus_inv in H.
  destruct H as (c & after & -> & Hc). eauto.
Qed.

(** ** Dialect selection *)

(** Some line of the text starts with [tool:] and a blank. *)
Definition starts_tool_line (markdown : string) : Prop :=
  exists before c after,
    markdown = before +:+ "tool:" +:+ String c after
    /\ Py.is_space c = true /\ line_start true before.

(** Some line of the text has the full shape of a tool header. *)
Definition has_tool_header_line (markdown : string) : bool :=
  existsb (fun line => is_Some_bool (_TOOL_HEADER_RE line))
    (Py.split Py.nl_char markdown).

Lemma split_lines_positions sep s :
  exists p ps,
    Py.split sep s = p :: ps
    /\ (exists after, s = p +:+ after)
    /\ forall l, In l ps ->
         exists b after, s = (b +:+ String sep EmptyString) +:+ l +:+ after.
Proof.
  induction s as [|d s IH].
  - exists EmptyString, []. simpl. split; [reflexivity|]. split.
    + exists EmptyString. reflexivity.
    + intros l [].
  - destruct IH as (p & ps & Hsplit & [after Hp] & Hps). simpl. rewrite Hsplit.
    destruct (Ascii.eqb d sep) eqn:E.
    + apply Ascii.eqb_eq in E. subst d.
      exists EmptyString, (p :: ps). split; [reflexivity|]. split.
      * exists (String sep s). reflexivity.
      * intros l [<-|Hl].
        -- exists EmptyString, after. simpl. rewrite <- Hp. reflexivity.
        -- destruct (Hps l Hl) as (b & after' & ->).
           exists (String sep b), after'. reflexivity.
    + exists (String d p), ps. simpl. split; [reflexivity|]. split.
      * exists after. rewrite Hp. reflexivity.
      * intros l Hl. destruct (Hps l Hl) as (b & after' & ->).
        exists (String d b), after'. reflexivity.
Qed.

Definition compact_result (text : string) : result Manifest :=
  let* manifest := _parse_compact (Py.strip text) in
  Ok (set_content manifest (Py.strip text)).

Definition heading_result (text : string) : result Manifest :=
  let* manifest := _parse_heading (Py.strip text) in
  Ok (set_content manifest (Py.strip text)).

Lemma is_Some_bool_true {A} (o : option A) : is_Some_bool o = true <-> o <> None.
Proof. destruct o; simpl; split; congruence. Qed.

Lemma has_tool_line_iff markdown :
  has_tool_line markdown = true <-> starts_tool_line markdown.
Proof.
  unfold has_tool_line, starts_tool_line. rewrite is_Some_bool_true. split.
  - intros H. apply search_bol_sound in H.
    destruct H as (before & suffix & -> & Hstart & Hm).
    apply tool_prefix_matches in Hm. destruct Hm as (c & after & -> & Hc).
    exists before, c, after. auto.
  - intros (before & c & after & -> & Hc & Hstart).
    apply search_bol_complete; [exact Hstart|].
    apply tool_prefix_matches. eauto.
Qed.

Lemma header_line_starts_tool_line markdown :
  has_tool_header_line markdown = true -> starts_tool_line markdown.
Proof.
  unfold has_tool_header_line. rewrite existsb_exists.
  intros (line & Hin & Hre). apply is_Some_bool_true in Hre.
  apply _TOOL_HEADER_RE_prefix in Hre. destruct Hre as (c & rest & -> & Hc).
  destruct (split_lines_positions Py.nl_char markdown)
    as (p & ps & Hsplit & [after Hp] & Hps).
  rewrite Hsplit in Hin. destruct Hin as [->|Hin].
  - exists EmptyString, c, (rest +:+ after). split; [|split; [exact Hc|]].
    + rewrite Hp. reflexivity.
    + left. split; reflexivity.
  - destruct (Hps _ Hin) as (b & after' & ->).
    exists (b +:+ Py.nl), c, (rest +:+ after'). split; [|split; [exact Hc|]].
    + unfold Py.nl. f_equal.
    + right. exists b. reflexivity.
Qed.

(** C5, counterexample: a line that starts with [tool:] and a blank selects
    the compact dialect although no line has the shape of a tool header. *)
Lemma prefix_line_selects_compact :
  let text := "tool: hello world" in
  has_tool_header_line text = false
  /\ parse text = compact_result text
  /\ parse text <> heading_result text.
Proof.
  cbv zeta. split; [|split].
  - vm_compute. reflexivity.
  - vm_compute. reflexivity.
  - vm_compute. discriminate.
Qed.

(** C5 (as amended): on non-blank input [parse] reads the whole trimmed
    text in the compact dialect exactly when some line of it starts with
    [tool:] followed by a blank, and in the heading dialect otherwise; a line
    of the full tool-header shape is one such line. *)
Theorem dialect_follows_tool_prefix (text : string) :
  Py.strip text <> EmptyString ->
  (starts_tool_line (Py.strip text) -> parse text = compact_result text)
  /\ (~ starts_tool_line (Py.strip text) -> parse text = heading_result text)
  /\ (has_tool_header_line (Py.strip text) = true -> parse text = compact_result text).
Proof.
  intros Hne.
  assert (Hparse : parse text
    = if has_tool_line (Py.strip text) then compact_result text else heading_result text).
  { unfold parse, compact_result, heading_result.
    destruct (Py.strip text); [congruence|]. simpl.
    destruct (has_tool_line _); reflexivity. }
  assert (Hcompact : starts_tool_line (Py.strip text) -> parse text = compact_result text).
  { intros H. apply has_tool_line_iff in H. rewrite Hparse, H. reflexivity. }
  split; [exact Hcompact|]. split.
  - intros H. rewrite Hparse. destruct (has_tool_line (Py.strip text)) eqn:E; [|reflexivity].
    exfalso. apply H. apply has_tool_line_iff. exact E.
  - intros H. apply Hcompact. apply header_line_starts_tool_line. exact H.
Qed.

Lemma dialect_follows_tool_prefix_witness :
  let text := "# Shop" +:+ Py.nl +:+ "## search" +:+ Py.nl +:+ "tool: go" in
  parse text = compact_result text.
Proof.
  cbv zeta.
  refine (proj1 (dialect_follows_tool_prefix _ _) _).
  - vm_compute. discriminate.
  - apply has_tool_line_iff. vm_compute. reflexivity.
Defined.

(** ** The header of the heading dialect *)

Definition header_segment (text : string) : string :=
  hd EmptyString (Re.split_lines_at h2_prefix (Py.strip text)).

Definition header_lines (text : string) : list string :=
  Py.splitlines (Py.strip (header_segment text)).

Definition is_title (line : string) : bool := Py.startswith "# " line.

Lemma _parse_manifest_header_unfold header :
  _parse_manifest_header header
  = (fst (header_loop (Py.splitlines (Py.strip header)) EmptyString []),
     Py.strip (Py.join Py.nl
       (snd (header_loop (Py.splitlines (Py.strip header)) EmptyString [])))).
Proof.
  unfold _parse_manifest_header.
  destruct (header_loop (Py.splitlines (Py.strip header)) EmptyString []). reflexivity.
Qed.

Lemma parse_heading_fields text :
  has_tool_line (Py.strip text) = false ->
  exists manifest,
    parse text = Ok manifest
    /\ manifest_name manifest
       = fst (header_loop (header_lines text) EmptyString [])
    /\ manifest_description manifest
       = Py.strip (Py.join Py.nl (snd (header_loop (header_lines text) EmptyString []))).
Proof.
  intros Hline. unfold parse, header_lines, header_segment.
  destruct (Py.strip text) as [|c s] eqn:Hs.
  - exists empty_manifest. repeat split; reflexivity.
  - simpl Py.nonempty. simpl negb. cbv iota. rewrite Hline.
    destruct (_parse_heading_ok (String c s)) as [tools ->]. simpl.
    rewrite _parse_manifest_header_unfold. simpl.
    eexists. repeat split; reflexivity.
Qed.

(** The name in force after the lines [before] have been read: the text of
    the last of them that starts with [# ], and the empty name without
    one. *)
Definition name_after (before : list string) : string :=
  match last (filter (fun l => is_title l = true) before) with
  | Some line => Py.strip (Py.removeprefix "# " line)
  | None => EmptyString
  end.

(** The line at position [i], when it is part of the description: it does
    not start with [# ], and the name in force after the lines in front of
    it is not empty. *)
Definition described_at (lines : list string) (i : nat) : option string :=
  match lines !! i with
  | Some line =>
      if negb (is_title line) && Py.nonempty (name_after (take i lines))
      then Some line else None
  | None => None
  end.

(** The lines of the description, by position and in the order of the
    header. *)
Definition described (lines : list string) : list string :=
  omap (described_at lines) (seq 0 (length lines)).

Lemma name_after_snoc before line :
  name_after (before ++ [line])
  = if is_title line then Py.strip (Py.removeprefix "# " line)
    else name_after before.
Proof.
  unfold name_after. rewrite filter_app.
  destruct (is_title line) eqn:E.
  - rewrite filter_cons_True by exact E. rewrite filter_nil, last_snoc. reflexivity.
  - rewrite filter_cons_False by (rewrite E; discriminate).
    rewrite filter_nil, app_nil_r. reflexivity.
Qed.

Lemma name_after_title before :
  Py.nonempty (name_after before) = true ->
  exists title, In title before /\ is_title title = true.
Proof.
  unfold name_after.
  destruct (last (filter (fun l => is_title l = true) before)) as [t|] eqn:E;
    [intros _|discriminate].
  assert (Hin : t ∈ filter (fun l => is_title l = true) before).
  { apply last_Some in E. destruct E as [l' ->]. apply elem_of_app. right.
    apply list_elem_of_singleton. reflexivity. }
  apply list_elem_of_filter in Hin. destruct Hin as [Ht Hin].
  exists t. split; [apply list_elem_of_In; exact Hin|exact Ht].
Qed.

Lemma name_after_no_title before :
  (forall line, In line before -> is_title line = false) ->
  name_after before = EmptyString.
Proof.
  intros H. destruct (Py.nonempty (name_after before)) eqn:E.
  - destruct (name_after_title _ E) as (t & Hin & Ht).
    rewrite (H t Hin) in Ht. discriminate.
  - destruct (name_after before); [reflexivity|discriminate].
Qed.

(** The loop of [_parse_manifest_header], started behind the lines
    [before] with the name in force there. *)
Lemma header_loop_described lines : forall before desc_lines,
  header_loop lines (name_after before) desc_lines
  = (name_after (before ++ lines),
     desc_lines
     ++ omap (described_at (before ++ lines)) (seq (length before) (length lines))).
Proof.
  induction lines as [|line lines IH]; intros before desc_lines.
  - cbn. rewrite !app_nil_r. reflexivity.
  - assert (Hat : described_at (before ++ line :: lines) (length before)
                  = if negb (is_title line) && Py.nonempty (name_after before)
                    then Some line else None).
    { unfold described_at. rewrite list_lookup_middle by reflexivity.
      rewrite take_app_length. reflexivity. }
    cbn [header_loop length seq omap list_omap]. rewrite Hat.
    pose proof (name_after_snoc before line) as Hn.
    pose proof (IH (before ++ [line])) as IH'.
    rewrite <- app_assoc in IH'. cbn [app] in IH'.
    rewrite length_app in IH'. cbn [length] in IH'.
    rewrite Nat.add_1_r in IH'.
    change (Py.startswith "# " line) with (is_title line).
    destruct (is_title line) eqn:Et; cbn [negb andb].
    + rewrite <- Hn. apply IH'.
    + rewrite Hn in IH'. destruct (Py.nonempty (name_after before)).
      * rewrite IH'. rewrite <- app_assoc. reflexivity.
      * apply IH'.
Qed.

Lemma header_loop_spec lines :
  header_loop lines EmptyString [] = (name_after lines, described lines).
Proof. exact (header_loop_described lines [] []). Qed.

(** A line is part of the description exactly at the positions where it
    does not start with [# ] and the name in force in front of it is not
    empty. *)
Lemma described_iff lines line :
  In line (described lines)
  <-> exists before after,
        lines = before ++ line :: after
        /\ is_title line = false
        /\ Py.nonempty (name_after before) = true.
Proof.
  unfold described. rewrite <- list_elem_of_In, list_elem_of_omap. split.
  - intros (i & _ & Hi). unfold described_at in Hi.
    destruct (lines !! i) as [l|] eqn:El; [|discriminate].
    destruct (negb (is_title l) && Py.nonempty (name_after (take i lines))) eqn:E;
      [|discriminate].
    injection Hi as <-. apply andb_true_iff in E. destruct E as [Et En].
    apply negb_true_iff in Et.
    exists (take i lines), (drop (S i) lines).
    split; [|split; assumption].
    symmetry. apply take_drop_middle. exact El.
  - intros (before & after & -> & Et & En).
    exists (length before). split.
    + apply list_elem_of_In, in_seq. rewrite length_app. cbn. lia.
    + unfold described_at. rewrite list_lookup_middle by reflexivity.
      rewrite take_app_length, Et, En. reflexivity.
Qed.

Lemma parse_heading_header text :
  has_tool_line (Py.strip text) = false ->
  exists manifest,
    parse text = Ok manifest
    /\ manifest_name manifest = name_after (header_lines text)
    /\ manifest_description manifest
       = Py.strip (Py.join Py.nl (described (header_lines text))).
Proof.
  intros Hline.
  destruct (parse_heading_fields text Hline) as (manifest & Hparse & Hname & Hdesc).
  rewrite header_loop_spec in Hname, Hdesc.
  exists manifest. auto.
Qed.

(** C10: in the heading dialect the name is the text of the last header
    line that starts with [# ] (the empty name without one), and the
    description is made of exactly the header lines, in their order, that
    do not start with [# ] and come behind a line that gave a name that is
    not empty. So a line is collected only after a line starting with
    [# ] has been seen and is never such a line itself; when no header
    line starts with [# ] both the name and the description are empty; and
    a later line starting with [# ] overwrites the name. *)
Theorem header_is_described_only_after_title (text : string) :
  has_tool_line (Py.strip text) = false ->
  exists manifest,
    parse text = Ok manifest
    /\ manifest_name manifest = name_after (header_lines text)
    /\ manifest_description manifest
       = Py.strip (Py.join Py.nl (described (header_lines text)))
    /\ (forall line,
          In line (described (header_lines text))
          <-> exists before after,
                header_lines text = before ++ line :: after
                /\ Py.startswith "# " line = false
                /\ Py.nonempty (name_after before) = true)
    /\ (forall before,
          Py.nonempty (name_after before) = true ->
          exists title, In title before /\ Py.startswith "# " title = true)
    /\ ((forall line, In line (header_lines text) -> Py.startswith "# " line = false) ->
        manifest_name manifest = EmptyString
        /\ manifest_description manifest = EmptyString)
    /\ (forall before line after,
          header_lines text = before ++ line :: after ->
          Py.startswith "# " line = true ->
          (forall l, In l after -> Py.startswith "# " l = false) ->
          manifest_name manifest = Py.strip (Py.removeprefix "# " line)).
Proof.
  intros Hline.
  destruct (parse_heading_header text Hline) as (manifest & Hparse & Hname & Hdesc).
  exists manifest.
  split; [exact Hparse|]. split; [exact Hname|]. split; [exact Hdesc|].
  split; [intros line; apply described_iff|].
  split; [exact name_after_title|]. split.
  - intros Hno. rewrite Hname, Hdesc. split.
    + apply name_after_no_title. exact Hno.
    + assert (Hd : described (header_lines text) = []).
      { destruct (described (header_lines text)) as [|l ls] eqn:E; [reflexivity|].
        assert (Hin : In l (described (header_lines text)))
          by (rewrite E; left; reflexivity).
        apply described_iff in Hin.
        destruct Hin as (before & after & Hl & _ & Hn).
        destruct (name_after_title _ Hn) as (t & Hin & Ht).
        unfold is_title in Ht. rewrite (Hno t) in Ht; [discriminate|].
        rewrite Hl. apply in_or_app. left. exact Hin. }
      rewrite Hd. reflexivity.
  - intros before line after Hlines Htitle Hafter. rewrite Hname, Hlines.
    unfold name_after. rewrite filter_app.
    rewrite filter_cons_True by exact Htitle.
    assert (Hf : filter (fun l => is_title l = true) after = []).
    { clear Hlines. induction after as [|a after IH]; [reflexivity|].
      rewrite filter_cons_False
        by (unfold is_title; rewrite (Hafter a (or_introl eq_refl)); discriminate).
      apply IH. intros l Hl. apply Hafter. right. exact Hl. }
    rewrite Hf, last_snoc. reflexivity.
Qed.

Definition two_titles_text : string :=
  "Welcome." +:+ Py.nl +:+ "# Shop" +:+ Py.nl +:+ "About the shop." +:+ Py.nl
  +:+ "# Store" +:+ Py.nl +:+ "Open daily." +:+ Py.nl +:+ "## search".

Lemma header_is_described_only_after_title_witness :
  exists manifest,
    parse two_titles_text = Ok manifest
    /\ manifest_name manifest = "Store"
    /\ manifest_description manifest = "About the shop." +:+ Py.nl +:+ "Open daily.".
Proof.
  destruct (header_is_described_only_after_title two_titles_text)
    as (manifest & Hparse & Hname & Hdesc & _).
  - vm_compute. reflexivity.
  - exists manifest. split; [exact Hparse|].
    rewrite Hname, Hdesc. split; vm_compute; reflexivity.
Defined.

(** ** Two inputs on which the code leaves its documented path *)

(** C4, the failing input: a [required] modifier written after a
    [default=] modifier leaves a param that is required and has a default. *)
Theorem required_after_default_keeps_default :
  let text := "## t" +:+ Py.nl +:+ "### Params" +:+ Py.nl
              +:+ "- `a` (default=5, required): d" in
  parse text
  = Ok (mkManifest EmptyString EmptyString default_version
          [mkTool "t" EmptyString [mkParam "a" "string" "d" true (Some "5")]
             EmptyString EmptyString]
          text).
Proof. vm_compute. reflexivity. Qed.

(** C7, the failing input: the block has a [params] section (the loop ends
    with [params] as its current key), the section declares nothing, and the
    params are still read from the header signature. *)
Theorem empty_params_section_reads_signature :
  let text := "tool: f(x)" +:+ Py.nl +:+ "  params:" in
  fold_result (block_line "x") ["  params:"]
    (mkBlockState (mkToolState EmptyString [] EmptyString EmptyString) EmptyString [])
  = Ok (mkBlockState (mkToolState EmptyString [] EmptyString EmptyString) "params" [])
  /\ parse text
     = Ok (mkManifest EmptyString EmptyString default_version
             [mkTool "f" EmptyString [mkParam "x" "string" EmptyString true None]
                EmptyString EmptyString]
             text).
Proof. split; vm_compute; reflexivity. Qed.

(* ===================================================================== *)
(** * Round trip through [to_markdown] and [parse] *)
(* ===================================================================== *)

(** ** Trimming *)

Fixpoint all_chars (cls : ascii -> bool) (s : string) : bool :=
  match s with
  | EmptyString => true
  | String c s' => cls c && all_chars cls s'
  end.

Definition trimmed (s : string) : bool := String.eqb (Py.strip s) s.

Lemma all_chars_app cls a b :
  all_chars cls (a +:+ b) = all_chars cls a && all_chars cls b.
Proof.
  induction a as [|c a IH]; simpl; [reflexivity|].
  rewrite IH, andb_assoc. reflexivity.
Qed.

Lemma rstrip_of_all cls w : all_chars cls w = true -> Py.rstrip_of cls w = EmptyString.
Proof.
  induction w as [|c w IH]; simpl; [reflexivity|].
  intros H. apply andb_true_iff in H. destruct H as [Hc Hw].
  rewrite (IH Hw), Hc. reflexivity.
Qed.

Lemma rstrip_of_app_all cls a w :
  all_chars cls w = true -> Py.rstrip_of cls (a +:+ w) = Py.rstrip_of cls a.
Proof.
  intros Hw. induction a as [|c a IH]; simpl.
  - apply rstrip_of_all. exact Hw.
  - rewrite IH. reflexivity.
Qed.

Lemma rstrip_of_app_keep cls a b :
  Py.rstrip_of cls b <> EmptyString ->
  Py.rstrip_of cls (a +:+ b) = a +:+ Py.rstrip_of cls b.
Proof.
  intros Hb. induction a as [|c a IH]; simpl; [reflexivity|].
  rewrite IH. destruct (Py.rstrip_of cls b) eqn:E; [congruence|].
  destruct a; reflexivity.
Qed.

Lemma lstrip_of_length cls s :
  Py.lstrip_of cls s = s \/ String.length (Py.lstrip_of cls s) < String.length s.
Proof.
  induction s as [|c s IH]; simpl; [left; reflexivity|].
  destruct (cls c); [|left; reflexivity].
  right. destruct IH as [->|IH]; lia.
Qed.

Lemma rstrip_of_length cls s :
  String.length (Py.rstrip_of cls s) <= String.length s.
Proof.
  induction s as [|c s IH]; simpl; [lia|].
  destruct (Py.rstrip_of cls s); [destruct (cls c)|]; simpl in *; lia.
Qed.

Lemma lstrip_of_blank cls s :
  Py.lstrip_of cls s = EmptyString -> all_chars cls s = true.
Proof.
  induction s as [|c s IH]; simpl; [reflexivity|].
  destruct (cls c); [exact IH|discriminate].
Qed.

Lemma lstrip_of_all cls s :
  all_chars cls s = true -> Py.lstrip_of cls s = EmptyString.
Proof.
  induction s as [|c s IH]; simpl; [reflexivity|].
  destruct (cls c); [exact IH|discriminate].
Qed.

Lemma lstrip_of_app cls a w :
  Py.lstrip_of cls a <> EmptyString ->
  Py.lstrip_of cls (a +:+ w) = Py.lstrip_of cls a +:+ w.
Proof.
  induction a as [|c a IH]; simpl; [congruence|].
  destruct (cls c); [exact IH|reflexivity].
Qed.

Lemma strip_of_app_all cls a w :
  all_chars cls w = true -> Py.strip_of cls (a +:+ w) = Py.strip_of cls a.
Proof.
  intros Hw. unfold Py.strip_of.
  destruct (Py.lstrip_of cls a) eqn:E.
  - apply lstrip_of_blank in E.
    rewrite lstrip_of_all; [reflexivity|].
    rewrite all_chars_app, E, Hw. reflexivity.
  - rewrite lstrip_of_app by congruence. rewrite E.
    apply rstrip_of_app_all. exact Hw.
Qed.

Lemma strip_app_blank a w :
  all_chars Py.is_space w = true -> Py.strip (a +:+ w) = Py.strip a.
Proof. apply strip_of_app_all. Qed.

Lemma trimmed_eq s : trimmed s = true -> Py.strip s = s.
Proof. unfold trimmed. apply String.eqb_eq. Qed.

Lemma trimmed_lstrip s : Py.strip s = s -> Py.lstrip s = s.
Proof.
  intros H. destruct (lstrip_of_length Py.is_space s) as [E|E]; [exact E|].
  exfalso. pose proof (rstrip_of_length Py.is_space (Py.lstrip s)) as Hr.
  unfold Py.strip, Py.strip_of in H. unfold Py.lstrip in *.
  rewrite H in Hr. lia.
Qed.

Lemma trimmed_rstrip s : Py.strip s = s -> Py.rstrip s = s.
Proof.
  intros H. pose proof (trimmed_lstrip s H) as Hl.
  unfold Py.strip, Py.strip_of, Py.lstrip, Py.rstrip in *. rewrite Hl in H. exact H.
Qed.

(** A text that starts with a character that is no blank. *)
Definition starts_solid (s : string) : bool :=
  match s with
  | EmptyString => false
  | String c _ => negb (Py.is_space c)
  end.

Lemma trimmed_starts_solid s :
  Py.strip s = s -> s <> EmptyString -> starts_solid s = true.
Proof.
  intros H Hne. apply trimmed_lstrip in H. destruct s as [|c s]; [congruence|].
  simpl. unfold Py.lstrip in H. simpl in H.
  destruct (Py.is_space c); [|reflexivity].
  exfalso. destruct (lstrip_of_length Py.is_space s) as [E|E].
  - rewrite E in H. apply (f_equal String.length) in H. simpl in H. lia.
  - apply (f_equal String.length) in H. simpl in H. lia.
Qed.

Lemma starts_solid_app a b : starts_solid a = true -> starts_solid (a +:+ b) = true.
Proof. destruct a; simpl; [discriminate|auto]. Qed.

Lemma lstrip_solid s : starts_solid s = true -> Py.lstrip s = s.
Proof.
  destruct s as [|c s]; simpl; [discriminate|].
  unfold Py.lstrip. simpl. destruct (Py.is_space c); [discriminate|reflexivity].
Qed.

(** A text that ends with a character that is no blank. *)
Definition ends_solid (s : string) : Prop :=
  Py.rstrip s = s /\ s <> EmptyString.

Lemma trimmed_ends_solid s : Py.strip s = s -> s <> EmptyString -> ends_solid s.
Proof. intros H Hne. split; [apply trimmed_rstrip; exact H|exact Hne]. Qed.

Lemma ends_solid_app a b : ends_solid b -> ends_solid (a +:+ b).
Proof.
  intros [Hb Hne]. split.
  - unfold Py.rstrip in *. rewrite rstrip_of_app_keep by congruence.
    rewrite Hb. reflexivity.
  - destruct a; simpl; [exact Hne|discriminate].
Qed.

Lemma strip_solid s w :
  starts_solid s = true -> ends_solid s -> all_chars Py.is_space w = true ->
  Py.strip (s +:+ w) = s.
Proof.
  intros Hs [He _] Hw. rewrite strip_app_blank by exact Hw.
  unfold Py.strip, Py.strip_of. fold Py.lstrip. rewrite lstrip_solid by exact Hs.
  exact He.
Qed.

Lemma rstrip_solid s w :
  ends_solid s -> all_chars Py.is_space w = true -> Py.rstrip (s +:+ w) = s.
Proof.
  intros [He _] Hw. unfold Py.rstrip in *.
  rewrite rstrip_of_app_all by exact Hw. exact He.
Qed.

Lemma ends_solid_literal c :
  Py.is_space c = false -> ends_solid (String c EmptyString).
Proof.
  intros H. split; [|discriminate]. unfold Py.rstrip. simpl. rewrite H. reflexivity.
Qed.

(** ** Splitting at the lines that start with a literal prefix *)

Definition line_prefix (p : string) : Re.matcher string := Re.lits p Re.rest.

(** Whether the scan is at a line start after passing [x]. *)
Fixpoint ends_nl (bol : bool) (x : string) : bool :=
  match x with
  | EmptyString => bol
  | String c x' => ends_nl (Py.is_nl c) x'
  end.

(** Prefix a text to the first of a list of pieces. *)
Definition cons_app (p : string) (pieces : list string) : list string :=
  match pieces with
  | [] => [p]
  | x :: xs => (p +:+ x) :: xs
  end.

Definition nl_free (s : string) : bool := all_chars Py.not_nl s.
Definition all_nl (s : string) : bool := all_chars Py.is_nl s.

Lemma is_nl_true c : Py.is_nl c = true -> c = Py.nl_char.
Proof. unfold Py.is_nl. apply Ascii.eqb_eq. Qed.

Lemma all_nl_blank w : all_nl w = true -> all_chars Py.is_space w = true.
Proof.
  induction w as [|c w IH]; simpl; [reflexivity|].
  intros H. apply andb_true_iff in H. destruct H as [Hc Hw].
  apply is_nl_true in Hc. subst c. rewrite (IH Hw). reflexivity.
Qed.

Lemma ends_nl_app b x y : ends_nl b (x +:+ y) = ends_nl (ends_nl b x) y.
Proof. revert b. induction x as [|c x IH]; intros b; simpl; [reflexivity|apply IH]. Qed.

Lemma ends_nl_cons_indep b b' c x : ends_nl b (String c x) = ends_nl b' (String c x).
Proof. reflexivity. Qed.

Lemma ends_nl_all_nl b w : all_nl w = true -> w <> EmptyString -> ends_nl b w = true.
Proof.
  revert b. induction w as [|c w IH]; intros b H Hne; [congruence|].
  simpl in *. apply andb_true_iff in H. destruct H as [Hc Hw].
  destruct w as [|d w]; [exact Hc|]. apply IH; [exact Hw|discriminate].
Qed.

Lemma ends_nl_nl_free p b :
  nl_free p = true -> p <> EmptyString -> ends_nl b p = false.
Proof.
  revert b. induction p as [|c p IH]; intros b H Hne; [congruence|].
  simpl in *. apply andb_true_iff in H. destruct H as [Hc Hp].
  destruct p as [|d p].
  - simpl. unfold Py.not_nl in Hc. destruct (Py.is_nl c); [discriminate|reflexivity].
  - apply IH; [exact Hp|discriminate].
Qed.

Lemma lits_rest p s :
  line_prefix p s
  = if String.prefix p s then Some (Py.drop (String.length p) s) else None.
Proof.
  unfold line_prefix. revert s. induction p as [|c p IH]; intros s.
  - simpl. rewrite StrFacts.prefix_nil. destruct s; reflexivity.
  - destruct s as [|d s]; [reflexivity|].
    rewrite StrFacts.prefix_cons. simpl Re.lits. unfold Re.lit.
    destruct (Ascii.eqb c d); [|reflexivity]. simpl. apply IH.
Qed.

Lemma drop_length p s :
  String.prefix p s = true ->
  String.length s - String.length (Py.drop (String.length p) s) = String.length p.
Proof.
  revert s. induction p as [|c p IH]; intros s H.
  - simpl. destruct s; simpl; lia.
  - destruct s as [|d s]; [discriminate|].
    rewrite StrFacts.prefix_cons in H. apply andb_true_iff in H. destruct H as [_ H].
    specialize (IH s H). simpl.
    assert (String.length (Py.drop (String.length p) s) <= String.length s).
    { clear. revert s. induction (String.length p) as [|n IHn]; intros s; simpl.
      - destruct s; simpl; lia.
      - destruct s; simpl; [lia|]. specialize (IHn s). lia. }
    lia.
Qed.

Lemma match_len_prefix p s :
  Re.match_len (line_prefix p) s
  = if String.prefix p s then Some (String.length p) else None.
Proof.
  unfold Re.match_len. rewrite lits_rest.
  destruct (String.prefix p s) eqn:E; [|reflexivity].
  rewrite drop_length by exact E. reflexivity.
Qed.

(** A line feed in the text read so far ends what a prefix without line
    feed can match: the text after it plays no part. *)
Lemma prefix_lookahead p x r :
  nl_free p = true -> ends_nl false x = true ->
  String.prefix p (x +:+ r) = String.prefix p x.
Proof.
  revert p. induction x as [|c x IH]; intros p Hp Hx; [discriminate|].
  destruct p as [|d p]; [reflexivity|].
  simpl String.append. rewrite !StrFacts.prefix_cons.
  simpl in Hp. apply andb_true_iff in Hp. destruct Hp as [Hd Hp].
  destruct x as [|c' x].
  - simpl in Hx. apply is_nl_true in Hx. subst c.
    unfold Py.not_nl, Py.is_nl in Hd. rewrite Ascii.eqb_sym.
    destruct (Ascii.eqb d Py.nl_char) eqn:E; [discriminate|].
    rewrite Ascii.eqb_sym, E. reflexivity.
  - f_equal. apply IH; [exact Hp|exact Hx].
Qed.

Lemma prefix_nl p r :
  nl_free p = true -> p <> EmptyString ->
  String.prefix p (String Py.nl_char r) = false.
Proof.
  intros Hp Hne. destruct p as [|d p]; [congruence|].
  rewrite StrFacts.prefix_cons. simpl in Hp. apply andb_true_iff in Hp.
  destruct Hp as [Hd _]. unfold Py.not_nl, Py.is_nl in Hd.
  destruct (Ascii.eqb d Py.nl_char); [discriminate|reflexivity].
Qed.

Lemma prefix_trailing p x w :
  nl_free p = true -> all_nl w = true ->
  String.prefix p (x +:+ w) = String.prefix p x.
Proof.
  revert p. induction x as [|c x IH]; intros p Hp Hw.
  - simpl. destruct p as [|d p]; [destruct w; reflexivity|].
    destruct w as [|c w]; [reflexivity|].
    simpl in Hw. apply andb_true_iff in Hw. destruct Hw as [Hc _].
    apply is_nl_true in Hc. subst c. apply prefix_nl; [exact Hp|discriminate].
  - destruct p as [|d p]; [reflexivity|].
    simpl String.append. rewrite !StrFacts.prefix_cons. f_equal. apply IH; [|exact Hw].
    simpl in Hp. apply andb_true_iff in Hp. tauto.
Qed.

Lemma split_bol_step m bol c s :
  Re.split_bol m bol 0 (String c s)
  = match (if bol then Re.match_len m (String c s) else None) with
    | Some (S k) => EmptyString :: Re.split_bol m (Py.is_nl c) k s
    | _ => Py.cons_head c (Re.split_bol m (Py.is_nl c) 0 s)
    end.
Proof. reflexivity. Qed.

(** Passing the [skip] characters of a separator. *)
Lemma split_skip m x : forall bol r,
  Re.split_bol m bol (String.length x) (x +:+ r) = Re.split_bol m (ends_nl bol x) 0 r.
Proof.
  induction x as [|c x IH]; intros bol r; simpl.
  - destruct r; reflexivity.
  - apply IH.
Qed.

(** A separator at a line start closes the piece. *)
Lemma split_match_prefix p r :
  nl_free p = true -> p <> EmptyString ->
  Re.split_bol (line_prefix p) true 0 (p +:+ r)
  = EmptyString :: Re.split_bol (line_prefix p) false 0 r.
Proof.
  intros Hp Hne. destruct p as [|c q]; [congruence|].
  assert (Hm : Re.match_len (line_prefix (String c q)) (String c (q +:+ r))
               = Some (S (String.length q))).
  { change (String c (q +:+ r)) with (String c q +:+ r).
    rewrite match_len_prefix, StrFacts.prefix_app. reflexivity. }
  change (String c q +:+ r) with (String c (q +:+ r)).
  rewrite split_bol_step, Hm. f_equal. rewrite split_skip.
  change (ends_nl (Py.is_nl c) q) with (ends_nl true (String c q)).
  rewrite ends_nl_nl_free by assumption. reflexivity.
Qed.

Section LinePrefix.

Variable p : string.
Hypothesis p_nl_free : nl_free p = true.
Hypothesis p_nonempty : p <> EmptyString.

Let m := line_prefix p.

Lemma cons_app_cons c x pieces :
  pieces <> [] -> cons_app (String c x) pieces = Py.cons_head c (cons_app x pieces).
Proof. destruct pieces; [congruence|reflexivity]. Qed.

Lemma cons_app_nil pieces : pieces <> [] -> cons_app EmptyString pieces = pieces.
Proof. destruct pieces; [congruence|reflexivity]. Qed.

Lemma split_bol_nonnil bol skip s : Re.split_bol m bol skip s <> [].
Proof.
  destruct (split_bol_cons m bol skip s) as (x & xs & ->). discriminate.
Qed.

Lemma search_cons bol c s :
  Re.search_bol m bol (String c s) = None
  <-> (bol = true -> String.prefix p (String c s) = false)
      /\ Re.search_bol m (Py.is_nl c) s = None.
Proof.
  change (Re.search_bol m bol (String c s))
    with (match (if bol then m (String c s) else None) with
          | Some r => Some r
          | None => Re.search_bol m (Py.is_nl c) s
          end).
  unfold m at 1. rewrite lits_rest. destruct bol.
  - destruct (String.prefix p (String c s)) eqn:E.
    + split; [intros H; discriminate H|]. intros [H _]. specialize (H eq_refl). discriminate H.
    + split; [intros H; split; [reflexivity|exact H]|intros [_ H]; exact H].
  - split; [intros H; split; [intros Hb; discriminate Hb|exact H]|intros [_ H]; exact H].
Qed.

Lemma split_match r :
  Re.split_bol m true 0 (p +:+ r) = EmptyString :: Re.split_bol m false 0 r.
Proof. apply split_match_prefix; assumption. Qed.

(** A chunk of whole lines without separator goes to the current piece. *)
Lemma split_chunk x : forall bol r,
  Re.search_bol m bol x = None -> ends_nl bol x = true ->
  Re.split_bol m bol 0 (x +:+ r) = cons_app x (Re.split_bol m true 0 r).
Proof.
  induction x as [|c x IH]; intros bol r Hs He.
  - simpl in He. subst bol. simpl. rewrite cons_app_nil; [reflexivity|].
    apply split_bol_nonnil.
  - apply search_cons in Hs. destruct Hs as [Hp Hs].
    simpl String.append. rewrite split_bol_step.
    assert (Hm : (if bol then Re.match_len m (String c (x +:+ r)) else None) = None).
    { destruct bol; [|reflexivity]. unfold m. rewrite match_len_prefix.
      change (String c (x +:+ r)) with (String c x +:+ r).
      rewrite prefix_lookahead by assumption. rewrite Hp by reflexivity. reflexivity. }
    rewrite Hm. rewrite IH by assumption.
    rewrite cons_app_cons by apply split_bol_nonnil. reflexivity.
Qed.

(** A text without separator is one piece. *)
Lemma split_end x : forall bol,
  Re.search_bol m bol x = None -> Re.split_bol m bol 0 x = [x].
Proof.
  induction x as [|c x IH]; intros bol Hs; [reflexivity|].
  apply search_cons in Hs. destruct Hs as [Hp Hs]. rewrite split_bol_step.
  assert (Hm : (if bol then Re.match_len m (String c x) else None) = None).
  { destruct bol; [|reflexivity]. unfold m. rewrite match_len_prefix.
    rewrite Hp by reflexivity. reflexivity. }
  rewrite Hm, IH by assumption. reflexivity.
Qed.

(** Line feeds after a text without separator add none. *)
Lemma search_trailing x : forall bol w,
  Re.search_bol m bol x = None -> all_nl w = true ->
  Re.search_bol m bol (x +:+ w) = None.
Proof.
  induction x as [|c x IH]; intros bol w Hs Hw.
  - simpl String.append. clear Hs. revert bol.
    induction w as [|c w IHw]; intros bol.
    + simpl. destruct bol; [|reflexivity]. unfold m.
      rewrite lits_rest. destruct p; [congruence|reflexivity].
    + simpl in Hw. apply andb_true_iff in Hw. destruct Hw as [Hc Hw].
      apply search_cons. split; [|apply IHw; exact Hw].
      intros _. apply is_nl_true in Hc. subst c. apply prefix_nl; assumption.
  - apply search_cons in Hs. destruct Hs as [Hp Hs].
    simpl String.append. apply search_cons. split; [|apply IH; assumption].
    intros Hb. change (String c (x +:+ w)) with (String c x +:+ w).
    rewrite prefix_trailing by assumption. apply Hp. exact Hb.
Qed.

(** Two texts without separator, the first ending a line, make one. *)
Lemma search_app x : forall bol y,
  Re.search_bol m bol x = None -> ends_nl bol x = true ->
  Re.search_bol m true y = None ->
  Re.search_bol m bol (x +:+ y) = None.
Proof.
  induction x as [|c x IH]; intros bol y Hx He Hy.
  - simpl in He. subst bol. exact Hy.
  - apply search_cons in Hx. destruct Hx as [Hp Hx].
    simpl String.append. apply search_cons. split; [|apply IH; assumption].
    intros Hb. change (String c (x +:+ y)) with (String c x +:+ y).
    rewrite prefix_lookahead by assumption. apply Hp. exact Hb.
Qed.

(** Inside a line no separator starts. *)
Lemma search_inline x :
  nl_free x = true -> Re.search_bol m false x = None.
Proof.
  induction x as [|c x IH]; intros Hx; [reflexivity|].
  simpl in Hx. apply andb_true_iff in Hx. destruct Hx as [Hc Hx].
  apply search_cons. split; [discriminate|].
  unfold Py.not_nl in Hc. destruct (Py.is_nl c); [discriminate|]. apply IH. exact Hx.
Qed.

Lemma search_line x :
  nl_free x = true -> String.prefix p x = false -> Re.search_bol m true x = None.
Proof.
  intros Hx Hp. destruct x as [|c x].
  - simpl. unfold m. rewrite lits_rest. destruct p; [congruence|reflexivity].
  - apply search_cons. split; [intros _; exact Hp|].
    simpl in Hx. apply andb_true_iff in Hx. destruct Hx as [Hc Hx].
    unfold Py.not_nl in Hc. destruct (Py.is_nl c); [discriminate|].
    apply search_inline. exact Hx.
Qed.

(** After the start of the text the position before it plays no part. *)
Lemma search_weaken x : Re.search_bol m true x = None -> Re.search_bol m false x = None.
Proof.
  destruct x as [|c x]; [reflexivity|]. intros H. apply search_cons in H.
  apply search_cons. split; [discriminate|tauto].
Qed.

End LinePrefix.

(** ** Texts made of blocks *)

(** A block is a text and the line feeds that follow it. [render] writes
    the first block and then each further block behind the separator [p];
    the last block is followed by [w] in place of its own line feeds. *)
Definition block : Type := string * string.

Fixpoint render (p : string) (first : block) (rest : list block) (w : string)
    : string :=
  match rest with
  | [] => fst first +:+ w
  | b :: rest' => (fst first +:+ snd first) +:+ p +:+ render p b rest' w
  end.

Fixpoint pieces (first : block) (rest : list block) (w : string) : list string :=
  match rest with
  | [] => [fst first +:+ w]
  | b :: rest' => (fst first +:+ snd first) :: pieces b rest' w
  end.

Fixpoint blocks_ok (m : Re.matcher string) (bol : bool) (first : block)
    (rest : list block) : Prop :=
  Re.search_bol m bol (fst first) = None
  /\ match rest with
     | [] => True
     | b :: rest' =>
         all_nl (snd first) = true
         /\ ends_nl bol (fst first +:+ snd first) = true
         /\ blocks_ok m false b rest'
     end.

Lemma split_render p (Hp : nl_free p = true) (Hne : p <> EmptyString) rest :
  forall first bol w,
    blocks_ok (line_prefix p) bol first rest -> all_nl w = true ->
    Re.split_bol (line_prefix p) bol 0 (render p first rest w) = pieces first rest w.
Proof.
  induction rest as [|b rest IH]; intros first bol w Hok Hw; simpl in *.
  - destruct Hok as [Hs _]. apply split_end; [assumption..|].
    apply search_trailing; assumption.
  - destruct Hok as (Hs & Ht & He & Hrest).
    rewrite split_chunk; [|assumption..| |exact He].
    + rewrite split_match by assumption. rewrite IH by assumption.
      simpl. rewrite StrFacts.app_nil_r. reflexivity.
    + apply search_trailing; assumption.
Qed.

Lemma render_trail p rest : forall first w w',
  render p first rest w +:+ w' = render p first rest (w +:+ w').
Proof.
  induction rest as [|b rest IH]; intros first w w'; simpl.
  - apply StrFacts.app_assoc.
  - rewrite !StrFacts.app_assoc. rewrite IH. reflexivity.
Qed.

(** ** Greedy and lazy repetitions that succeed at once *)

Definition stops (cls : ascii -> bool) (r : string) : Prop :=
  match r with
  | EmptyString => True
  | String c _ => cls c = false
  end.

Lemma star_greedy {A} cls w : forall (k : string -> Re.matcher A) r x,
  all_chars cls w = true -> stops cls r -> k w r = Some x ->
  Re.star cls k (w +:+ r) = Some x.
Proof.
  induction w as [|c w IH]; intros k r x Hw Hr Hk.
  - simpl String.append. destruct r as [|d r]; simpl; [exact Hk|].
    simpl in Hr. rewrite Hr. exact Hk.
  - simpl in Hw. apply andb_true_iff in Hw. destruct Hw as [Hc Hw].
    simpl. rewrite Hc.
    rewrite (IH (fun w0 => k (String c w0)) r x Hw Hr Hk). reflexivity.
Qed.

Lemma plus_greedy {A} cls c w (k : string -> Re.matcher A) r x :
  all_chars cls (String c w) = true -> stops cls r -> k (String c w) r = Some x ->
  Re.plus cls k (String c w +:+ r) = Some x.
Proof.
  intros Hw Hr Hk. simpl in Hw. apply andb_true_iff in Hw. destruct Hw as [Hc Hw].
  simpl. unfold Re.plus. rewrite Hc.
  apply (star_greedy cls w (fun w0 => k (String c w0))); assumption.
Qed.

Lemma lits_prefix {A} p (k : Re.matcher A) s :
  Re.lits p k s
  = if String.prefix p s then k (Py.drop (String.length p) s) else None.
Proof.
  revert s. induction p as [|c p IH]; intros s.
  - simpl. rewrite StrFacts.prefix_nil. destruct s; reflexivity.
  - destruct s as [|d s]; [reflexivity|].
    rewrite StrFacts.prefix_cons. simpl Re.lits. unfold Re.lit.
    destruct (Ascii.eqb c d); [|reflexivity]. simpl. apply IH.
Qed.

Lemma contains_cons sub c s :
  Py.contains sub (String c s) = String.prefix sub (String c s) || Py.contains sub s.
Proof. reflexivity. Qed.

Lemma lazy_star_step {A} cls (k : string -> Re.matcher A) s :
  Re.lazy_star cls k s
  = match k EmptyString s with
    | Some r => Some r
    | None =>
        match s with
        | String c s' =>
            if cls c then Re.lazy_star cls (fun w => k (String c w)) s' else None
        | EmptyString => None
        end
    end.
Proof. destruct s; reflexivity. Qed.

(** The lazy body of a fenced block ends at the first closing fence. *)
Lemma lazy_until_fence {A} fence (Hf : nl_free fence = true)
    (Hne : fence <> EmptyString) body :
  forall (k : string -> Re.matcher A) (f : string -> A) r,
    (forall w s, k w s = Re.lits fence (fun _ => Some (f w)) s) ->
    Py.contains fence body = false ->
    Re.lazy_star Py.any_char k (body +:+ Py.nl +:+ fence +:+ r)
    = Some (f (body +:+ Py.nl)).
Proof.
  induction body as [|c body IH]; intros k f r Hk Hc.
  - simpl String.append.
    change (Py.nl +:+ fence +:+ r) with (String Py.nl_char (fence +:+ r)).
    rewrite lazy_star_step, Hk, lits_prefix.
    rewrite prefix_nl by assumption.
    unfold Py.any_char at 1. cbv iota.
    rewrite lazy_star_step, Hk, lits_prefix, StrFacts.prefix_app. reflexivity.
  - rewrite contains_cons in Hc. apply orb_false_iff in Hc. destruct Hc as [Hp Hc].
    change (String c body +:+ Py.nl +:+ fence +:+ r)
      with (String c (body +:+ Py.nl +:+ fence +:+ r)).
    rewrite lazy_star_step, Hk, lits_prefix.
    assert (Hno : String.prefix fence (String c (body +:+ Py.nl +:+ fence +:+ r)) = false).
    { change (String c (body +:+ Py.nl +:+ fence +:+ r))
        with (String c body +:+ Py.nl +:+ fence +:+ r).
      rewrite <- StrFacts.app_assoc. rewrite prefix_lookahead; [|exact Hf|].
      - rewrite prefix_trailing; [exact Hp|exact Hf|reflexivity].
      - rewrite ends_nl_app. reflexivity. }
    rewrite Hno. unfold Py.any_char at 1.
    rewrite (IH (fun w => k (String c w)) (fun w => f (String c w)) r); [reflexivity| |exact Hc].
    intros w s. apply Hk.
Qed.

(** ** [splitlines], [split] and [join] *)

Definition no_break (c : ascii) : bool := negb (Py.is_linebreak c).
Definition one_line (s : string) : bool := all_chars no_break s.
Definition lf_or_no_break (c : ascii) : bool := no_break c || Py.is_nl c.
Definition lf_only (s : string) : bool := all_chars lf_or_no_break s.

Lemma no_break_not_cr c : no_break c = true -> Ascii.eqb c Py.cr_char = false.
Proof.
  intros H. destruct (Ascii.eqb c Py.cr_char) eqn:E; [|reflexivity].
  apply Ascii.eqb_eq in E. subst c. discriminate H.
Qed.

Lemma no_break_not_nl c : no_break c = true -> Py.is_nl c = false.
Proof.
  intros H. destruct (Py.is_nl c) eqn:E; [|reflexivity].
  apply is_nl_true in E. subst c. discriminate H.
Qed.

Lemma one_line_nl_free s : one_line s = true -> nl_free s = true.
Proof.
  unfold one_line, nl_free. induction s as [|c s IH]; simpl; [reflexivity|].
  intros H. apply andb_true_iff in H. destruct H as [Hc Hs].
  unfold Py.not_nl at 1. rewrite (no_break_not_nl c Hc), (IH Hs). reflexivity.
Qed.

Lemma splitlines_line l r :
  one_line l = true ->
  Py.splitlines (l +:+ String Py.nl_char r) = l :: Py.splitlines r.
Proof.
  induction l as [|c l IH]; intros H.
  - reflexivity.
  - simpl in H. apply andb_true_iff in H. destruct H as [Hc Hl].
    simpl String.append. simpl Py.splitlines.
    rewrite (no_break_not_cr c Hc). unfold no_break in Hc.
    destruct (Py.is_linebreak c); [discriminate|]. rewrite (IH Hl). reflexivity.
Qed.

Lemma splitlines_one_line l :
  one_line l = true -> l <> EmptyString -> Py.splitlines l = [l].
Proof.
  induction l as [|c l IH]; intros H Hne; [congruence|].
  simpl in H. apply andb_true_iff in H. destruct H as [Hc Hl].
  simpl Py.splitlines. rewrite (no_break_not_cr c Hc). unfold no_break in Hc.
  destruct (Py.is_linebreak c); [discriminate|].
  destruct l as [|d l]; [reflexivity|]. rewrite IH; [reflexivity|exact Hl|discriminate].
Qed.

Lemma join_cons sep x y ys :
  Py.join sep (x :: y :: ys) = x +:+ sep +:+ Py.join sep (y :: ys).
Proof. reflexivity. Qed.

Lemma splitlines_join ls :
  Forall (fun l => one_line l = true /\ l <> EmptyString) ls ->
  Py.splitlines (Py.join Py.nl ls) = ls.
Proof.
  induction 1 as [|l ls [Hl Hne] Hls IH]; [reflexivity|].
  destruct ls as [|l' ls].
  - apply splitlines_one_line; assumption.
  - rewrite join_cons.
    change (l +:+ Py.nl +:+ Py.join Py.nl (l' :: ls))
      with (l +:+ String Py.nl_char (Py.join Py.nl (l' :: ls))).
    rewrite splitlines_line by exact Hl. rewrite IH. reflexivity.
Qed.

Lemma join_cons_head c x xs :
  Py.join Py.nl (Py.cons_head c (x :: xs)) = String c (Py.join Py.nl (x :: xs)).
Proof. destruct xs; reflexivity. Qed.

Lemma join_splitlines s :
  lf_only s = true -> ends_nl false s = false ->
  Py.join Py.nl (Py.splitlines s) = s.
Proof.
  induction s as [|c s IH]; intros H He; [reflexivity|].
  simpl in H. apply andb_true_iff in H. destruct H as [Hc Hs].
  unfold lf_or_no_break in Hc. apply orb_true_iff in Hc.
  destruct s as [|d s].
  - simpl in He. destruct Hc as [Hc|Hc]; [|congruence].
    simpl. rewrite (no_break_not_cr c Hc). unfold no_break in Hc.
    destruct (Py.is_linebreak c); [discriminate|reflexivity].
  - assert (IH' : Py.join Py.nl (Py.splitlines (String d s)) = String d s).
    { apply IH; [exact Hs|exact He]. }
    destruct (Py.splitlines (String d s)) as [|x xs] eqn:Ex.
    { apply splitlines_nil in Ex. discriminate. }
    destruct Hc as [Hc|Hc].
    + assert (Hstep : Py.splitlines (String c (String d s)) = Py.cons_head c (x :: xs)).
      { change (Py.splitlines (String c (String d s)))
          with (if Ascii.eqb c Py.cr_char
                then (if Ascii.eqb d Py.nl_char then EmptyString :: Py.splitlines s
                      else EmptyString :: Py.splitlines (String d s))
                else if Py.is_linebreak c then EmptyString :: Py.splitlines (String d s)
                else Py.cons_head c (Py.splitlines (String d s))).
        rewrite (no_break_not_cr c Hc). unfold no_break in Hc.
        destruct (Py.is_linebreak c); [discriminate|]. rewrite Ex. reflexivity. }
      rewrite Hstep, join_cons_head, IH'. reflexivity.
    + apply is_nl_true in Hc. subst c.
      assert (Hstep : Py.splitlines (String Py.nl_char (String d s))
                      = EmptyString :: x :: xs).
      { change (Py.splitlines (String Py.nl_char (String d s)))
          with (EmptyString :: Py.splitlines (String d s)).
        rewrite Ex. reflexivity. }
      rewrite Hstep, join_cons, IH'. reflexivity.
Qed.

Definition no_char (c : ascii) (s : string) : bool :=
  all_chars (fun x => negb (Ascii.eqb x c)) s.

Lemma split_no_char c a : no_char c a = true -> Py.split c a = [a].
Proof.
  induction a as [|x a IH]; intros H; [reflexivity|].
  simpl in H. apply andb_true_iff in H. destruct H as [Hx Ha].
  simpl. destruct (Ascii.eqb x c); [discriminate|]. rewrite (IH Ha). reflexivity.
Qed.

Lemma split_at_char c a b :
  no_char c a = true -> Py.split c (a +:+ String c b) = a :: Py.split c b.
Proof.
  induction a as [|x a IH]; intros H.
  - simpl. rewrite Ascii.eqb_refl. reflexivity.
  - simpl in H. apply andb_true_iff in H. destruct H as [Hx Ha].
    simpl. destruct (Ascii.eqb x c); [discriminate|]. rewrite (IH Ha). reflexivity.
Qed.

Lemma split1_at_char c a b :
  no_char c a = true -> Py.split1 c (a +:+ String c b) = [a; b].
Proof.
  induction a as [|x a IH]; intros H.
  - simpl. rewrite Ascii.eqb_refl. reflexivity.
  - simpl in H. apply andb_true_iff in H. destruct H as [Hx Ha].
    simpl. destruct (Ascii.eqb x c); [discriminate|]. rewrite (IH Ha). reflexivity.
Qed.

Lemma has_char_app c a b : Py.has_char c (a +:+ String c b) = true.
Proof.
  induction a as [|x a IH].
  - simpl String.append. rewrite has_char_cons, Ascii.eqb_refl. reflexivity.
  - simpl String.append. rewrite has_char_cons, IH. apply orb_true_r.
Qed.

(** ** One param line, written and read back *)

(** A modifier that survives the comma-separated list in parentheses. *)
Definition plain_token (s : string) : bool :=
  trimmed s && one_line s && no_char "," s && no_char ")" s.

(** A type that is none of the modifiers with a meaning of their own. *)
Definition plain_type (ty : string) : bool :=
  plain_token ty
  && negb (String.eqb ty "optional") && negb (String.eqb ty "required")
  && negb (Py.startswith "default=" ty).

Definition plain_default (p : Param) : bool :=
  match param_default p with
  | None => true
  | Some d => negb (param_required p) && plain_token d
  end.

Definition plain_param (p : Param) : bool :=
  Py.nonempty (param_name p) && all_chars Py.is_word (param_name p)
  && plain_type (param_type p) && plain_default p
  && Py.nonempty (param_description p) && trimmed (param_description p)
  && one_line (param_description p).

Definition mod_str (p : Param) : string :=
  Py.join ", "
    ([param_type p] ++ [if param_required p then "required" else "optional"]
     ++ match param_default p with Some d => ["default=" +:+ d] | None => [] end).

Lemma _serialize_param_eq p :
  Py.nonempty (param_description p) = true ->
  _serialize_param p
  = "- `" +:+ param_name p +:+ "` (" +:+ mod_str p +:+ "): " +:+ param_description p.
Proof.
  intros H. unfold _serialize_param, mod_str. rewrite H. reflexivity.
Qed.

Lemma lit_ok {A} c (k : Re.matcher A) s x :
  k s = Some x -> Re.lit c k (String c s) = Some x.
Proof. intros H. unfold Re.lit. rewrite Ascii.eqb_refl. exact H. Qed.

Lemma plain_token_parts s :
  plain_token s = true ->
  Py.strip s = s /\ one_line s = true /\ no_char "," s = true /\ no_char ")" s = true.
Proof.
  unfold plain_token. rewrite !andb_true_iff. intros [[[H1 H2] H3] H4].
  auto using trimmed_eq.
Qed.

Lemma all_chars_impl (f g : ascii -> bool) s :
  (forall c, f c = true -> g c = true) -> all_chars f s = true -> all_chars g s = true.
Proof.
  intros Hfg. induction s as [|c s IH]; simpl; [reflexivity|].
  rewrite !andb_true_iff. intros [Hc Hs]. auto.
Qed.

Lemma no_rparen_all s : no_char ")" s = true -> all_chars not_rparen s = true.
Proof. apply all_chars_impl. intros c H. exact H. Qed.

Lemma mod_str_shape p :
  plain_type (param_type p) = true -> plain_default p = true ->
  all_chars not_rparen (mod_str p) = true
  /\ mod_str p <> EmptyString
  /\ one_line (mod_str p) = true.
Proof.
  unfold plain_type, plain_default, mod_str. rewrite !andb_true_iff.
  intros [[[Hty _] _] _] Hd. apply plain_token_parts in Hty.
  destruct Hty as (_ & Hline & _ & Hrp). apply no_rparen_all in Hrp.
  assert (Hreq : forall b : bool,
    all_chars not_rparen (if b then "required" else "optional") = true
    /\ one_line (if b then "required" else "optional") = true).
  { intros []; split; reflexivity. }
  destruct (Hreq (param_required p)) as [Hr1 Hr2].
  destruct (param_default p) as [d|].
  - apply andb_true_iff in Hd. destruct Hd as [_ Hd].
    apply plain_token_parts in Hd. destruct Hd as (_ & Hdl & _ & Hdr).
    apply no_rparen_all in Hdr.
    change (Py.join ", " ([param_type p] ++ [if param_required p then "required" else "optional"]
              ++ ["default=" +:+ d]))
      with (param_type p +:+ ", " +:+ (if param_required p then "required" else "optional")
            +:+ ", " +:+ "default=" +:+ d).
    split; [|split].
    + rewrite !all_chars_app, Hrp, Hr1, Hdr. reflexivity.
    + destruct (param_type p); discriminate.
    + unfold one_line in *. rewrite !all_chars_app, Hline, Hr2, Hdl. reflexivity.
  - change (Py.join ", " ([param_type p] ++ [if param_required p then "required" else "optional"]
              ++ []))
      with (param_type p +:+ ", " +:+ (if param_required p then "required" else "optional")).
    split; [|split].
    + rewrite !all_chars_app, Hrp, Hr1. reflexivity.
    + destruct (param_type p); discriminate.
    + unfold one_line in *. rewrite !all_chars_app, Hline, Hr2. reflexivity.
Qed.

Lemma _PARAM_RE_serialized name mods desc :
  Py.nonempty name = true -> all_chars Py.is_word name = true ->
  all_chars not_rparen mods = true -> mods <> EmptyString ->
  starts_solid desc = true -> nl_free desc = true ->
  _PARAM_RE ("- `" +:+ name +:+ "` (" +:+ mods +:+ "): " +:+ desc)
  = Some (name, mods, desc).
Proof.
  intros Hname Hword Hmods Hmne Hsolid Hnl.
  destruct name as [|n name]; [discriminate|].
  destruct mods as [|q mods]; [congruence|].
  destruct desc as [|d desc]; [discriminate|].
  unfold _PARAM_RE.
  rewrite <- (StrFacts.app_nil_r (String d desc)) at 1.
  change ("- `" +:+ String n name +:+ "` (" +:+ String q mods +:+ "): "
          +:+ (String d desc +:+ EmptyString))
    with (String "-" (String " " EmptyString
            +:+ String "`" (String n name
            +:+ String "`" (String " " EmptyString
            +:+ String "(" (String q mods
            +:+ String ")" (EmptyString
            +:+ String ":" (String " " EmptyString
            +:+ (String d desc +:+ EmptyString)))))))).
  apply lit_ok. apply plus_greedy; [reflexivity|reflexivity|].
  apply lit_ok. apply plus_greedy; [exact Hword|reflexivity|].
  apply lit_ok. apply star_greedy; [reflexivity|reflexivity|].
  apply lit_ok. apply plus_greedy; [exact Hmods|reflexivity|].
  apply lit_ok. apply star_greedy; [reflexivity|reflexivity|].
  apply lit_ok. apply star_greedy; [reflexivity| |].
  { simpl. simpl in Hsolid. destruct (Py.is_space d); [discriminate|reflexivity]. }
  apply plus_greedy; [exact Hnl|exact I|]. reflexivity.
Qed.

Lemma apply_modifier_type st ty :
  plain_type ty = true ->
  apply_modifier st ty = (ty, snd (fst st), snd st).
Proof.
  unfold plain_type. rewrite !andb_true_iff, !negb_true_iff.
  intros [[[_ H1] H2] H3]. destruct st as [[t r] d]. unfold apply_modifier.
  rewrite H1, H2, H3. destruct (existsb _ _); reflexivity.
Qed.

Lemma strip_default_token d :
  Py.strip d = d -> Py.strip (" default=" +:+ d) = "default=" +:+ d.
Proof.
  intros Hd. unfold Py.strip, Py.strip_of.
  change (Py.lstrip_of Py.is_space (" default=" +:+ d)) with ("default=" +:+ d).
  destruct d as [|c d]; [reflexivity|].
  rewrite rstrip_of_app_keep.
  - apply trimmed_rstrip in Hd. unfold Py.rstrip in Hd. rewrite Hd. reflexivity.
  - apply trimmed_rstrip in Hd. unfold Py.rstrip in Hd. rewrite Hd. discriminate.
Qed.

Lemma modifiers_read p :
  plain_type (param_type p) = true -> plain_default p = true ->
  fold_left apply_modifier (map Py.strip (Py.split "," (mod_str p)))
    (default_type, true, None)
  = (param_type p, param_required p, param_default p).
Proof.
  intros Hty Hd. pose proof Hty as Hty'.
  unfold plain_type in Hty'. rewrite !andb_true_iff in Hty'.
  destruct Hty' as [[[Htok _] _] _]. apply plain_token_parts in Htok.
  destruct Htok as (Hstrip & _ & Hcomma & _).
  unfold plain_default in Hd. unfold mod_str.
  destruct (param_default p) as [d|].
  - apply andb_true_iff in Hd. destruct Hd as [Hreq Hd].
    apply negb_true_iff in Hreq. rewrite Hreq.
    apply plain_token_parts in Hd. destruct Hd as (Hds & _ & Hdc & _).
    change (Py.join ", " ([param_type p] ++ ["optional"] ++ ["default=" +:+ d]))
      with (param_type p +:+ String "," (" optional" +:+ String "," (" default=" +:+ d))).
    rewrite split_at_char by exact Hcomma.
    rewrite (split_at_char "," " optional") by reflexivity.
    rewrite split_no_char.
    2:{ unfold no_char in *. rewrite all_chars_app, Hdc. reflexivity. }
    cbn [map]. rewrite Hstrip, (strip_default_token d Hds).
    change (Py.strip " optional") with "optional".
    cbn [fold_left]. rewrite (apply_modifier_type _ _ Hty). simpl fst. simpl snd.
    unfold apply_modifier at 2. simpl String.eqb. cbv iota.
    unfold apply_modifier.
    change (String.eqb ("default=" +:+ d) "optional") with false.
    change (String.eqb ("default=" +:+ d) "required") with false. cbv iota.
    unfold Py.startswith, Py.removeprefix, Py.startswith.
    rewrite StrFacts.prefix_app. rewrite StrFacts.drop_app. rewrite Hds. reflexivity.
  - assert (Hreq : forall b : bool,
      fold_left apply_modifier
        (map Py.strip (Py.split "," (" " +:+ (if b then "required" else "optional"))))
        (param_type p, true, None)
      = (param_type p, b, None)).
    { intros []; reflexivity. }
    change (Py.join ", " ([param_type p]
              ++ [if param_required p then "required" else "optional"] ++ []))
      with (param_type p +:+ String ","
              (" " +:+ (if param_required p then "required" else "optional"))).
    rewrite split_at_char by exact Hcomma.
    cbn [map]. rewrite Hstrip. cbn [fold_left].
    rewrite (apply_modifier_type _ _ Hty). cbn [fst snd].
    apply Hreq.
Qed.

Lemma plain_param_parts p :
  plain_param p = true ->
  Py.nonempty (param_name p) = true /\ all_chars Py.is_word (param_name p) = true
  /\ plain_type (param_type p) = true /\ plain_default p = true
  /\ Py.nonempty (param_description p) = true
  /\ Py.strip (param_description p) = param_description p
  /\ one_line (param_description p) = true.
Proof.
  unfold plain_param. rewrite !andb_true_iff.
  intros [[[[[[H1 H2] H3] H4] H5] H6] H7]. auto 10 using trimmed_eq.
Qed.

Lemma nonempty_true s : Py.nonempty s = true <-> s <> EmptyString.
Proof. destruct s; simpl; split; congruence. Qed.

(** Reading a written param line gives the param back. *)
Lemma param_line_round_trip p :
  plain_param p = true -> parse_param_line (_serialize_param p) = Some p.
Proof.
  intros Hp. apply plain_param_parts in Hp.
  destruct Hp as (Hn & Hw & Hty & Hd & Hdn & Hds & Hdl).
  destruct (mod_str_shape p Hty Hd) as (Hm1 & Hm2 & _).
  unfold parse_param_line. rewrite _serialize_param_eq by exact Hdn.
  rewrite _PARAM_RE_serialized; try assumption.
  - rewrite modifiers_read by assumption. rewrite Hds. destruct p; reflexivity.
  - apply trimmed_starts_solid; [exact Hds|]. apply nonempty_true. exact Hdn.
  - apply one_line_nl_free. exact Hdl.
Qed.

(** A written param line is one trimmed, non-empty line. *)
Lemma param_line_shape p :
  plain_param p = true ->
  one_line (_serialize_param p) = true
  /\ starts_solid (_serialize_param p) = true
  /\ ends_solid (_serialize_param p)
  /\ String.prefix "#" (_serialize_param p) = false.
Proof.
  intros Hp. apply plain_param_parts in Hp.
  destruct Hp as (Hn & Hw & Hty & Hd & Hdn & Hds & Hdl).
  destruct (mod_str_shape p Hty Hd) as (_ & _ & Hml).
  rewrite _serialize_param_eq by exact Hdn. split; [|split; [|split]].
  - unfold one_line in *. rewrite !all_chars_app, Hml, Hdl.
    assert (Hname : all_chars no_break (param_name p) = true).
    { eapply all_chars_impl; [|exact Hw]. intros c Hc.
      unfold no_break. destruct (Py.is_linebreak c) eqn:E; [|reflexivity].
      exfalso. revert Hc E. clear.
      destruct c as [[] [] [] [] [] [] [] []]; vm_compute; congruence. }
    rewrite Hname. reflexivity.
  - reflexivity.
  - rewrite <- !StrFacts.app_assoc. apply ends_solid_app.
    apply trimmed_ends_solid; [exact Hds|]. apply nonempty_true. exact Hdn.
  - reflexivity.
Qed.

(** ** Texts without a heading line *)

Section Headings.

Variable q : string.
Hypothesis q_nl_free : nl_free q = true.
Hypothesis q_hash : String.prefix "#" q = true.

Lemma hash_nonempty : q <> EmptyString.
Proof. intros H. rewrite H in q_hash. discriminate. Qed.

Lemma prefix_other c s :
  Ascii.eqb c "#" = false -> String.prefix q (String c s) = false.
Proof.
  intros Hc. destruct q as [|d q']; [discriminate|].
  rewrite StrFacts.prefix_cons. rewrite (StrFacts.prefix_cons "#" EmptyString d q') in q_hash.
  apply andb_true_iff in q_hash. destruct q_hash as [Hd _].
  apply Ascii.eqb_eq in Hd. subst d. rewrite Ascii.eqb_sym, Hc. reflexivity.
Qed.

Lemma search_nil bol : Re.search_bol (line_prefix q) bol EmptyString = None.
Proof.
  destruct bol; [|reflexivity]. simpl. rewrite lits_rest.
  destruct q; [discriminate|reflexivity].
Qed.

Lemma search_inline_app x : forall y,
  nl_free x = true ->
  Re.search_bol (line_prefix q) false y = None ->
  Re.search_bol (line_prefix q) false (x +:+ y) = None.
Proof.
  induction x as [|c x IH]; intros y Hx Hy; [exact Hy|].
  unfold nl_free in Hx. simpl in Hx. apply andb_true_iff in Hx.
  destruct Hx as [Hc Hx].
  change (String c x +:+ y) with (String c (x +:+ y)).
  apply search_cons. split; [discriminate|].
  unfold Py.not_nl in Hc. apply negb_true_iff in Hc. rewrite Hc.
  apply IH; assumption.
Qed.

Lemma search_title title body :
  nl_free title = true ->
  Re.search_bol (line_prefix q) true body = None ->
  Re.search_bol (line_prefix q) false (title +:+ String Py.nl_char body) = None.
Proof.
  intros Ht Hb. apply search_inline_app; [exact Ht|].
  apply search_cons. split; [discriminate|]. exact Hb.
Qed.

Lemma search_after p r :
  nl_free p = true -> String.prefix q (p +:+ r) = false ->
  Re.search_bol (line_prefix q) false r = None ->
  Re.search_bol (line_prefix q) true (p +:+ r) = None.
Proof.
  intros Hp Hq Hr. destruct p as [|c p].
  - simpl in *. destruct r as [|d r].
    + simpl. rewrite lits_rest, Hq. reflexivity.
    + apply search_cons. split; [intros _; exact Hq|].
      apply (proj1 (search_cons q false d r)) in Hr. apply Hr.
  - change (String c p +:+ r) with (String c (p +:+ r)) in *.
    apply search_cons. split; [intros _; exact Hq|].
    unfold nl_free in Hp. simpl in Hp. apply andb_true_iff in Hp.
    destruct Hp as [Hc Hp]. unfold Py.not_nl in Hc. apply negb_true_iff in Hc.
    rewrite Hc. apply search_inline_app; assumption.
Qed.

Lemma search_line_nl l body :
  nl_free l = true -> String.prefix q l = false ->
  Re.search_bol (line_prefix q) true body = None ->
  Re.search_bol (line_prefix q) true (l +:+ String Py.nl_char body) = None.
Proof.
  intros Hl Hq Hb.
  change (l +:+ String Py.nl_char body) with (l +:+ Py.nl +:+ body).
  rewrite <- StrFacts.app_assoc.
  apply search_app; [exact q_nl_free| | |exact Hb].
  - apply search_trailing; [exact q_nl_free|exact hash_nonempty| |reflexivity].
    apply search_line; [exact q_nl_free|exact hash_nonempty|exact Hl|exact Hq].
  - rewrite ends_nl_app. reflexivity.
Qed.

Lemma search_text_nl bol x body :
  Re.search_bol (line_prefix q) bol x = None ->
  Re.search_bol (line_prefix q) true body = None ->
  Re.search_bol (line_prefix q) bol (x +:+ String Py.nl_char body) = None.
Proof.
  intros Hx Hb.
  change (x +:+ String Py.nl_char body) with (x +:+ Py.nl +:+ body).
  rewrite <- StrFacts.app_assoc.
  apply search_app; [exact q_nl_free| | |exact Hb].
  - apply search_trailing; [exact q_nl_free|exact hash_nonempty|exact Hx|reflexivity].
  - rewrite ends_nl_app. reflexivity.
Qed.

Lemma prefix_hash_free l :
  String.prefix "#" l = false -> String.prefix q l = false.
Proof.
  destruct l as [|c l].
  { intros _. pose proof hash_nonempty as Hne.
    destruct q; [congruence|reflexivity]. }
  intros Hc. apply prefix_other.
  destruct (Ascii.eqb_spec c "#") as [->|Hne]; [|reflexivity].
  rewrite StrFacts.prefix_cons in Hc. destruct l; discriminate.
Qed.

Lemma search_lines ls :
  Forall (fun l => one_line l = true /\ String.prefix q l = false) ls ->
  Re.search_bol (line_prefix q) true (Py.join Py.nl ls) = None.
Proof.
  induction 1 as [|l ls [Hl Hq] _ IH]; [apply search_nil|].
  destruct ls as [|l' ls].
  - simpl. apply search_line;
      [exact q_nl_free|exact hash_nonempty|apply one_line_nl_free; exact Hl|exact Hq].
  - rewrite join_cons. apply search_line_nl;
      [apply one_line_nl_free; exact Hl|exact Hq|exact IH].
Qed.

(** A fenced block holds a heading line only if its content does. *)
Definition fenced (lang code : string) : string :=
  "```" +:+ lang +:+ Py.nl +:+ code +:+ Py.nl +:+ "```".

Lemma search_fenced lang code :
  nl_free lang = true ->
  Re.search_bol (line_prefix q) true code = None ->
  Re.search_bol (line_prefix q) true (fenced lang code) = None.
Proof.
  intros Hl Hc. unfold fenced.
  change ("```" +:+ lang +:+ Py.nl +:+ code +:+ Py.nl +:+ "```")
    with (("```" +:+ lang) +:+ String Py.nl_char (code +:+ String Py.nl_char "```")).
  apply search_line_nl.
  - unfold nl_free in *. rewrite all_chars_app, Hl. reflexivity.
  - apply prefix_other. reflexivity.
  - apply search_text_nl; [exact Hc|].
    apply search_line; [exact q_nl_free|exact hash_nonempty|reflexivity|].
    apply prefix_other. reflexivity.
Qed.

(** A block that can follow a separator: no heading line inside, and line
    feeds behind. *)
Definition closed_block (b : block) : Prop :=
  Re.search_bol (line_prefix q) false (fst b) = None
  /\ all_nl (snd b) = true /\ snd b <> EmptyString.

Lemma ends_nl_trail bol x w :
  all_nl w = true -> w <> EmptyString -> ends_nl bol (x +:+ w) = true.
Proof.
  intros Hw Hne. rewrite ends_nl_app. apply ends_nl_all_nl; assumption.
Qed.

Lemma blocks_ok_closed rest : forall bol first,
  Re.search_bol (line_prefix q) bol (fst first) = None ->
  all_nl (snd first) = true -> snd first <> EmptyString ->
  Forall closed_block rest ->
  blocks_ok (line_prefix q) bol first rest.
Proof.
  induction rest as [|b rest IH]; intros bol first Hs Hw Hne Hrest; simpl.
  - split; [exact Hs|exact I].
  - inversion Hrest as [|? ? (Hb & Hbw & Hbne) Hrest']; subst.
    split; [exact Hs|]. split; [exact Hw|]. split.
    + apply ends_nl_trail; assumption.
    + apply IH; assumption.
Qed.

Lemma blocks_ok_open rest bol first :
  Re.search_bol (line_prefix q) bol (fst first) = None ->
  all_nl (snd first) = true ->
  ends_nl bol (fst first +:+ snd first) = true ->
  Forall closed_block rest ->
  blocks_ok (line_prefix q) bol first rest.
Proof.
  intros Hs Hw He Hrest. destruct rest as [|b rest]; simpl.
  - split; [exact Hs|exact I].
  - inversion Hrest as [|? ? (Hb & Hbw & Hbne) Hrest']; subst.
    split; [exact Hs|]. split; [exact Hw|]. split; [exact He|].
    apply blocks_ok_closed; assumption.
Qed.

(** No heading line at level [q] in a text made of blocks behind another
    separator [p]. *)
Lemma search_render p rest : forall first bol w,
  nl_free p = true -> (forall r, String.prefix q (p +:+ r) = false) ->
  blocks_ok (line_prefix q) bol first rest -> all_nl w = true ->
  Re.search_bol (line_prefix q) bol (render p first rest w) = None.
Proof.
  induction rest as [|b rest IH]; intros first bol w Hp Hq Hok Hw; simpl in *.
  - destruct Hok as [Hs _].
    apply search_trailing; [exact q_nl_free|exact hash_nonempty|exact Hs|exact Hw].
  - destruct Hok as (Hs & Ht & He & Hrest).
    apply search_app; [exact q_nl_free| |exact He|].
    + apply search_trailing; [exact q_nl_free|exact hash_nonempty|exact Hs|exact Ht].
    + apply search_after; [exact Hp|apply Hq|]. apply IH; assumption.
Qed.

End Headings.

(** ** The text written for one tool, as blocks *)

Fixpoint unlines (ls : list string) : string :=
  match ls with
  | [] => EmptyString
  | l :: ls' => l +:+ Py.nl +:+ unlines ls'
  end.

Lemma unlines_app a b : unlines (a ++ b) = unlines a +:+ unlines b.
Proof.
  induction a as [|l a IH]; [reflexivity|].
  simpl. rewrite IH, !StrFacts.app_assoc. reflexivity.
Qed.

Lemma join_unlines ls : ls <> [] -> unlines ls = Py.join Py.nl ls +:+ Py.nl.
Proof.
  induction ls as [|l ls IH]; [congruence|]. intros _.
  destruct ls as [|l' ls]; [reflexivity|].
  rewrite join_cons. cbn [unlines] in *. rewrite IH by discriminate.
  rewrite !StrFacts.app_assoc. reflexivity.
Qed.

Definition gap : string := Py.nl +:+ Py.nl.

Definition head_core (t : Tool) : string :=
  if Py.nonempty (tool_description t)
  then tool_name t +:+ Py.nl +:+ tool_description t
  else tool_name t.

Definition params_body (t : Tool) : string :=
  Py.join Py.nl (map _serialize_param (tool_params t)).

Definition params_block (t : Tool) : list block :=
  match tool_params t with
  | [] => []
  | _ :: _ => [("Params" +:+ Py.nl +:+ params_body t, gap)]
  end.

Definition output_block (t : Tool) : list block :=
  if Py.nonempty (tool_returns t)
  then [("Output" +:+ Py.nl +:+ fenced "typescript" (tool_returns t), gap)]
  else [].

Definition sample_block (t : Tool) : list block :=
  if Py.nonempty (tool_sample_code t)
  then [("Sample Code" +:+ Py.nl +:+ fenced "javascript" (tool_sample_code t), gap)]
  else [].

Definition sub_blocks (t : Tool) : list block :=
  params_block t ++ output_block t ++ sample_block t.

Definition tool_core (t : Tool) : string :=
  render "### " (head_core t, gap) (sub_blocks t) EmptyString.

Definition tool_trail (t : Tool) : string :=
  if Py.nonempty (tool_sample_code t) then gap else Py.nl +:+ gap.

Definition tool_block (t : Tool) : block := (tool_core t, tool_trail t).

(** The lines of one tool and the empty line behind them, joined. *)
Ltac flatten_text :=
  unfold Py.nl;
  repeat rewrite StrFacts.app_assoc; cbn [String.append];
  repeat (f_equal; repeat rewrite StrFacts.app_assoc; cbn [String.append]);
  try reflexivity.

Lemma _serialize_tool_blocks t :
  unlines (_serialize_tool t ++ [EmptyString])
  = "## " +:+ tool_core t +:+ tool_trail t.
Proof.
  unfold tool_core, tool_trail, sub_blocks, params_block, output_block,
    sample_block, head_core, _serialize_tool, params_body, fenced, gap.
  destruct (tool_params t) as [|p ps] eqn:Eps.
  - destruct (Py.nonempty (tool_description t));
      destruct (Py.nonempty (tool_returns t));
      destruct (Py.nonempty (tool_sample_code t));
      cbn [app render fst snd];
      repeat (progress (rewrite ?unlines_app; cbn [unlines])); flatten_text.
  - destruct (Py.nonempty (tool_description t));
      destruct (Py.nonempty (tool_returns t));
      destruct (Py.nonempty (tool_sample_code t));
      cbn [app render fst snd];
      repeat (progress (rewrite ?unlines_app; cbn [unlines]));
      rewrite (join_unlines (map _serialize_param (p :: ps))) by discriminate;
      generalize (Py.join Py.nl (map _serialize_param (p :: ps)));
      intros; flatten_text.
Qed.

(** ** What the round trip compares, and the tools it is stated for *)

Definition param_view (p : Param) : string * string * bool * option string :=
  (param_name p, param_type p, param_required p, param_default p).

Definition tool_view (t : Tool)
    : string * string * string * list (string * string * bool * option string) :=
  (tool_name t, tool_description t, tool_sample_code t,
   map param_view (tool_params t)).

Definition manifest_view (m : Manifest) :=
  (manifest_name m, map tool_view (manifest_tools m)).

(** No line of the text starts with one of the two heading separators. *)
Definition heading_free (s : string) : bool :=
  negb (is_Some_bool (Re.search_bol h2_prefix true s))
  && negb (is_Some_bool (Re.search_bol h3_prefix true s)).

Definition plain_tool (t : Tool) : bool :=
  Py.nonempty (tool_name t) && trimmed (tool_name t) && one_line (tool_name t)
  && negb (Py.startswith "### " (tool_name t))
  && trimmed (tool_description t) && lf_only (tool_description t)
  && heading_free (tool_description t)
  && forallb plain_param (tool_params t)
  && heading_free (tool_returns t)
  && trimmed (tool_sample_code t) && heading_free (tool_sample_code t)
  && negb (Py.contains "```" (tool_sample_code t)).

Definition heading (q : string) : Prop := q = "## " \/ q = "### ".

Lemma heading_nl_free q : heading q -> nl_free q = true.
Proof. intros [->| ->]; reflexivity. Qed.

Lemma heading_hash q : heading q -> String.prefix "#" q = true.
Proof. intros [->| ->]; reflexivity. Qed.

Lemma heading_free_search q s :
  heading q -> heading_free s = true ->
  Re.search_bol (line_prefix q) true s = None.
Proof.
  unfold heading_free, h2_prefix, h3_prefix, line_prefix.
  rewrite andb_true_iff, !negb_true_iff. intros [->| ->] [H2 H3].
  - destruct (Re.search_bol _ true s); [discriminate|reflexivity].
  - destruct (Re.search_bol (Re.lits "### " Re.rest) true s); [discriminate|reflexivity].
Qed.

Lemma plain_tool_parts t :
  plain_tool t = true ->
  (tool_name t <> EmptyString /\ Py.strip (tool_name t) = tool_name t
   /\ one_line (tool_name t) = true
   /\ String.prefix "### " (tool_name t) = false)
  /\ (Py.strip (tool_description t) = tool_description t
      /\ lf_only (tool_description t) = true
      /\ heading_free (tool_description t) = true)
  /\ Forall (fun p => plain_param p = true) (tool_params t)
  /\ heading_free (tool_returns t) = true
  /\ (Py.strip (tool_sample_code t) = tool_sample_code t
      /\ heading_free (tool_sample_code t) = true
      /\ Py.contains "```" (tool_sample_code t) = false).
Proof.
  unfold plain_tool. rewrite !andb_true_iff, !negb_true_iff.
  intros [[[[[[[[[[[H1 H2] H3] H4] H5] H6] H7] H8] H9] H10] H11] H12].
  repeat split; try assumption; try (apply trimmed_eq; assumption).
  - apply nonempty_true. exact H1.
  - apply List.Forall_forall. intros p Hp. rewrite forallb_forall in H8.
    apply H8. exact Hp.
Qed.

(** ** The blocks of a tool hold no heading line *)

Lemma closed_section q title body :
  heading q -> nl_free title = true ->
  Re.search_bol (line_prefix q) true body = None ->
  closed_block q (title +:+ Py.nl +:+ body, gap).
Proof.
  intros Hq Ht Hb. split; [|split; [reflexivity|discriminate]].
  cbn [fst]. change (title +:+ Py.nl +:+ body) with (title +:+ String Py.nl_char body).
  apply search_title; auto using heading_nl_free, heading_hash.
Qed.

Lemma param_lines_search q ps :
  heading q -> Forall (fun p => plain_param p = true) ps ->
  Re.search_bol (line_prefix q) true (Py.join Py.nl (map _serialize_param ps)) = None.
Proof.
  intros Hq Hps.
  apply search_lines; [apply heading_nl_free; exact Hq|apply heading_hash; exact Hq|].
  induction Hps as [|p ps Hp _ IH]; [constructor|].
  cbn [map]. constructor; [|exact IH].
  destruct (param_line_shape p Hp) as (H1 & _ & _ & H4).
  split; [exact H1|].
  apply prefix_hash_free;
    [apply heading_nl_free; exact Hq|apply heading_hash; exact Hq|exact H4].
Qed.

Lemma sub_blocks_closed q t :
  heading q -> plain_tool t = true -> Forall (closed_block q) (sub_blocks t).
Proof.
  intros Hq Ht. apply plain_tool_parts in Ht.
  destruct Ht as (_ & _ & Hps & Hret & (_ & Hcode & _)).
  unfold sub_blocks. repeat apply Forall_app_2.
  - unfold params_block. destruct (tool_params t) as [|p ps] eqn:E; constructor; [|constructor].
    apply closed_section; [exact Hq|reflexivity|].
    unfold params_body. rewrite E. apply param_lines_search; assumption.
  - unfold output_block. destruct (Py.nonempty (tool_returns t)); constructor; [|constructor].
    apply closed_section; [exact Hq|reflexivity|].
    apply search_fenced; auto using heading_nl_free, heading_hash, heading_free_search.
  - unfold sample_block. destruct (Py.nonempty (tool_sample_code t)); constructor; [|constructor].
    apply closed_section; [exact Hq|reflexivity|].
    apply search_fenced; auto using heading_nl_free, heading_hash, heading_free_search.
Qed.

Lemma head_core_search q bol t :
  heading q -> plain_tool t = true ->
  Re.search_bol (line_prefix q) bol (tool_name t) = None ->
  Re.search_bol (line_prefix q) bol (head_core t) = None.
Proof.
  intros Hq Ht Hname. apply plain_tool_parts in Ht.
  destruct Ht as (_ & (_ & _ & Hdesc) & _).
  unfold head_core. destruct (Py.nonempty (tool_description t)); [|exact Hname].
  change (tool_name t +:+ Py.nl +:+ tool_description t)
    with (tool_name t +:+ String Py.nl_char (tool_description t)).
  apply search_text_nl; auto using heading_nl_free, heading_hash, heading_free_search.
Qed.

Lemma tool_blocks_ok q bol t :
  heading q -> plain_tool t = true ->
  Re.search_bol (line_prefix q) bol (tool_name t) = None ->
  blocks_ok (line_prefix q) bol (head_core t, gap) (sub_blocks t).
Proof.
  intros Hq Ht Hname. apply blocks_ok_closed.
  - apply head_core_search; assumption.
  - reflexivity.
  - discriminate.
  - apply sub_blocks_closed; assumption.
Qed.

(** The name of a tool holds no heading line: behind [## ] it is inside a
    line, and at the start of its section it does not start with [### ]. *)
Lemma tool_name_inline t :
  plain_tool t = true ->
  Re.search_bol (line_prefix "## ") false (tool_name t) = None.
Proof.
  intros Ht. apply plain_tool_parts in Ht. destruct Ht as ((_ & _ & Hl & _) & _).
  apply search_inline. apply one_line_nl_free. exact Hl.
Qed.

Lemma tool_name_line t :
  plain_tool t = true ->
  Re.search_bol (line_prefix "### ") true (tool_name t) = None.
Proof.
  intros Ht. apply plain_tool_parts in Ht. destruct Ht as ((_ & _ & Hl & Hp) & _).
  apply search_line; [reflexivity|discriminate| |exact Hp].
  apply one_line_nl_free. exact Hl.
Qed.

(** A tool's text holds no [## ] line, so it is one section. *)
Lemma tool_core_search t :
  plain_tool t = true ->
  Re.search_bol (line_prefix "## ") false (tool_core t) = None.
Proof.
  intros Ht. unfold tool_core.
  apply search_render; try reflexivity.
  apply tool_blocks_ok; [left; reflexivity|exact Ht|].
  apply tool_name_inline. exact Ht.
Qed.

(** ** The pieces of a split text *)

(** A piece is the text of its block and some line feeds. *)
Definition trailed (piece : string) (b : block) : Prop :=
  exists w, all_nl w = true /\ piece = fst b +:+ w.

Lemma pieces_trailed rest : forall first w,
  all_nl w = true -> Forall (fun b => all_nl (snd b) = true) (first :: rest) ->
  Forall2 trailed (pieces first rest w) (first :: rest).
Proof.
  induction rest as [|b rest IH]; intros first w Hw Hall; simpl.
  - constructor; [|constructor]. exists w. split; [exact Hw|reflexivity].
  - inversion Hall as [|? ? Hfirst Hrest]; subst. constructor.
    + exists (snd first). split; [exact Hfirst|reflexivity].
    + apply IH; assumption.
Qed.

Lemma closed_blocks_trails q bs :
  Forall (closed_block q) bs -> Forall (fun b => all_nl (snd b) = true) bs.
Proof.
  intros H. eapply Forall_impl; [exact H|]. intros b (_ & Hb & _). exact Hb.
Qed.

Lemma fold_result_app {A S} (f : S -> A -> result S) (a b : list A) : forall s,
  fold_result f (a ++ b) s
  = let* s' := fold_result f a s in fold_result f b s'.
Proof.
  induction a as [|x a IH]; intros s; [reflexivity|].
  simpl. destruct (f s x) as [s'|e]; simpl; [apply IH|reflexivity].
Qed.

(** ** The dict of sub-sections *)

Definition section_of (present : bool) (title body : string) : list block :=
  if present then [(title +:+ Py.nl +:+ body, gap)] else [].

Definition opt_insert (key : string) (o : option string)
    (d : gmap string string) : gmap string string :=
  match o with
  | Some text => <[key := text]> d
  | None => d
  end.

(** What the dict holds for a section that is written or not. *)
Definition held (present : bool) (body : string) (o : option string) : Prop :=
  if present then exists w, all_nl w = true /\ o = Some (body +:+ w)
  else o = None.

Lemma add_sub_section_block d title body trail piece :
  no_char Py.nl_char title = true ->
  trailed piece (title +:+ Py.nl +:+ body, trail) ->
  exists w, all_nl w = true
    /\ add_sub_section d piece = Ok (<[Py.lower (Py.strip title) := body +:+ w]> d).
Proof.
  intros Ht (w & Hw & ->). exists w. split; [exact Hw|].
  cbn [fst]. rewrite 2 StrFacts.app_assoc.
  change (Py.nl +:+ body +:+ w) with (String Py.nl_char (body +:+ w)).
  unfold add_sub_section.
  rewrite split1_at_char by exact Ht. rewrite has_char_app. reflexivity.
Qed.

Lemma section_fold present title key body pieces d :
  no_char Py.nl_char title = true -> Py.lower (Py.strip title) = key ->
  Forall2 trailed pieces (section_of present title body) ->
  exists o, held present body o
    /\ fold_result add_sub_section pieces d = Ok (opt_insert key o d).
Proof.
  intros Ht <- Hp. unfold section_of in Hp. destruct present.
  - apply Forall2_cons_inv_r in Hp. destruct Hp as (piece & ps & Hpiece & Hps & ->).
    apply Forall2_nil_inv_r in Hps. subst ps.
    destruct (add_sub_section_block d title body gap piece Ht Hpiece) as (w & Hw & Hd).
    exists (Some (body +:+ w)). split; [exists w; split; [exact Hw|reflexivity]|].
    simpl. rewrite Hd. reflexivity.
  - apply Forall2_nil_inv_r in Hp. subst pieces. exists None. split; reflexivity.
Qed.

Definition has_params (t : Tool) : bool :=
  match tool_params t with [] => false | _ :: _ => true end.

Lemma sub_blocks_sections t :
  sub_blocks t
  = section_of (has_params t) "Params" (params_body t)
    ++ section_of (Py.nonempty (tool_returns t)) "Output"
         (fenced "typescript" (tool_returns t))
    ++ section_of (Py.nonempty (tool_sample_code t)) "Sample Code"
         (fenced "javascript" (tool_sample_code t)).
Proof.
  unfold sub_blocks, params_block, output_block, sample_block, has_params, section_of.
  destruct (tool_params t); reflexivity.
Qed.

Lemma sections_lookup oP oO oS :
  opt_insert "sample code" oS
    (opt_insert "output" oO (opt_insert "params" oP ∅)) !! "params" = oP
  /\ opt_insert "sample code" oS
       (opt_insert "output" oO (opt_insert "params" oP ∅)) !! "sample code" = oS.
Proof.
  destruct oP, oO, oS; cbn [opt_insert]; split;
    repeat first [rewrite lookup_insert_eq | rewrite lookup_insert_ne by discriminate
                 | rewrite lookup_empty]; reflexivity.
Qed.

Lemma sections_fold t pieces :
  Forall2 trailed pieces (sub_blocks t) ->
  exists oP oO oS,
    held (has_params t) (params_body t) oP
    /\ held (Py.nonempty (tool_sample_code t))
         (fenced "javascript" (tool_sample_code t)) oS
    /\ fold_result add_sub_section pieces ∅
       = Ok (opt_insert "sample code" oS
               (opt_insert "output" oO (opt_insert "params" oP ∅))).
Proof.
  rewrite sub_blocks_sections. intros H.
  apply Forall2_app_inv_r in H. destruct H as (pP & rest & HP & H & ->).
  apply Forall2_app_inv_r in H. destruct H as (pO & pS & HO & HS & ->).
  destruct (section_fold _ "Params" "params" _ _ ∅ eq_refl eq_refl HP)
    as (oP & HoP & EP).
  destruct (section_fold _ "Output" "output" _ _ (opt_insert "params" oP ∅)
              eq_refl eq_refl HO) as (oO & HoO & EO).
  destruct (section_fold _ "Sample Code" "sample code" _ _
              (opt_insert "output" oO (opt_insert "params" oP ∅))
              eq_refl eq_refl HS) as (oS & HoS & ES).
  exists oP, oO, oS. split; [exact HoP|]. split; [exact HoS|].
  rewrite fold_result_app, EP. cbn [bind].
  rewrite fold_result_app, EO. cbn [bind]. exact ES.
Qed.

(** ** Reading the blocks of a tool *)

Lemma ends_solid_not_nl s : forall b, ends_solid s -> ends_nl b s = false.
Proof.
  unfold ends_solid, Py.rstrip.
  induction s as [|c s IH]; intros b [Hr Hne]; [congruence|].
  simpl in Hr. simpl. destruct s as [|c' s].
  - simpl in *. destruct (Py.is_space c) eqn:E; [discriminate|].
    destruct (Py.is_nl c) eqn:En; [|reflexivity].
    apply is_nl_true in En. subst c. discriminate.
  - apply IH. destruct (Py.rstrip_of Py.is_space (String c' s)) as [|d r] eqn:E.
    + destruct (Py.is_space c); discriminate.
    + split; [congruence|discriminate].
Qed.

Lemma solid_trimmed s :
  Py.strip s = s -> s <> EmptyString -> starts_solid s = true /\ ends_solid s.
Proof.
  intros Hs Hne. split;
    [apply trimmed_starts_solid|apply trimmed_ends_solid]; assumption.
Qed.

Lemma strip_solid_nil s :
  starts_solid s = true -> ends_solid s -> Py.strip s = s.
Proof.
  intros H1 H2. rewrite <- (StrFacts.app_nil_r s) at 1.
  apply strip_solid; [exact H1|exact H2|reflexivity].
Qed.

Lemma head_core_solid t :
  plain_tool t = true -> starts_solid (head_core t) = true /\ ends_solid (head_core t).
Proof.
  intros Ht. apply plain_tool_parts in Ht.
  destruct Ht as ((Hne & Hs & _) & (Hd & _) & _).
  destruct (solid_trimmed _ Hs Hne) as [Hn1 Hn2].
  unfold head_core. destruct (Py.nonempty (tool_description t)) eqn:E.
  - split; [apply starts_solid_app; exact Hn1|].
    apply ends_solid_app. apply ends_solid_app.
    apply trimmed_ends_solid; [exact Hd|]. apply nonempty_true. exact E.
  - split; assumption.
Qed.

Lemma nonempty_false_eq s : Py.nonempty s = false -> s = EmptyString.
Proof. destruct s; [reflexivity|discriminate]. Qed.

(** The first piece of a section gives the name and the description. *)
Lemma head_parse t piece :
  plain_tool t = true -> trailed piece (head_core t, gap) ->
  match Py.splitlines (Py.strip piece) with
  | l :: _ => Py.strip l
  | [] => EmptyString
  end = tool_name t
  /\ Py.strip (Py.join Py.nl (tl (Py.splitlines (Py.strip piece))))
     = tool_description t.
Proof.
  intros Ht (w & Hw & ->). cbn [fst].
  destruct (head_core_solid t Ht) as [Hs He].
  rewrite (strip_solid _ w Hs He (all_nl_blank w Hw)).
  apply plain_tool_parts in Ht.
  destruct Ht as ((Hne & Hn & Hl & _) & (Hd & Hlf & _) & _).
  unfold head_core. destruct (Py.nonempty (tool_description t)) eqn:E.
  - change (tool_name t +:+ Py.nl +:+ tool_description t)
      with (tool_name t +:+ String Py.nl_char (tool_description t)).
    rewrite splitlines_line by exact Hl. cbn [tl]. split; [exact Hn|].
    rewrite join_splitlines; [exact Hd|exact Hlf|].
    apply ends_solid_not_nl. apply trimmed_ends_solid; [exact Hd|].
    apply nonempty_true. exact E.
  - rewrite splitlines_one_line by assumption. cbn [tl]. split; [exact Hn|].
    apply nonempty_false_eq in E. rewrite E. reflexivity.
Qed.

Lemma join_solid ls :
  ls <> [] -> Forall (fun l => starts_solid l = true /\ ends_solid l) ls ->
  starts_solid (Py.join Py.nl ls) = true /\ ends_solid (Py.join Py.nl ls).
Proof.
  intros Hne H. induction H as [|l ls [H1 H2] Hls IH]; [congruence|].
  destruct ls as [|l' ls]; [split; assumption|].
  rewrite join_cons. split; [apply starts_solid_app; exact H1|].
  apply ends_solid_app. apply ends_solid_app. apply IH. discriminate.
Qed.

Lemma param_lines_read ps :
  Forall (fun p => plain_param p = true) ps ->
  omap (fun line => parse_param_line (Py.strip line)) (map _serialize_param ps) = ps.
Proof.
  induction 1 as [|p ps Hp _ IH]; [reflexivity|].
  cbn [map omap list_omap].
  destruct (param_line_shape p Hp) as (_ & Hs & He & _).
  rewrite (strip_solid_nil _ Hs He), (param_line_round_trip p Hp).
  f_equal. exact IH.
Qed.

(** The params section gives the params back. *)
Lemma params_block_read ps w :
  Forall (fun p => plain_param p = true) ps -> ps <> [] -> all_nl w = true ->
  _parse_params_block (Py.join Py.nl (map _serialize_param ps) +:+ w) = ps.
Proof.
  intros Hps Hne Hw. unfold _parse_params_block.
  assert (Hshape : Forall (fun l => (one_line l = true /\ l <> EmptyString)
                            /\ starts_solid l = true /\ ends_solid l)
                     (map _serialize_param ps)).
  { clear Hne. induction Hps as [|p ps Hp _ IH]; [constructor|].
    cbn [map]. constructor; [|exact IH].
    destruct (param_line_shape p Hp) as (H1 & H2 & H3 & _).
    repeat split; try assumption; apply H3. }
  destruct (join_solid (map _serialize_param ps)) as [Hs He].
  - destruct ps; [congruence|discriminate].
  - eapply Forall_impl; [exact Hshape|]. intros l [_ H]. exact H.
  - rewrite (strip_solid _ w Hs He (all_nl_blank w Hw)).
    rewrite splitlines_join.
    + apply param_lines_read. exact Hps.
    + eapply Forall_impl; [exact Hshape|]. intros l [H _]. exact H.
Qed.

(** The sample code section gives the code back. *)
Lemma fenced_read code w :
  Py.strip code = code -> Py.contains "```" code = false -> all_nl w = true ->
  _extract_code_block (fenced "javascript" code +:+ w) = code.
Proof.
  intros Hs Hc Hw. unfold _extract_code_block.
  assert (Hm : _CODE_BLOCK_RE (fenced "javascript" code +:+ w)
               = Some (code +:+ Py.nl)).
  { unfold fenced, _CODE_BLOCK_RE. rewrite !StrFacts.app_assoc.
    change ("```" +:+ "javascript" +:+ Py.nl +:+ code +:+ Py.nl +:+ "```" +:+ w)
      with ("```" +:+ ("javascript"
              +:+ String Py.nl_char (code +:+ Py.nl +:+ "```" +:+ w))).
    rewrite lits_prefix, StrFacts.prefix_app, StrFacts.drop_app.
    apply star_greedy; [reflexivity|reflexivity|].
    apply lit_ok.
    apply (lazy_until_fence "```" eq_refl ltac:(discriminate) code
             (fun body => Re.lits "```" (fun _ => Some body)) (fun body => body)).
    - reflexivity.
    - exact Hc. }
  destruct (fenced "javascript" code +:+ w) as [|c s] eqn:E.
  - simpl in Hm. discriminate.
  - cbn [Re.search]. rewrite Hm.
    rewrite strip_app_blank by reflexivity. exact Hs.
Qed.

Lemma sample_read t o :
  plain_tool t = true ->
  held (Py.nonempty (tool_sample_code t)) (fenced "javascript" (tool_sample_code t)) o ->
  match o with
  | Some text => _extract_code_block text
  | None => EmptyString
  end = tool_sample_code t.
Proof.
  intros Ht Ho. apply plain_tool_parts in Ht.
  destruct Ht as (_ & _ & _ & _ & (Hs & _ & Hc)).
  destruct (Py.nonempty (tool_sample_code t)) eqn:E; cbn [held] in Ho.
  - destruct Ho as (w & Hw & ->). apply fenced_read; assumption.
  - subst o. apply nonempty_false_eq in E. congruence.
Qed.

Lemma params_read t o :
  plain_tool t = true ->
  held (has_params t) (params_body t) o ->
  match o with
  | Some text => _parse_params_block text
  | None => []
  end = tool_params t.
Proof.
  intros Ht Ho. apply plain_tool_parts in Ht.
  destruct Ht as (_ & _ & Hps & _).
  unfold has_params, params_body in Ho.
  destruct (tool_params t) as [|p ps] eqn:E; cbn [held] in Ho.
  - subst o. reflexivity.
  - destruct Ho as (w & Hw & ->). apply params_block_read; [exact Hps|discriminate|exact Hw].
Qed.

(** Reading the text written for a tool gives a tool with the same name,
    description, params and sample code, whatever line feeds follow. *)
Lemma _parse_heading_tool_serialized t w :
  plain_tool t = true -> all_nl w = true ->
  exists t',
    _parse_heading_tool (tool_core t +:+ w) = Ok t' /\ tool_view t' = tool_view t.
Proof.
  intros Ht Hw. unfold tool_core. rewrite render_trail.
  change (EmptyString +:+ w) with w.
  unfold _parse_heading_tool, Re.split_lines_at.
  change h3_prefix with (line_prefix "### ").
  rewrite split_render;
    [|reflexivity|discriminate
     |apply tool_blocks_ok; [right; reflexivity|exact Ht|apply tool_name_line; exact Ht]
     |exact Hw].
  assert (Hall : Forall (fun b => all_nl (snd b) = true)
                   ((head_core t, gap) :: sub_blocks t)).
  { constructor; [reflexivity|].
    apply (closed_blocks_trails "### "). apply sub_blocks_closed; [right; reflexivity|exact Ht]. }
  pose proof (pieces_trailed (sub_blocks t) (head_core t, gap) w Hw Hall) as HF.
  apply Forall2_cons_inv_r in HF. destruct HF as (hp & sps & Hhp & Hsps & ->).
  cbn [index nth_error bind tl].
  destruct (sections_fold t sps Hsps) as (oP & oO & oS & HP & HS & ->).
  cbn [bind].
  destruct (sections_lookup oP oO oS) as [-> ->].
  destruct (head_parse t hp Ht Hhp) as [-> ->].
  eexists. split; [reflexivity|].
  unfold tool_view. cbn [tool_name tool_description tool_sample_code tool_params].
  rewrite (sample_read t oS Ht HS), (params_read t oP Ht HP). reflexivity.
Qed.

(** ** The text written for a manifest, as blocks *)

Lemma rstrip_of_trail cls s :
  exists w, all_chars cls w = true /\ s = Py.rstrip_of cls s +:+ w.
Proof.
  induction s as [|c s (w & Hw & IH)].
  - exists EmptyString. split; reflexivity.
  - simpl. destruct (Py.rstrip_of cls s) as [|d r] eqn:E.
    + destruct (cls c) eqn:Ec.
      * exists (String c s). split; [|reflexivity].
        simpl. rewrite Ec. simpl in IH. rewrite IH. exact Hw.
      * exists w. split; [exact Hw|]. simpl in *. congruence.
    + exists w. split; [exact Hw|]. simpl in *. congruence.
Qed.

(** [to_markdown] trims the end and adds a line feed; [parse] trims again. *)
Lemma strip_rstrip_nl s : Py.strip (Py.rstrip s +:+ Py.nl) = Py.strip s.
Proof.
  destruct (rstrip_of_trail Py.is_space s) as (w & Hw & E).
  rewrite strip_app_blank by reflexivity.
  rewrite E at 2. rewrite strip_app_blank by exact Hw. reflexivity.
Qed.

Lemma strip_join_unlines ls :
  Py.strip (Py.join Py.nl ls) = Py.strip (unlines ls).
Proof.
  destruct ls as [|l ls]; [reflexivity|].
  rewrite (join_unlines (l :: ls)) by discriminate.
  rewrite strip_app_blank by reflexivity. reflexivity.
Qed.

Fixpoint flat (ss : list string) : string :=
  match ss with
  | [] => EmptyString
  | s :: ss' => s +:+ flat ss'
  end.

Lemma unlines_concat (ls : list (list string)) :
  unlines (concat ls) = flat (map unlines ls).
Proof.
  induction ls as [|l ls IH]; [reflexivity|].
  simpl. rewrite unlines_app, IH. reflexivity.
Qed.

Lemma flat_render p rest : forall first,
  Forall (fun b => all_nl (snd b) = true) (first :: rest) ->
  exists w, all_nl w = true
    /\ fst first +:+ snd first
         +:+ flat (map (fun b => p +:+ fst b +:+ snd b) rest)
       = render p first rest w.
Proof.
  induction rest as [|b rest IH]; intros first Hall;
    inversion Hall as [|? ? Hfirst Hrest]; subst.
  - exists (snd first). split; [exact Hfirst|]. simpl.
    rewrite StrFacts.app_nil_r. reflexivity.
  - destruct (IH b Hrest) as (w & Hw & E). exists w. split; [exact Hw|].
    simpl. rewrite <- E. rewrite !StrFacts.app_assoc. reflexivity.
Qed.

Lemma render_ends_solid p rest : forall first,
  ends_solid (fst first) -> Forall (fun b => ends_solid (fst b)) rest ->
  ends_solid (render p first rest EmptyString).
Proof.
  induction rest as [|b rest IH]; intros first Hf Hrest; simpl.
  - rewrite StrFacts.app_nil_r. exact Hf.
  - inversion Hrest; subst. apply ends_solid_app. apply ends_solid_app.
    apply IH; assumption.
Qed.

Lemma render_ends_solid_rest p first rest :
  rest <> [] -> Forall (fun b => ends_solid (fst b)) rest ->
  ends_solid (render p first rest EmptyString).
Proof.
  intros Hne Hrest. destruct rest as [|b rest]; [congruence|].
  inversion Hrest; subst. simpl. apply ends_solid_app. apply ends_solid_app.
  apply render_ends_solid; assumption.
Qed.

Definition title_lines (m : Manifest) : list string :=
  (if Py.nonempty (manifest_name m) then ["# " +:+ manifest_name m] else [])
  ++ (if Py.nonempty (manifest_description m) then [manifest_description m] else []).

Definition header_core (m : Manifest) : string := Py.join Py.nl (title_lines m).

Definition header_block (m : Manifest) : block :=
  (header_core m, match title_lines m with [] => EmptyString | _ :: _ => gap end).

(** The text of a manifest, before and after the final trimming. *)
Definition manifest_text (m : Manifest) (w : string) : string :=
  render "## " (header_block m) (map tool_block (manifest_tools m)) w.

Lemma tool_trail_nl t : all_nl (tool_trail t) = true /\ tool_trail t <> EmptyString.
Proof.
  unfold tool_trail. destruct (Py.nonempty (tool_sample_code t));
    (split; [reflexivity|discriminate]).
Qed.

Lemma header_trail_nl m : all_nl (snd (header_block m)) = true.
Proof. unfold header_block. destruct (title_lines m); reflexivity. Qed.

Lemma markdown_lines_blocks m :
  exists w, all_nl w = true
    /\ unlines (markdown_lines m) = manifest_text m w.
Proof.
  unfold manifest_text.
  destruct (flat_render "## " (map tool_block (manifest_tools m)) (header_block m))
    as (w & Hw & E).
  { constructor; [apply header_trail_nl|].
    apply List.Forall_forall. intros b Hb. apply in_map_iff in Hb.
    destruct Hb as (t & <- & _). apply tool_trail_nl. }
  exists w. split; [exact Hw|]. rewrite <- E.
  unfold markdown_lines. fold (title_lines m).
  rewrite unlines_app, unlines_concat, !map_map.
  rewrite <- StrFacts.app_assoc. f_equal.
  - unfold header_block, header_core. cbn [fst snd].
    destruct (title_lines m) as [|l ls]; [reflexivity|].
    rewrite unlines_app, (join_unlines (l :: ls)) by discriminate.
    rewrite !StrFacts.app_assoc. reflexivity.
  - f_equal. apply map_ext. intros t. apply _serialize_tool_blocks.
Qed.

(** What [parse] works on after serialization. *)
Lemma strip_to_markdown m :
  Py.strip (to_markdown m) = Py.strip (manifest_text m EmptyString).
Proof.
  unfold to_markdown. rewrite strip_rstrip_nl, strip_join_unlines.
  destruct (markdown_lines_blocks m) as (w & Hw & ->).
  unfold manifest_text.
  rewrite <- (render_trail "## " _ _ EmptyString w).
  apply strip_app_blank. apply all_nl_blank. exact Hw.
Qed.

(** ** The manifests the round trip is stated for *)

Definition plain_header (m : Manifest) : bool :=
  trimmed (manifest_name m) && one_line (manifest_name m)
  && trimmed (manifest_description m) && heading_free (manifest_description m)
  && forallb (fun l => negb (is_title l)) (Py.splitlines (manifest_description m)).

Definition plain_manifest (m : Manifest) : bool :=
  plain_header m && forallb plain_tool (manifest_tools m)
  && negb (has_tool_line (Py.strip (to_markdown m))).

Lemma plain_header_parts m :
  plain_header m = true ->
  Py.strip (manifest_name m) = manifest_name m
  /\ one_line (manifest_name m) = true
  /\ Py.strip (manifest_description m) = manifest_description m
  /\ heading_free (manifest_description m) = true
  /\ (forall l, In l (Py.splitlines (manifest_description m)) -> is_title l = false).
Proof.
  unfold plain_header. rewrite !andb_true_iff.
  intros [[[[H1 H2] H3] H4] H5].
  repeat split; try assumption; try (apply trimmed_eq; assumption).
  intros l Hl. rewrite forallb_forall in H5. apply negb_true_iff. apply H5. exact Hl.
Qed.

Lemma title_lines_solid m :
  plain_header m = true ->
  Forall (fun l => starts_solid l = true /\ ends_solid l) (title_lines m).
Proof.
  intros Hm. apply plain_header_parts in Hm.
  destruct Hm as (Hn & _ & Hd & _).
  unfold title_lines. apply Forall_app_2.
  - destruct (Py.nonempty (manifest_name m)) eqn:E; constructor; [|constructor].
    split; [reflexivity|]. apply ends_solid_app.
    apply trimmed_ends_solid; [exact Hn|]. apply nonempty_true. exact E.
  - destruct (Py.nonempty (manifest_description m)) eqn:E; constructor; [|constructor].
    apply solid_trimmed; [exact Hd|]. apply nonempty_true. exact E.
Qed.

Lemma header_core_solid m :
  plain_header m = true -> title_lines m <> [] ->
  starts_solid (header_core m) = true /\ ends_solid (header_core m).
Proof.
  intros Hm Hne. apply join_solid; [exact Hne|]. apply title_lines_solid. exact Hm.
Qed.

Lemma header_core_search m :
  plain_header m = true ->
  Re.search_bol (line_prefix "## ") true (header_core m) = None.
Proof.
  intros Hm. apply plain_header_parts in Hm.
  destruct Hm as (_ & Hl & _ & Hd & _).
  assert (Hnl : nl_free ("# " +:+ manifest_name m) = true).
  { apply one_line_nl_free in Hl. exact Hl. }
  assert (Hdesc := heading_free_search "## " _ (or_introl eq_refl) Hd).
  unfold header_core, title_lines.
  destruct (Py.nonempty (manifest_name m)), (Py.nonempty (manifest_description m));
    cbn [app].
  - rewrite join_cons.
    apply search_line_nl; [reflexivity|reflexivity|exact Hnl|reflexivity|exact Hdesc].
  - apply search_line; [reflexivity|discriminate|exact Hnl|reflexivity].
  - exact Hdesc.
  - reflexivity.
Qed.

Lemma ends_solid_fenced lang code : ends_solid (fenced lang code).
Proof.
  unfold fenced. repeat apply ends_solid_app. split; [reflexivity|discriminate].
Qed.

Lemma sub_blocks_solid t :
  plain_tool t = true -> Forall (fun b => ends_solid (fst b)) (sub_blocks t).
Proof.
  intros Ht. apply plain_tool_parts in Ht. destruct Ht as (_ & _ & Hps & _).
  unfold sub_blocks. repeat apply Forall_app_2.
  - unfold params_block, params_body.
    destruct (tool_params t) as [|p ps]; constructor; [|constructor].
    cbn [fst]. repeat apply ends_solid_app.
    apply join_solid; [discriminate|].
    clear -Hps. induction Hps as [|q qs Hq _ IH]; [constructor|].
    cbn [map]. constructor; [|exact IH].
    destruct (param_line_shape q Hq) as (_ & H2 & H3 & _). split; assumption.
  - unfold output_block. destruct (Py.nonempty (tool_returns t)); constructor; [|constructor].
    cbn [fst]. apply ends_solid_app. apply ends_solid_app. apply ends_solid_fenced.
  - unfold sample_block. destruct (Py.nonempty (tool_sample_code t)); constructor; [|constructor].
    cbn [fst]. apply ends_solid_app. apply ends_solid_app. apply ends_solid_fenced.
Qed.

Lemma tool_core_solid t : plain_tool t = true -> ends_solid (tool_core t).
Proof.
  intros Ht. unfold tool_core. apply render_ends_solid.
  - apply head_core_solid. exact Ht.
  - apply sub_blocks_solid. exact Ht.
Qed.

Lemma render_starts_solid p first rest w :
  starts_solid (fst first) = true -> starts_solid (render p first rest w) = true.
Proof.
  intros H. destruct rest; simpl; repeat apply starts_solid_app; exact H.
Qed.

Lemma manifest_text_solid m :
  plain_header m = true ->
  Forall (fun t => plain_tool t = true) (manifest_tools m) ->
  title_lines m <> [] \/ manifest_tools m <> [] ->
  starts_solid (manifest_text m EmptyString) = true
  /\ ends_solid (manifest_text m EmptyString).
Proof.
  intros Hm Hts Hne. unfold manifest_text. split.
  - destruct (title_lines m) as [|l ls] eqn:E.
    + destruct Hne as [Hne|Hne]; [congruence|].
      destruct (manifest_tools m) as [|t ts]; [congruence|].
      unfold header_block, header_core. rewrite E. reflexivity.
    + apply render_starts_solid. cbn [header_block fst].
      apply header_core_solid; [exact Hm|congruence].
  - destruct (manifest_tools m) as [|t ts] eqn:E.
    + destruct Hne as [Hne|Hne]; [|congruence].
      cbn [map render]. rewrite StrFacts.app_nil_r.
      apply header_core_solid; assumption.
    + apply render_ends_solid_rest; [discriminate|].
      rewrite <- E in *. clear E Hne.
      induction Hts as [|t' ts' Ht' _ IH]; [constructor|].
      cbn [map]. constructor; [|exact IH]. apply tool_core_solid. exact Ht'.
Qed.

(** ** Reading the text of a manifest *)

Lemma header_loop_name lines : forall name desc_lines,
  (forall l, In l lines -> is_title l = false) ->
  fst (header_loop lines name desc_lines) = name.
Proof.
  induction lines as [|line lines IH]; intros name desc_lines H; [reflexivity|].
  cbn [header_loop]. pose proof (H line (or_introl eq_refl)) as Hl.
  unfold is_title in Hl. rewrite Hl.
  destruct (Py.nonempty name); apply IH; intros l Hin; apply H; right; exact Hin.
Qed.

Lemma header_loop_title n lines name desc_lines :
  header_loop (("# " +:+ n) :: lines) name desc_lines
  = header_loop lines (Py.strip n) desc_lines.
Proof.
  cbn [header_loop]. unfold Py.removeprefix, Py.startswith.
  rewrite StrFacts.prefix_app, StrFacts.drop_app. reflexivity.
Qed.

Lemma header_parse m hp :
  plain_header m = true -> trailed hp (header_block m) ->
  fst (_parse_manifest_header hp) = manifest_name m.
Proof.
  intros Hm (w & Hw & ->). rewrite _parse_manifest_header_unfold.
  cbn [fst header_block].
  assert (Hstrip : Py.strip (header_core m +:+ w) = header_core m).
  { destruct (title_lines m) as [|l ls] eqn:E.
    - unfold header_core. rewrite E.
      rewrite strip_app_blank by (apply all_nl_blank; exact Hw). reflexivity.
    - destruct (header_core_solid m Hm) as [Hs He]; [congruence|].
      apply strip_solid; [exact Hs|exact He|apply all_nl_blank; exact Hw]. }
  rewrite Hstrip. apply plain_header_parts in Hm.
  destruct Hm as (Hn & Hl & _ & _ & Hd).
  assert (Hline : one_line ("# " +:+ manifest_name m) = true).
  { unfold one_line in *. rewrite all_chars_app, Hl. reflexivity. }
  unfold header_core, title_lines.
  destruct (Py.nonempty (manifest_name m)) eqn:En,
           (Py.nonempty (manifest_description m)) eqn:Ed; cbn [app].
  - rewrite join_cons.
    change (("# " +:+ manifest_name m) +:+ Py.nl +:+ Py.join Py.nl [manifest_description m])
      with (("# " +:+ manifest_name m) +:+ String Py.nl_char (manifest_description m)).
    rewrite splitlines_line by exact Hline.
    rewrite header_loop_title, header_loop_name by exact Hd. exact Hn.
  - change (Py.join Py.nl ["# " +:+ manifest_name m]) with ("# " +:+ manifest_name m).
    rewrite splitlines_one_line by (exact Hline || discriminate).
    rewrite header_loop_title. exact Hn.
  - change (Py.join Py.nl [manifest_description m]) with (manifest_description m).
    rewrite header_loop_name by exact Hd.
    apply nonempty_false_eq in En. congruence.
  - apply nonempty_false_eq in En. rewrite En. reflexivity.
Qed.

Lemma tools_parse tools : forall pieces,
  Forall (fun t => plain_tool t = true) tools ->
  Forall2 trailed pieces (map tool_block tools) ->
  exists tools',
    map_result _parse_heading_tool pieces = Ok tools'
    /\ map tool_view tools' = map tool_view tools.
Proof.
  induction tools as [|t tools IH]; intros pieces Hts Hp; cbn [map] in Hp.
  - apply Forall2_nil_inv_r in Hp. subst pieces. exists []. split; reflexivity.
  - apply Forall2_cons_inv_r in Hp. destruct Hp as (piece & ps & (w & Hw & ->) & Hps & ->).
    inversion Hts as [|? ? Ht Hts']; subst.
    destruct (_parse_heading_tool_serialized t w Ht Hw) as (t' & Et & Vt).
    destruct (IH ps Hts' Hps) as (tools' & Ets & Vts).
    exists (t' :: tools'). cbn [map_result tool_block fst].
    rewrite Et. cbn [bind]. rewrite Ets. cbn [bind map].
    split; [reflexivity|]. rewrite Vt, Vts. reflexivity.
Qed.

Lemma tool_blocks_closed tools :
  Forall (fun t => plain_tool t = true) tools ->
  Forall (closed_block "## ") (map tool_block tools).
Proof.
  induction 1 as [|t tools Ht _ IH]; [constructor|].
  cbn [map]. constructor; [|exact IH].
  split; [apply tool_core_search; exact Ht|apply tool_trail_nl].
Qed.

Lemma manifest_blocks_ok m :
  plain_header m = true ->
  Forall (fun t => plain_tool t = true) (manifest_tools m) ->
  blocks_ok (line_prefix "## ") true (header_block m)
    (map tool_block (manifest_tools m)).
Proof.
  intros Hm Hts. apply blocks_ok_open.
  - apply header_core_search. exact Hm.
  - apply header_trail_nl.
  - unfold header_block, header_core. destruct (title_lines m) as [|l ls]; [reflexivity|].
    cbn [fst snd]. apply ends_nl_trail; [reflexivity|discriminate].
  - apply tool_blocks_closed. exact Hts.
Qed.

Lemma parse_strip_eq a b : Py.strip a = Py.strip b -> parse a = parse b.
Proof. intros H. unfold parse. rewrite H. reflexivity. Qed.

Lemma starts_solid_nonempty s : starts_solid s = true -> Py.nonempty s = true.
Proof. destruct s; [discriminate|reflexivity]. Qed.

Lemma title_lines_nil m : title_lines m = [] -> manifest_name m = EmptyString.
Proof.
  unfold title_lines. destruct (Py.nonempty (manifest_name m)) eqn:E; [discriminate|].
  intros _. apply nonempty_false_eq. exact E.
Qed.

Lemma parse_manifest_text_solid m :
  plain_header m = true ->
  Forall (fun t => plain_tool t = true) (manifest_tools m) ->
  has_tool_line (Py.strip (manifest_text m EmptyString)) = false ->
  title_lines m <> [] \/ manifest_tools m <> [] ->
  exists m',
    parse (manifest_text m EmptyString) = Ok m'
    /\ manifest_view m' = manifest_view m.
Proof.
  intros Hm Hts Htool Hne.
  destruct (manifest_text_solid m Hm Hts Hne) as [Hs He].
  unfold parse. rewrite (strip_solid_nil _ Hs He) in *.
  rewrite (starts_solid_nonempty _ Hs), Htool. cbn [negb].
  unfold _parse_heading, Re.split_lines_at, manifest_text.
  change h2_prefix with (line_prefix "## ").
  rewrite split_render;
    [|reflexivity|discriminate|apply manifest_blocks_ok; assumption|reflexivity].
  assert (Hall : Forall (fun b => all_nl (snd b) = true)
                   (header_block m :: map tool_block (manifest_tools m))).
  { constructor; [apply header_trail_nl|].
    apply (closed_blocks_trails "## "). apply tool_blocks_closed. exact Hts. }
  pose proof (pieces_trailed (map tool_block (manifest_tools m))
                (header_block m) EmptyString eq_refl Hall) as HF.
  apply Forall2_cons_inv_r in HF. destruct HF as (hp & tps & Hhp & Htps & ->).
  cbn [index nth_error bind tl].
  pose proof (header_parse m hp Hm Hhp) as Hname.
  destruct (_parse_manifest_header hp) as [n d]. cbn [fst] in Hname. subst n.
  destruct (tools_parse (manifest_tools m) tps Hts Htps) as (tools' & -> & Hview).
  cbn [bind]. eexists. split; [reflexivity|].
  unfold manifest_view, set_content.
  cbn [manifest_name manifest_tools]. rewrite Hview. reflexivity.
Qed.

Lemma parse_manifest_text m :
  plain_header m = true ->
  Forall (fun t => plain_tool t = true) (manifest_tools m) ->
  has_tool_line (Py.strip (manifest_text m EmptyString)) = false ->
  exists m',
    parse (manifest_text m EmptyString) = Ok m'
    /\ manifest_view m' = manifest_view m.
Proof.
  intros Hm Hts Htool.
  destruct (title_lines m) as [|l ls] eqn:El;
    [destruct (manifest_tools m) as [|t ts] eqn:Et|].
  - exists empty_manifest. split.
    + unfold manifest_text, header_block, header_core. rewrite El, Et. reflexivity.
    + unfold manifest_view. rewrite Et, (title_lines_nil m El). reflexivity.
  - apply parse_manifest_text_solid; try assumption.
    + rewrite Et. exact Hts.
    + right. congruence.
  - apply parse_manifest_text_solid; try assumption. left. congruence.
Qed.

(** The manifest of the serializer test of the repository. *)
Definition test_manifest : Manifest :=
  mkManifest "Test" EmptyString default_version
    [mkTool "search" "Search."
       [mkParam "q" "string" "The query." true None;
        mkParam "limit" "number" "Max results." false (Some "10")]
       EmptyString "const r = await global.search(q);"]
    EmptyString.

(** A heading text whose sample code section holds a lone fence. *)
Definition lone_fence_text : string :=
  "## a" +:+ Py.nl +:+ Py.nl +:+ "### Sample Code" +:+ Py.nl +:+ "```".

(** Outside the plain manifests a field can be lost. The heading parser
    reads a lone fence as the sample code of the tool; the text written for
    that manifest holds the fence inside a fenced block, and reading it
    again gives an empty sample code. *)
Lemma lone_fence_sample_code_is_lost :
  exists m m',
    _parse_heading lone_fence_text = Ok m
    /\ parse lone_fence_text = Ok (set_content m lone_fence_text)
    /\ map tool_sample_code (manifest_tools m) = ["```"]
    /\ parse (to_markdown m) = Ok m'
    /\ map tool_sample_code (manifest_tools m') = [EmptyString]
    /\ manifest_view m' <> manifest_view m.
Proof.
  eexists. eexists.
  split; [vm_compute; reflexivity|].
  split; [vm_compute; reflexivity|].
  split; [reflexivity|].
  split; [vm_compute; reflexivity|].
  split; [reflexivity|].
  vm_compute. discriminate.
Qed.

(** X1. Round trip, for the manifests [plain_manifest] accepts:
    - the name of the manifest is trimmed and has no line break;
    - the description of the manifest is trimmed, no line of it starts
      with [## ] or [### ], and no line of it, as [splitlines] cuts it,
      starts with [# ];
    - every tool has a name that is not empty, trimmed, without line break
      and does not start with [### ]; a description that is trimmed, whose
      line breaks are line feeds only, and no line of which starts with
      [## ] or [### ]; a returns text no line of which starts with [## ] or
      [### ]; a sample code that is trimmed, holds no fence of three
      backquotes, and no line of which starts with [## ] or [### ];
    - every param has a name that is not empty and made of word characters;
      a type that is trimmed, without line break, comma or closing
      parenthesis, that is neither [optional] nor [required] and does not
      start with [default=]; no default, or else a false required flag and
      a default that is trimmed, without line break, comma or closing
      parenthesis; a description that is not empty, trimmed and without
      line break;
    - no line of the text written starts with [tool:] and a blank.
    For such a manifest [parse (to_markdown m)] succeeds and gives the same
    name, the same tools in the same order, and for each tool the same
    name, description, sample code and, in order, the same param names,
    types, required flags and defaults. *)
Theorem round_trip_of_plain_manifest (m : Manifest) :
  plain_manifest m = true ->
  exists m',
    parse (to_markdown m) = Ok m' /\ manifest_view m' = manifest_view m.
Proof.
  unfold plain_manifest. rewrite !andb_true_iff, negb_true_iff.
  intros [[Hm Hts] Htool].
  rewrite strip_to_markdown in Htool.
  rewrite (parse_strip_eq _ _ (strip_to_markdown m)).
  apply parse_manifest_text; [exact Hm| |exact Htool].
  apply List.Forall_forall. intros t Ht. rewrite forallb_forall in Hts.
  apply Hts. exact Ht.
Qed.

Lemma round_trip_of_plain_manifest_witness :
  plain_manifest test_manifest = true
  /\ exists m',
       parse (to_markdown test_manifest) = Ok m'
       /\ manifest_view m' = manifest_view test_manifest.
Proof.
  split; [vm_compute; reflexivity|].
  apply (round_trip_of_plain_manifest test_manifest). vm_compute. reflexivity.
Defined.

(* ===================================================================== *)
(** * Further properties of the parser and the serializer *)
(* ===================================================================== *)

(** ** The params section *)

(** The params of the serializer test of the repository. *)
Definition test_params : list Param :=
  [mkParam "q" "string" "The query." true None;
   mkParam "limit" "number" "Max results." false (Some "10")].

(** X2. The params section round trip, for the params [plain_param]
    accepts: a name that is not empty and made of word characters; a type
    that is trimmed, without line break, comma or closing parenthesis, that
    is neither [optional] nor [required] and does not start with
    [default=]; no default, or else a false required flag and a default
    that is trimmed, without line break, comma or closing parenthesis; a
    description that is not empty, trimmed and without line break. The
    lines [_serialize_param] writes for such params, joined by line feeds,
    are read back by [_parse_params_block] as the same params,
    descriptions included. *)
Theorem params_block_round_trip (params : list Param) :
  forallb plain_param params = true ->
  _parse_params_block (Py.join Py.nl (map _serialize_param params)) = params.
Proof.
  intros H. destruct params as [|p ps]; [reflexivity|].
  rewrite <- (StrFacts.app_nil_r (Py.join Py.nl (map _serialize_param (p :: ps)))).
  apply params_block_read; [|discriminate|reflexivity].
  apply List.Forall_forall. intros x Hx. rewrite forallb_forall in H. apply H. exact Hx.
Qed.

Lemma params_block_round_trip_witness :
  forallb plain_param test_params = true
  /\ _parse_params_block (Py.join Py.nl (map _serialize_param test_params))
     = test_params.
Proof.
  split; [reflexivity|]. apply (params_block_round_trip test_params). reflexivity.
Defined.

(** ** Fenced code blocks *)

Lemma _CODE_BLOCK_RE_fence s :
  String.prefix "```" s = false -> _CODE_BLOCK_RE s = None.
Proof.
  intros H. unfold _CODE_BLOCK_RE. rewrite lits_prefix, H. reflexivity.
Qed.

Lemma search_code_block_none text :
  Py.contains "```" text = false -> Re.search _CODE_BLOCK_RE text = None.
Proof.
  induction text as [|c text IH]; intros H.
  - reflexivity.
  - rewrite contains_cons in H. apply orb_false_iff in H. destruct H as [H1 H2].
    cbn [Re.search]. rewrite (_CODE_BLOCK_RE_fence _ H1). apply IH. exact H2.
Qed.

(** X3. Without a fence in the text, [_extract_code_block] gives the whole
    text, trimmed. *)
Theorem code_block_without_fence (text : string) :
  Py.contains "```" text = false ->
  _extract_code_block text = Py.strip text.
Proof.
  intros H. unfold _extract_code_block. rewrite (search_code_block_none text H).
  reflexivity.
Qed.

Lemma code_block_without_fence_witness :
  Py.contains "```" "  return 1;  " = false
  /\ _extract_code_block "  return 1;  " = Py.strip "  return 1;  ".
Proof.
  split; [reflexivity|]. apply (code_block_without_fence "  return 1;  "). reflexivity.
Defined.

Lemma _CODE_BLOCK_RE_fenced lang body rest :
  all_chars Py.is_word lang = true -> Py.contains "```" body = false ->
  _CODE_BLOCK_RE ("```" +:+ lang +:+ Py.nl +:+ body +:+ Py.nl +:+ "```" +:+ rest)
  = Some (body +:+ Py.nl).
Proof.
  intros Hl Hb. unfold _CODE_BLOCK_RE.
  rewrite lits_prefix, StrFacts.prefix_app, StrFacts.drop_app.
  change (lang +:+ Py.nl +:+ body +:+ Py.nl +:+ "```" +:+ rest)
    with (lang +:+ String Py.nl_char (body +:+ Py.nl +:+ "```" +:+ rest)).
  apply star_greedy; [exact Hl|reflexivity|].
  apply lit_ok.
  apply (lazy_until_fence "```" eq_refl ltac:(discriminate) body
           (fun body => Re.lits "```" (fun _ => Some body)) (fun body => body)).
  - reflexivity.
  - exact Hb.
Qed.

(** X4. On a text that opens with a fence line (the fence and a language
    word), [_extract_code_block] gives the lines up to the next line that
    starts with a fence, trimmed, whatever follows that fence. *)
Theorem code_block_between_fences (lang body rest : string) :
  all_chars Py.is_word lang = true -> Py.contains "```" body = false ->
  _extract_code_block
    ("```" +:+ lang +:+ Py.nl +:+ body +:+ Py.nl +:+ "```" +:+ rest)
  = Py.strip body.
Proof.
  intros Hl Hb. unfold _extract_code_block.
  pose proof (_CODE_BLOCK_RE_fenced lang body rest Hl Hb) as Hm.
  destruct ("```" +:+ lang +:+ Py.nl +:+ body +:+ Py.nl +:+ "```" +:+ rest)
    as [|c s] eqn:E; [discriminate|].
  cbn [Re.search]. rewrite Hm. apply strip_app_blank. reflexivity.
Qed.

Lemma code_block_between_fences_witness :
  all_chars Py.is_word "js" = true
  /\ Py.contains "```" "const r = 1;" = false
  /\ _extract_code_block
       ("```" +:+ "js" +:+ Py.nl +:+ "const r = 1;" +:+ Py.nl +:+ "```"
        +:+ Py.nl +:+ "More text.")
     = Py.strip "const r = 1;".
Proof.
  split; [reflexivity|]. split; [reflexivity|].
  apply (code_block_between_fences "js" "const r = 1;" (Py.nl +:+ "More text."));
    reflexivity.
Defined.

(** ** Trimming twice *)

Lemma rstrip_of_idem cls s :
  Py.rstrip_of cls (Py.rstrip_of cls s) = Py.rstrip_of cls s.
Proof.
  induction s as [|c s IH]; [reflexivity|].
  cbn [Py.rstrip_of]. destruct (Py.rstrip_of cls s) as [|d r] eqn:E.
  - destruct (cls c) eqn:Ec; [reflexivity|].
    cbn [Py.rstrip_of]. rewrite Ec. reflexivity.
  - cbn [Py.rstrip_of] in *. rewrite IH. reflexivity.
Qed.

Lemma lstrip_starts_solid s :
  Py.lstrip s = EmptyString \/ starts_solid (Py.lstrip s) = true.
Proof.
  unfold Py.lstrip. induction s as [|c s IH]; [left; reflexivity|].
  cbn [Py.lstrip_of]. destruct (Py.is_space c) eqn:E; [exact IH|].
  right. cbn [starts_solid]. rewrite E. reflexivity.
Qed.

Lemma rstrip_starts_solid s :
  starts_solid s = true -> starts_solid (Py.rstrip s) = true.
Proof.
  unfold Py.rstrip. destruct s as [|c s]; [discriminate|].
  cbn [starts_solid Py.rstrip_of]. intros H.
  destruct (Py.rstrip_of Py.is_space s).
  - apply negb_true_iff in H. rewrite H. cbn [starts_solid]. rewrite H. reflexivity.
  - exact H.
Qed.

Lemma strip_idem s : Py.strip (Py.strip s) = Py.strip s.
Proof.
  unfold Py.strip, Py.strip_of.
  destruct (lstrip_starts_solid s) as [H|H]; unfold Py.lstrip in H.
  - rewrite H. reflexivity.
  - apply rstrip_starts_solid in H. unfold Py.rstrip in H.
    pose proof (lstrip_solid _ H) as L. unfold Py.lstrip in L.
    rewrite L. apply rstrip_of_idem.
Qed.

(** ** What [parse] keeps of its input *)

(** X5. [parse] ignores the white space around its input: the text and the
    trimmed text give the same result. *)
Theorem parse_ignores_outer_whitespace (text : string) :
  parse (Py.strip text) = parse text.
Proof. apply parse_strip_eq. apply strip_idem. Qed.

Lemma _parse_heading_version markdown m :
  _parse_heading markdown = Ok m -> manifest_version m = default_version.
Proof.
  unfold _parse_heading.
  destruct (index _ 0) as [header|e]; [|discriminate]. cbn [bind].
  destruct (_parse_manifest_header header) as [name description].
  destruct (map_result _ _) as [tools|e]; [|discriminate]. cbn [bind].
  intros [= <-]. reflexivity.
Qed.

Lemma _parse_compact_version markdown m :
  _parse_compact markdown = Ok m -> manifest_version m = default_version.
Proof.
  unfold _parse_compact.
  destruct (preamble_loop _ _ _) as [name preamble_lines].
  destruct (map_result _ _) as [tools|e]; [|discriminate]. cbn [bind].
  intros [= <-]. reflexivity.
Qed.

(** X6. Whenever [parse] returns, the content of the manifest is the
    trimmed input text and its version is the default version. *)
Theorem parse_keeps_trimmed_text (text : string) (m : Manifest) :
  parse text = Ok m ->
  manifest_content m = Py.strip text /\ manifest_version m = default_version.
Proof.
  unfold parse. destruct (Py.nonempty (Py.strip text)) eqn:E; cbn [negb].
  - destruct (has_tool_line (Py.strip text)).
    + destruct (_parse_compact (Py.strip text)) as [m0|e] eqn:E0; [|discriminate].
      cbn [bind]. intros [= <-]. split; [reflexivity|].
      apply (_parse_compact_version _ _ E0).
    + destruct (_parse_heading (Py.strip text)) as [m0|e] eqn:E0; [|discriminate].
      cbn [bind]. intros [= <-]. split; [reflexivity|].
      apply (_parse_heading_version _ _ E0).
  - intros [= <-]. apply nonempty_false_eq in E. rewrite E. split; reflexivity.
Qed.

Lemma parse_keeps_trimmed_text_witness :
  exists m,
    parse ("  ## search" +:+ Py.nl +:+ "Search." +:+ Py.nl) = Ok m
    /\ manifest_content m = Py.strip ("  ## search" +:+ Py.nl +:+ "Search." +:+ Py.nl)
    /\ manifest_version m = default_version.
Proof.
  eexists. split; [vm_compute; reflexivity|].
  eapply (parse_keeps_trimmed_text ("  ## search" +:+ Py.nl +:+ "Search." +:+ Py.nl)).
  vm_compute. reflexivity.
Defined.

(** X7. Blank input: a text of white space only is parsed as the empty
    manifest, and [validate_markdown] reports exactly that it has no name
    and no tools. *)
Theorem blank_text_is_empty_manifest (text : string) :
  all_chars Py.is_space text = true ->
  parse text = Ok empty_manifest
  /\ validate_markdown text
     = Ok ["Manifest has no name."; "Manifest has no tools."].
Proof.
  intros H.
  assert (Hs : Py.strip text = EmptyString).
  { change (Py.strip text) with (Py.strip (EmptyString +:+ text)).
    rewrite strip_app_blank by exact H. reflexivity. }
  assert (Hp : parse text = Ok empty_manifest).
  { unfold parse. rewrite Hs. reflexivity. }
  split; [exact Hp|]. unfold validate_markdown. rewrite Hp. reflexivity.
Qed.

Lemma blank_text_is_empty_manifest_witness :
  all_chars Py.is_space (" " +:+ Py.nl +:+ "  ") = true
  /\ parse (" " +:+ Py.nl +:+ "  ") = Ok empty_manifest
  /\ validate_markdown (" " +:+ Py.nl +:+ "  ")
     = Ok ["Manifest has no name."; "Manifest has no tools."].
Proof.
  split; [reflexivity|].
  apply (blank_text_is_empty_manifest (" " +:+ Py.nl +:+ "  ")). reflexivity.
Defined.

(** ** The shape of the written text *)

(** X8. The text [to_markdown] writes ends with one line feed, and before
    it with no white space: no blank line and no blank ends the text. *)
Theorem to_markdown_ends_with_one_line_feed (m : Manifest) :
  exists body,
    to_markdown m = body +:+ Py.nl /\ Py.rstrip body = body.
Proof.
  exists (Py.rstrip (Py.join Py.nl (markdown_lines m))).
  split; [reflexivity|]. apply rstrip_of_idem.
Qed.

(** ** Validation after a round trip *)

Lemma params_empty_view t t' :
  map param_view (tool_params t') = map param_view (tool_params t) ->
  params_empty t' = params_empty t.
Proof.
  unfold params_empty. destruct (tool_params t'), (tool_params t);
    try reflexivity; discriminate.
Qed.

(** [validate] reads of a tool only what the round trip compares. *)
Lemma validate_tool_view vs vs' t t' :
  vs_warnings vs' = vs_warnings vs -> vs_seen_names vs' = vs_seen_names vs ->
  tool_view t' = tool_view t ->
  vs_warnings (validate_tool vs' t') = vs_warnings (validate_tool vs t)
  /\ vs_seen_names (validate_tool vs' t') = vs_seen_names (validate_tool vs t).
Proof.
  intros Hw Hs Hv. unfold tool_view in Hv.
  injection Hv as Hname Hdesc Hcode Hparams.
  apply params_empty_view in Hparams.
  unfold validate_tool. rewrite Hname, Hdesc, Hcode, Hparams, Hs.
  destruct (Py.nonempty (tool_name t)), (Py.nonempty (tool_description t)),
    (bool_decide (tool_name t ∈ vs_seen_names vs)),
    (params_empty t && negb (Py.nonempty (tool_sample_code t)));
    cbn [negb warn see vs_warnings vs_seen_names]; rewrite ?Hw, ?Hs; split; reflexivity.
Qed.

Lemma validate_fold_view tools : forall tools' vs vs',
  vs_warnings vs' = vs_warnings vs -> vs_seen_names vs' = vs_seen_names vs ->
  map tool_view tools' = map tool_view tools ->
  vs_warnings (fold_left validate_tool tools' vs')
  = vs_warnings (fold_left validate_tool tools vs).
Proof.
  induction tools as [|t tools IH]; intros [|t' tools'] vs vs' Hw Hs Hv;
    try discriminate; [exact Hw|].
  cbn [map] in Hv.
  assert (Ht : tool_view t' = tool_view t) by congruence.
  assert (Hts : map tool_view tools' = map tool_view tools) by congruence.
  cbn [fold_left].
  destruct (validate_tool_view vs vs' t t' Hw Hs Ht) as [Hw' Hs'].
  apply IH; assumption.
Qed.

Lemma validate_view m m' :
  manifest_view m' = manifest_view m -> validate m' = validate m.
Proof.
  unfold manifest_view. intros Hv. injection Hv as Hname Htools.
  unfold validate, validate_run. apply validate_fold_view; [| |exact Htools].
  - rewrite Hname.
    destruct (Py.nonempty (manifest_name m)), (manifest_tools m'), (manifest_tools m);
      try discriminate; reflexivity.
  - destruct (Py.nonempty (manifest_name m')), (Py.nonempty (manifest_name m)),
      (manifest_tools m'), (manifest_tools m); reflexivity.
Qed.

(** X9. Validation after the round trip, for the manifests
    [plain_manifest] accepts:
    - the name of the manifest is trimmed and has no line break;
    - the description of the manifest is trimmed, no line of it starts
      with [## ] or [### ], and no line of it, as [splitlines] cuts it,
      starts with [# ];
    - every tool has a name that is not empty, trimmed, without line break
      and does not start with [### ]; a description that is trimmed, whose
      line breaks are line feeds only, and no line of which starts with
      [## ] or [### ]; a returns text no line of which starts with [## ] or
      [### ]; a sample code that is trimmed, holds no fence of three
      backquotes, and no line of which starts with [## ] or [### ];
    - every param has a name that is not empty and made of word characters;
      a type that is trimmed, without line break, comma or closing
      parenthesis, that is neither [optional] nor [required] and does not
      start with [default=]; no default, or else a false required flag and
      a default that is trimmed, without line break, comma or closing
      parenthesis; a description that is not empty, trimmed and without
      line break;
    - no line of the text written starts with [tool:] and a blank.
    Writing such a manifest and reading the text again changes no warning:
    [validate] of the manifest read back equals [validate] of the manifest
    written. *)
Theorem validate_after_round_trip (m : Manifest) :
  plain_manifest m = true ->
  exists m', parse (to_markdown m) = Ok m' /\ validate m' = validate m.
Proof.
  unfold plain_manifest. rewrite !andb_true_iff, negb_true_iff.
  intros [[Hm Hts] Htool].
  rewrite strip_to_markdown in Htool.
  rewrite (parse_strip_eq _ _ (strip_to_markdown m)).
  destruct (parse_manifest_text m Hm) as (m' & Hp & Hv); [|exact Htool|].
  - apply List.Forall_forall. intros t Ht. rewrite forallb_forall in Hts.
    apply Hts. exact Ht.
  - exists m'. split; [exact Hp|]. apply validate_view. exact Hv.
Qed.

Lemma validate_after_round_trip_witness :
  plain_manifest test_manifest = true
  /\ exists m',
       parse (to_markdown test_manifest) = Ok m'
       /\ validate m' = validate test_manifest.
Proof.
  split; [vm_compute; reflexivity|].
  apply (validate_after_round_trip test_manifest). vm_compute. reflexivity.
Defined.

(** ** The types of the declaration *)

(** X10. [_param_to_ts] rewrites two types only: [object] and [array] get
    their declaration types, and every other type, listed in the type
    table or not, is written as it stands. *)
Theorem param_type_is_passed_through (param : Param) :
  _param_to_ts param
  = param_name param
    +:+ (if param_required param then EmptyString else "?") +:+ ": "
    +:+ (if String.eqb (param_type param) "object" then "Record<string, unknown>"
         else if String.eqb (param_type param) "array" then "unknown[]"
         else param_type param).
Proof.
  unfold _param_to_ts. destruct (param_required param); cbn [negb]; do 3 f_equal.
  all: unfold _TS_TYPE_MAP; cbn [list_to_map foldr uncurry fst snd].
  all: rewrite !lookup_insert, lookup_empty.
  all: repeat (destruct (decide _) as [Heq|?]; [rewrite <- Heq; reflexivity|]).
  all: cbn [default].
  all: destruct (String.eqb_spec (param_type param) "object") as [E1|_]; [congruence|].
  all: destruct (String.eqb_spec (param_type param) "array") as [E2|_]; [congruence|].
  all: reflexivity.
Qed.

(** ** The params of the compact dialect *)

(** What every param read by the compact dialect satisfies: no description,
    and optional exactly when it has a default. *)
Definition compact_param (p : Param) : Prop :=
  param_description p = EmptyString
  /\ param_required p = negb (is_Some_bool (param_default p)).

Lemma fold_result_inv {A S} (f : S -> A -> result S) (P : S -> Prop) l :
  (forall s x s', P s -> f s x = Ok s' -> P s') ->
  forall s s', P s -> fold_result f l s = Ok s' -> P s'.
Proof.
  intros Hf. induction l as [|x l IH]; intros s s' Hs; cbn [fold_result].
  - intros [= <-]. exact Hs.
  - destruct (f s x) as [s1|e] eqn:E; cbn [bind]; [|discriminate].
    apply IH. apply (Hf s x s1 Hs E).
Qed.

Lemma map_result_inv {A B} (f : A -> result B) (Q : B -> Prop) l :
  (forall x y, f x = Ok y -> Q y) ->
  forall ys, map_result f l = Ok ys -> Forall Q ys.
Proof.
  intros Hf. induction l as [|x l IH]; intros ys; cbn [map_result].
  - intros [= <-]. constructor.
  - destruct (f x) as [y|e] eqn:E; cbn [bind]; [|discriminate].
    destruct (map_result f l) as [ys'|e]; cbn [bind]; [|discriminate].
    intros [= <-]. constructor; [apply (Hf x y E)|apply IH; reflexivity].
Qed.

Lemma signature_default_inv pname st part st' :
  snd st = negb (is_Some_bool (fst st)) ->
  signature_default pname st part = Ok st' ->
  snd st' = negb (is_Some_bool (fst st')).
Proof.
  intros Hst. unfold signature_default.
  destruct (Py.has_char "=" (Py.strip part)); [|intros [= <-]; exact Hst].
  destruct (index (Py.split "=" (Py.strip part)) 0) as [before|e];
    cbn [bind]; [|discriminate].
  destruct (String.eqb (Py.strip before) pname); [|intros [= <-]; exact Hst].
  destruct (index (Py.split1 "=" (Py.strip part)) 1) as [after|e];
    cbn [bind]; [|discriminate].
  intros [= <-]. reflexivity.
Qed.

Lemma compact_param_line_inv raw params line params' :
  Forall compact_param params ->
  compact_param_line raw params line = Ok params' ->
  Forall compact_param params'.
Proof.
  intros Hps. unfold compact_param_line.
  destruct (Py.nonempty (Py.strip line)); cbn [negb]; [|intros [= <-]; exact Hps].
  destruct (Py.has_char ":" (Py.strip line)); [|intros [= <-]; exact Hps].
  destruct (unpack2 (Py.split1 ":" (Py.strip line))) as [[pname ptype]|e];
    cbn [bind]; [|discriminate].
  destruct (fold_result (signature_default (Py.strip pname))
              (Py.split "," raw) (None, true)) as [[default required]|e] eqn:E;
    cbn [bind]; [|discriminate].
  intros [= <-]. apply Forall_app_2; [exact Hps|]. constructor; [|constructor].
  split; [reflexivity|]. cbn.
  apply (fold_result_inv (signature_default (Py.strip pname))
           (fun st => snd st = negb (is_Some_bool (fst st)))
           (Py.split "," raw)) in E; [exact E| |reflexivity].
  intros s x s'. apply signature_default_inv.
Qed.

Lemma _parse_compact_params_inv lines raw params :
  _parse_compact_params lines raw = Ok params -> Forall compact_param params.
Proof.
  unfold _parse_compact_params.
  apply (fold_result_inv (compact_param_line raw) (Forall compact_param) lines).
  - intros s x s'. apply compact_param_line_inv.
  - constructor.
Qed.

Lemma signature_part_inv params part params' :
  Forall compact_param params ->
  signature_part params part = Ok params' ->
  Forall compact_param params'.
Proof.
  intros Hps. unfold signature_part.
  destruct (Py.nonempty (Py.strip part)); cbn [negb]; [|intros [= <-]; exact Hps].
  destruct (Py.has_char "=" (Py.strip part)).
  - destruct (unpack2 (Py.split1 "=" (Py.strip part))) as [[name default]|e];
      cbn [bind]; [|discriminate].
    intros [= <-]. apply Forall_app_2; [exact Hps|].
    constructor; [|constructor]. split; reflexivity.
  - intros [= <-]. apply Forall_app_2; [exact Hps|].
    constructor; [|constructor]. split; reflexivity.
Qed.

Lemma _params_from_signature_inv sig params :
  _params_from_signature sig = Ok params -> Forall compact_param params.
Proof.
  unfold _params_from_signature.
  apply (fold_result_inv signature_part (Forall compact_param) (Py.split "," sig)).
  - intros s x s'. apply signature_part_inv.
  - constructor.
Qed.

Lemma _apply_section_inv key lines raw st st' :
  Forall compact_param (st_params st) ->
  _apply_section key lines raw st = Ok st' ->
  Forall compact_param (st_params st').
Proof.
  intros Hps. unfold _apply_section. destruct st as [d ps r s]. cbn in Hps.
  destruct (String.eqb key "description"); [intros [= <-]; exact Hps|].
  destruct (String.eqb key "params").
  - destruct (_parse_compact_params lines raw) as [ps'|e] eqn:E;
      cbn [bind]; [|discriminate].
    intros [= <-]. cbn. apply (_parse_compact_params_inv _ _ _ E).
  - destruct (String.eqb key "output" || String.eqb key "returns");
      [intros [= <-]; exact Hps|].
    destruct (String.eqb key "sample_code"); intros [= <-]; exact Hps.
Qed.

Lemma block_line_inv raw bs line bs' :
  Forall compact_param (st_params (bs_tool bs)) ->
  block_line raw bs line = Ok bs' ->
  Forall compact_param (st_params (bs_tool bs')).
Proof.
  intros Hps. unfold block_line. destruct bs as [st key lines]. cbn in Hps.
  destruct (is_Some_bool (section_key_re line) && negb (Py.startswith "    " line));
    [|intros [= <-]; exact Hps].
  destruct (if Py.nonempty key then _apply_section key lines raw st else Ok st)
    as [st1|e] eqn:E; cbn [bind]; [|discriminate].
  destruct (index (Py.split ":" (Py.strip line)) 0) as [k|e]; cbn [bind]; [|discriminate].
  intros [= <-]. cbn.
  destruct (Py.nonempty key).
  - apply (_apply_section_inv _ _ _ _ _ Hps E).
  - injection E as <-. exact Hps.
Qed.

Lemma _parse_compact_tool_inv block tool :
  _parse_compact_tool block = Ok tool -> Forall compact_param (tool_params tool).
Proof.
  unfold _parse_compact_tool.
  destruct (Py.splitlines (Py.strip block)) as [|line0 lines]; [discriminate|].
  destruct (match _TOOL_HEADER_RE ("tool: " +:+ line0) with
            | Some (name, args) => Ok (name, args)
            | None => _
            end) as [[name raw]|e]; cbn [bind]; [|discriminate].
  destruct (fold_result (block_line raw) lines _) as [bs|e] eqn:Ebs;
    cbn [bind]; [|discriminate].
  apply (fold_result_inv (block_line raw)
           (fun bs => Forall compact_param (st_params (bs_tool bs))) lines) in Ebs.
  2:{ intros s x s'. apply block_line_inv. }
  2:{ constructor. }
  destruct (if Py.nonempty (bs_current_key bs) then _ else _) as [st|e] eqn:Est;
    cbn [bind]; [|discriminate].
  assert (Hst : Forall compact_param (st_params st)).
  { destruct (Py.nonempty (bs_current_key bs)).
    - apply (_apply_section_inv _ _ _ _ _ Ebs Est).
    - injection Est as <-. exact Ebs. }
  destruct (st_params st) as [|p ps] eqn:Eps.
  - destruct (Py.nonempty raw).
    + destruct (_params_from_signature raw) as [params|e] eqn:Esig;
        cbn [bind]; [|discriminate].
      intros [= <-]. cbn. apply (_params_from_signature_inv _ _ Esig).
    + cbn [bind]. intros [= <-]. constructor.
  - cbn [bind]. intros [= <-]. exact Hst.
Qed.

(** X11. In a manifest read from a text of the compact dialect, every param
    of every tool has an empty description and is optional exactly when it
    has a default. *)
Theorem compact_params_optional_iff_default (text : string) (m : Manifest) :
  has_tool_line (Py.strip text) = true ->
  parse text = Ok m ->
  Forall (fun tool => Forall compact_param (tool_params tool)) (manifest_tools m).
Proof.
  intros Htool. unfold parse. rewrite Htool.
  destruct (Py.nonempty (Py.strip text)); cbn [negb].
  - destruct (_parse_compact (Py.strip text)) as [m0|e] eqn:E; cbn [bind]; [|discriminate].
    intros [= <-]. cbn. revert E. unfold _parse_compact.
    destruct (preamble_loop _ _ _) as [name preamble_lines].
    destruct (map_result _parse_compact_tool _) as [tools|e] eqn:Et;
      cbn [bind]; [|discriminate].
    intros [= <-]. cbn.
    apply (map_result_inv _parse_compact_tool _ _ _parse_compact_tool_inv _ Et).
  - intros [= <-]. constructor.
Qed.

Definition compact_text : string :=
  "tool: search(query, limit = 10)" +:+ Py.nl
  +:+ "  params:" +:+ Py.nl
  +:+ "    query: string" +:+ Py.nl
  +:+ "    limit: number".

Lemma compact_params_optional_iff_default_witness :
  exists m,
    has_tool_line (Py.strip compact_text) = true
    /\ parse compact_text = Ok m
    /\ map (fun tool => map param_view (tool_params tool)) (manifest_tools m)
       = [[("query", "string", true, None); ("limit", "number", false, Some "10")]]
    /\ Forall (fun tool => Forall compact_param (tool_params tool)) (manifest_tools m).
Proof.
  eexists. split; [vm_compute; reflexivity|].
  split; [vm_compute; reflexivity|].
  split; [reflexivity|].
  eapply (compact_params_optional_iff_default compact_text);
    vm_compute; reflexivity.
Defined.

(** ** One tool for each heading line *)

(** The number of lines of [s] that start with [p]; [bol] tells whether [s]
    itself starts a line. *)
Fixpoint count_line_starts (p : string) (bol : bool) (s : string) : nat :=
  match s with
  | EmptyString => 0
  | String c s' =>
      (if bol && String.prefix p s then 1 else 0)
      + count_line_starts p (Py.is_nl c) s'
  end.

Lemma prefix_split p : forall s,
  String.prefix p s = true -> s = p +:+ Py.drop (String.length p) s.
Proof.
  induction p as [|c p IH]; intros s H; [reflexivity|].
  destruct s as [|d s]; [discriminate|].
  rewrite StrFacts.prefix_cons in H. apply andb_true_iff in H. destruct H as [Hc Hp].
  apply Ascii.eqb_eq in Hc. subst d. cbn [String.length Py.drop].
  change (String c p +:+ Py.drop (String.length p) s)
    with (String c (p +:+ Py.drop (String.length p) s)).
  f_equal. apply IH. exact Hp.
Qed.

Lemma count_inline p x : forall r,
  nl_free x = true ->
  count_line_starts p false (x +:+ r) = count_line_starts p false r.
Proof.
  induction x as [|c x IH]; intros r Hx; [reflexivity|].
  unfold nl_free in Hx. cbn [all_chars] in Hx. apply andb_true_iff in Hx.
  destruct Hx as [Hc Hx]. unfold Py.not_nl in Hc. apply negb_true_iff in Hc.
  change (String c x +:+ r) with (String c (x +:+ r)).
  cbn [count_line_starts andb]. rewrite Hc. apply IH. exact Hx.
Qed.

Lemma cons_head_length c pieces :
  pieces <> [] -> length (Py.cons_head c pieces) = length pieces.
Proof. destruct pieces; [congruence|reflexivity]. Qed.

Lemma length_drop_prefix p s :
  String.prefix p s = true ->
  String.length s = String.length p + String.length (Py.drop (String.length p) s).
Proof.
  intros H. rewrite (prefix_split p s H) at 1. apply StrFacts.length_app.
Qed.

(** [re.split] gives one piece more than there are lines that start with
    the separator. *)
Lemma split_count p (Hp : nl_free p = true) (Hne : p <> EmptyString) : forall n s bol,
  String.length s <= n ->
  length (Re.split_bol (line_prefix p) bol 0 s) = S (count_line_starts p bol s).
Proof.
  induction n as [|n IH]; intros s bol Hn.
  - destruct s; [reflexivity|]. cbn [String.length] in Hn. lia.
  - destruct s as [|c s]; [reflexivity|].
    cbn [String.length] in Hn.
    destruct (bol && String.prefix p (String c s)) eqn:E.
    + apply andb_true_iff in E. destruct E as [-> Hpre].
      pose proof (length_drop_prefix p _ Hpre) as Hlen.
      pose proof (prefix_split p _ Hpre) as Hs.
      set (r := Py.drop (String.length p) (String c s)) in *.
      rewrite Hs. rewrite split_match_prefix by assumption.
      cbn [length]. rewrite (IH r false).
      2:{ cbn [String.length] in Hlen. destruct p; [congruence|].
          cbn [String.length] in Hlen. lia. }
      f_equal. destruct p as [|d p']; [congruence|].
      change (String d p' +:+ r) with (String d (p' +:+ r)).
      cbn [count_line_starts andb].
      change (String d (p' +:+ r)) with (String d p' +:+ r).
      rewrite StrFacts.prefix_app.
      unfold nl_free in Hp. cbn [all_chars] in Hp. apply andb_true_iff in Hp.
      destruct Hp as [Hd Hp']. unfold Py.not_nl in Hd. apply negb_true_iff in Hd.
      rewrite Hd. rewrite count_inline by exact Hp'. reflexivity.
    + rewrite split_bol_step.
      assert (Hnone : (if bol then Re.match_len (line_prefix p) (String c s) else None)
                      = None).
      { destruct bol; [|reflexivity]. rewrite match_len_prefix.
        cbn [andb] in E. rewrite E. reflexivity. }
      rewrite Hnone. rewrite cons_head_length by apply split_bol_nonnil.
      rewrite (IH s (Py.is_nl c)) by lia.
      cbn [count_line_starts]. rewrite E. reflexivity.
Qed.

Lemma map_result_length {A B} (f : A -> result B) l : forall ys,
  map_result f l = Ok ys -> length ys = length l.
Proof.
  induction l as [|x l IH]; intros ys; cbn [map_result].
  - intros [= <-]. reflexivity.
  - destruct (f x) as [y|e]; cbn [bind]; [|discriminate].
    destruct (map_result f l) as [ys'|e]; cbn [bind]; [|discriminate].
    intros [= <-]. cbn [length]. f_equal. apply IH. reflexivity.
Qed.

Lemma _parse_heading_tools markdown :
  exists m,
    _parse_heading markdown = Ok m
    /\ length (manifest_tools m) = count_line_starts "## " true markdown.
Proof.
  unfold _parse_heading, Re.split_lines_at.
  pose proof (split_count "## " eq_refl ltac:(discriminate)
                (String.length markdown) markdown true (le_n _)) as Hlen.
  change (line_prefix "## ") with h2_prefix in Hlen.
  destruct (Re.split_bol h2_prefix true 0 markdown) as [|header sections];
    [discriminate|].
  cbn [length] in Hlen. injection Hlen as Hlen.
  cbn [index nth_error bind tl].
  destruct (_parse_manifest_header header) as [name description].
  destruct (map_result_ok _parse_heading_tool sections) as [tools Ht].
  { intros; apply _parse_heading_tool_ok. }
  rewrite Ht. cbn [bind]. eexists. split; [reflexivity|].
  cbn [manifest_tools]. rewrite (map_result_length _ _ _ Ht). exact Hlen.
Qed.

(** X12. In the heading dialect [parse] returns, and the manifest has
    exactly one tool for each line of the trimmed text that starts with the
    separator [## ]; other lines open no tool. *)
Theorem heading_tools_are_the_h2_lines (text : string) :
  has_tool_line (Py.strip text) = false ->
  exists m,
    parse text = Ok m
    /\ length (manifest_tools m) = count_line_starts "## " true (Py.strip text).
Proof.
  intros Htool. unfold parse. rewrite Htool.
  destruct (Py.nonempty (Py.strip text)) eqn:E; cbn [negb].
  - destruct (_parse_heading_tools (Py.strip text)) as (m & -> & Hlen).
    cbn [bind]. eexists. split; [reflexivity|]. exact Hlen.
  - apply nonempty_false_eq in E. rewrite E. eexists. split; reflexivity.
Qed.

Definition two_tools_text : string :=
  "# Shop" +:+ Py.nl +:+ "## search" +:+ Py.nl +:+ "Search." +:+ Py.nl
  +:+ " ## indented" +:+ Py.nl +:+ "## basket".

Lemma heading_tools_are_the_h2_lines_witness :
  has_tool_line (Py.strip two_tools_text) = false
  /\ count_line_starts "## " true (Py.strip two_tools_text) = 2
  /\ exists m,
       parse two_tools_text = Ok m
       /\ length (manifest_tools m)
          = count_line_starts "## " true (Py.strip two_tools_text).
Proof.
  split; [vm_compute; reflexivity|]. split; [vm_compute; reflexivity|].
  apply (heading_tools_are_the_h2_lines two_tools_text). vm_compute. reflexivity.
Defined.

(* ===================================================================== *)
(** * [discovery.py]: the link to the manifest, and [site.meta_tag] *)
(* ===================================================================== *)

(** A literal character under [re.IGNORECASE]: the character read has the
    same lower case. The letters of the two patterns have no other case
    variant among the code points 0..255. *)
Definition ci_eq (c d : ascii) : bool :=
  Ascii.eqb (Py.lower_char c) (Py.lower_char d).

Definition lit_ci {A} (c : ascii) (k : Re.matcher A) : Re.matcher A :=
  fun s =>
    match s with
    | String d s' => if ci_eq c d then k s' else None
    | EmptyString => None
    end.

Fixpoint lits_ci {A} (p : string) (k : Re.matcher A) : Re.matcher A :=
  match p with
  | EmptyString => k
  | String c p' => lit_ci c (lits_ci p' k)
  end.

Definition not_gt (c : ascii) : bool := negb (Ascii.eqb c ">").
Definition not_quote (c : ascii) : bool := negb (Py.is_quote c).

(** [_META_PATTERN]: a [meta] element whose [name] attribute comes before
    its [content] attribute. Group: the content. *)
Definition _META_PATTERN : Re.matcher string :=
  lits_ci "<meta" (Re.plus Py.is_space (fun _ =>
  Re.star not_gt (fun _ =>
  lits_ci "name=" (Re.one Py.is_quote (
  lits_ci "webagents-md" (Re.one Py.is_quote (
  Re.star not_gt (fun _ =>
  lits_ci "content=" (Re.one Py.is_quote (
  Re.plus not_quote (fun url =>
  Re.one Py.is_quote (fun _ => Some url)))))))))))).

(** [_META_PATTERN_REVERSED]: the [content] attribute comes first. *)
Definition _META_PATTERN_REVERSED : Re.matcher string :=
  lits_ci "<meta" (Re.plus Py.is_space (fun _ =>
  Re.star not_gt (fun _ =>
  lits_ci "content=" (Re.one Py.is_quote (
  Re.plus not_quote (fun url =>
  Re.one Py.is_quote (
  Re.star not_gt (fun _ =>
  lits_ci "name=" (Re.one Py.is_quote (
  lits_ci "webagents-md" (Re.one Py.is_quote (fun _ => Some url)))))))))))).

(** The match of [discover_manifest_url] in the text of the page: the
    first pattern, else the reversed one; the result is group 1. *)
Definition meta_match (html : string) : option string :=
  match Re.search _META_PATTERN html with
  | Some url => Some url
  | None => Re.search _META_PATTERN_REVERSED html
  end.

(** [site.meta_tag]. *)
Definition meta_tag (path : string) : string :=
  "<meta name=" +:+ String Py.dquote_char ("webagents-md"
    +:+ String Py.dquote_char (" content="
    +:+ String Py.dquote_char (path +:+ String Py.dquote_char ">"))).

(** ** Greedy repetitions that must give characters back *)

(** No later start: from no position of [s] after the first, reached
    through characters of the class, does [m] match. *)
Fixpoint no_later {A} (cls : ascii -> bool) (m : Re.matcher A) (s : string) : Prop :=
  match s with
  | EmptyString => True
  | String c s' => cls c = true -> m s' = None /\ no_later cls m s'
  end.

Lemma star_const_none {A} cls (m : Re.matcher A) s :
  m s = None -> no_later cls m s -> Re.star cls (fun _ => m) s = None.
Proof.
  induction s as [|c s IH]; intros Hm Hl; [exact Hm|].
  cbn [Re.star]. destruct (cls c) eqn:E; [|exact Hm].
  cbn [no_later] in Hl. destruct (Hl E) as [Hs Hl'].
  change (Re.star cls (fun w => (fun _ => m) (String c w)) s)
    with (Re.star cls (fun _ => m) s).
  rewrite (IH Hs Hl'). exact Hm.
Qed.

Lemma star_const_first {A} cls (m : Re.matcher A) s x :
  m s = Some x -> no_later cls m s -> Re.star cls (fun _ => m) s = Some x.
Proof.
  intros Hm Hl. destruct s as [|c s]; [exact Hm|].
  cbn [Re.star]. destruct (cls c) eqn:E; [|exact Hm].
  cbn [no_later] in Hl. destruct (Hl E) as [Hs Hl'].
  change (Re.star cls (fun w => (fun _ => m) (String c w)) s)
    with (Re.star cls (fun _ => m) s).
  rewrite (star_const_none cls m s Hs Hl'). exact Hm.
Qed.

Lemma star_const_shift {A} cls (m : Re.matcher A) w : forall r x,
  all_chars cls w = true -> m r = Some x -> no_later cls m r ->
  Re.star cls (fun _ => m) (w +:+ r) = Some x.
Proof.
  induction w as [|c w IH]; intros r x Hw Hm Hl.
  - apply star_const_first; assumption.
  - cbn [all_chars] in Hw. apply andb_true_iff in Hw. destruct Hw as [Hc Hw].
    change (String c w +:+ r) with (String c (w +:+ r)).
    cbn [Re.star]. rewrite Hc.
    change (Re.star cls (fun v => (fun _ => m) (String c v)) (w +:+ r))
      with (Re.star cls (fun _ => m) (w +:+ r)).
    rewrite (IH r x Hw Hm Hl). reflexivity.
Qed.

(** [P] holds of every proper tail of [s]. *)
Fixpoint all_tails (P : string -> Prop) (s : string) : Prop :=
  match s with
  | EmptyString => True
  | String _ s' => P s' /\ all_tails P s'
  end.

Lemma no_later_app {A} cls (m : Re.matcher A) x tail :
  all_tails (fun b => m (b +:+ tail) = None) x ->
  no_later cls m tail ->
  no_later cls m (x +:+ tail).
Proof.
  induction x as [|c x IH]; intros Hx Ht; [exact Ht|].
  change (String c x +:+ tail) with (String c (x +:+ tail)).
  cbn [no_later all_tails] in *. intros _. destruct Hx as [H1 H2].
  split; [exact H1|]. apply IH; assumption.
Qed.

(** ** An attribute name in front of a quote *)

(** [l] and [p] have the same length and the same letters up to case. *)
Fixpoint ci_match (l p : string) : bool :=
  match l, p with
  | EmptyString, EmptyString => true
  | String a l', String c p' => ci_eq a c && ci_match l' p'
  | _, _ => false
  end.

(** [s] ends with [l] up to case. *)
Fixpoint ends_ci (l s : string) : bool :=
  ci_match l s
  || match s with
     | EmptyString => false
     | String _ s' => ends_ci l s'
     end.

Definition quote_free_ci (l : string) : bool :=
  all_chars (fun a => negb (ci_eq a Py.dquote_char) && negb (ci_eq a Py.squote_char)) l.

Lemma is_quote_cases q :
  Py.is_quote q = true -> q = Py.squote_char \/ q = Py.dquote_char.
Proof.
  unfold Py.is_quote. intros H. apply orb_true_iff in H.
  destruct H as [H|H]; apply Ascii.eqb_eq in H; subst; auto.
Qed.

Lemma lits_ci_same {A} l (k : Re.matcher A) r : lits_ci l k (l +:+ r) = k r.
Proof.
  induction l as [|c l IH]; [reflexivity|].
  change (String c l +:+ r) with (String c (l +:+ r)).
  cbn [lits_ci lit_ci]. unfold ci_eq. rewrite Ascii.eqb_refl. exact IH.
Qed.

(** With a text [p] without quote in front of a quote, the attribute name
    and the quote behind it match only if the name is the whole of [p]. *)
Lemma lits_ci_aligned {A} l (K : Re.matcher A) : forall p q r,
  quote_free_ci l = true -> all_chars not_quote p = true ->
  Py.is_quote q = true ->
  lits_ci l (Re.one Py.is_quote K) (p +:+ String q r)
  = if ci_match l p then K r else None.
Proof.
  induction l as [|a l IH]; intros p q r Hl Hp Hq.
  - destruct p as [|c p].
    + cbn. rewrite Hq. reflexivity.
    + cbn [all_chars] in Hp. apply andb_true_iff in Hp. destruct Hp as [Hc _].
      unfold not_quote in Hc. apply negb_true_iff in Hc.
      change (String c p +:+ String q r) with (String c (p +:+ String q r)).
      cbn. rewrite Hc. reflexivity.
  - unfold quote_free_ci in Hl. cbn [all_chars] in Hl.
    apply andb_true_iff in Hl. destruct Hl as [Ha Hl].
    apply andb_true_iff in Ha. destruct Ha as [Ha1 Ha2].
    apply negb_true_iff in Ha1. apply negb_true_iff in Ha2.
    destruct p as [|c p].
    + change (EmptyString +:+ String q r) with (String q r).
      cbn [lits_ci lit_ci ci_match].
      destruct (is_quote_cases q Hq) as [-> | ->]; [rewrite Ha2|rewrite Ha1]; reflexivity.
    + cbn [all_chars] in Hp. apply andb_true_iff in Hp. destruct Hp as [_ Hp].
      change (String c p +:+ String q r) with (String c (p +:+ String q r)).
      cbn [lits_ci lit_ci ci_match]. destruct (ci_eq a c); [|reflexivity].
      cbn [andb]. apply IH; assumption.
Qed.

Lemma all_chars_tail cls c s : all_chars cls (String c s) = true -> all_chars cls s = true.
Proof. cbn [all_chars]. intros H. apply andb_true_iff in H. apply H. Qed.

(** Behind the value of an attribute no attribute name followed by a quote
    starts, unless the value ends with that name. *)
Lemma no_later_value {A} l (K : Re.matcher A) path q r :
  quote_free_ci l = true -> all_chars not_quote path = true ->
  Py.is_quote q = true ->
  (ends_ci l path = false \/ K r = None) ->
  lits_ci l (Re.one Py.is_quote K) r = None ->
  no_later not_gt (lits_ci l (Re.one Py.is_quote K)) r ->
  lits_ci l (Re.one Py.is_quote K) (path +:+ String q r) = None
  /\ no_later not_gt (lits_ci l (Re.one Py.is_quote K)) (path +:+ String q r).
Proof.
  intros Hl Hp Hq Hend Hr Hlr.
  assert (Hat : forall b, all_chars not_quote b = true ->
            (ends_ci l b = false \/ K r = None) ->
            lits_ci l (Re.one Py.is_quote K) (b +:+ String q r) = None).
  { intros b Hb Hb'. rewrite lits_ci_aligned by assumption.
    destruct (ci_match l b) eqn:E; [|reflexivity].
    destruct Hb' as [Hb'|Hb']; [|exact Hb'].
    destruct b; cbn [ends_ci] in Hb'; rewrite E in Hb'; discriminate. }
  split; [apply Hat; assumption|].
  apply no_later_app.
  - revert Hp Hend. induction path as [|c path IH]; intros Hp Hend; [exact I|].
    cbn [all_tails].
    assert (Hp' := all_chars_tail _ _ _ Hp).
    assert (Hend' : ends_ci l path = false \/ K r = None).
    { destruct Hend as [Hend|Hend]; [left|right; exact Hend].
      cbn [ends_ci] in Hend. apply orb_false_iff in Hend. apply Hend. }
    split; [apply Hat; assumption|]. apply IH; assumption.
  - cbn [no_later]. intros _. split; assumption.
Qed.

(** ** The tag written by [meta_tag] is the one the pattern finds *)

Lemma one_ok {A} cls c (k : Re.matcher A) s :
  cls c = true -> Re.one cls k (String c s) = k s.
Proof. intros H. unfold Re.one. rewrite H. reflexivity. Qed.

(** The two attributes of the pattern, as it reads them. *)
Definition content_attr : Re.matcher string :=
  lits_ci "content=" (Re.one Py.is_quote (
  Re.plus not_quote (fun url =>
  Re.one Py.is_quote (fun _ => Some url)))).

Definition name_attr : Re.matcher string :=
  lits_ci "name=" (Re.one Py.is_quote (
  lits_ci "webagents-md" (Re.one Py.is_quote (
  Re.star not_gt (fun _ => content_attr))))).

(** The value of the [content] attribute, its closing quote and the rest
    of the page. *)
Definition value_text (path post : string) : string :=
  path +:+ String Py.dquote_char (String ">" post).

Lemma meta_tag_app path post :
  meta_tag path +:+ post
  = "<meta" +:+ (" " +:+ ("name=" +:+ String Py.dquote_char ("webagents-md"
      +:+ String Py.dquote_char (" " +:+ ("content="
      +:+ String Py.dquote_char (value_text path post)))))).
Proof.
  unfold meta_tag, value_text. cbn [String.append].
  rewrite StrFacts.app_assoc. reflexivity.
Qed.

Lemma content_attr_value path post :
  path <> EmptyString -> all_chars not_quote path = true ->
  content_attr ("content=" +:+ String Py.dquote_char (value_text path post))
  = Some path.
Proof.
  intros Hne Hp. unfold content_attr. rewrite lits_ci_same.
  rewrite one_ok by reflexivity. unfold value_text.
  destruct path as [|c w]; [congruence|].
  apply plus_greedy; [exact Hp|reflexivity|].
  cbv beta. rewrite one_ok by reflexivity. reflexivity.
Qed.

Lemma no_later_gt {A} (m : Re.matcher A) post : no_later not_gt m (String ">" post).
Proof. cbn [no_later]. intros H. discriminate. Qed.

Lemma content_attr_no_later path post :
  all_chars not_quote path = true -> ends_ci "content=" path = false ->
  no_later not_gt content_attr
    ("content=" +:+ String Py.dquote_char (value_text path post)).
Proof.
  intros Hp Hend. cbn [String.append no_later].
  repeat (intros _; split; [reflexivity|]).
  intros _. unfold value_text, content_attr.
  apply no_later_value; try reflexivity; try assumption.
  - left. exact Hend.
  - apply no_later_gt.
Qed.

Lemma name_attr_tag path post :
  path <> EmptyString -> all_chars not_quote path = true ->
  ends_ci "content=" path = false ->
  name_attr ("name=" +:+ String Py.dquote_char ("webagents-md"
      +:+ String Py.dquote_char (" " +:+ ("content="
      +:+ String Py.dquote_char (value_text path post)))))
  = Some path.
Proof.
  intros Hne Hp Hend. unfold name_attr. rewrite lits_ci_same.
  rewrite one_ok by reflexivity. rewrite lits_ci_same.
  rewrite one_ok by reflexivity.
  apply star_const_shift; [reflexivity| |].
  - apply content_attr_value; assumption.
  - apply content_attr_no_later; assumption.
Qed.

Lemma name_attr_no_later path post :
  all_chars not_quote path = true ->
  no_later not_gt name_attr
    ("name=" +:+ String Py.dquote_char ("webagents-md"
      +:+ String Py.dquote_char (" " +:+ ("content="
      +:+ String Py.dquote_char (value_text path post))))).
Proof.
  intros Hp. cbn [String.append no_later].
  repeat (intros _; split; [reflexivity|]).
  intros _. unfold value_text, name_attr.
  apply no_later_value; try reflexivity; try assumption.
  - right. reflexivity.
  - apply no_later_gt.
Qed.

(** At the start of the tag written by [meta_tag] the pattern matches, and
    its group is the path. *)
Lemma _META_PATTERN_meta_tag path post :
  path <> EmptyString -> all_chars not_quote path = true ->
  ends_ci "content=" path = false ->
  _META_PATTERN (meta_tag path +:+ post) = Some path.
Proof.
  intros Hne Hp Hend. rewrite meta_tag_app.
  change _META_PATTERN
    with (lits_ci "<meta" (Re.plus Py.is_space (fun _ =>
            Re.star not_gt (fun _ => name_attr)))).
  rewrite lits_ci_same.
  apply (plus_greedy Py.is_space " " EmptyString); [reflexivity|reflexivity|].
  apply star_const_first.
  - apply name_attr_tag; assumption.
  - apply name_attr_no_later; assumption.
Qed.

(** ** Searching *)

(** The pattern matches at no position of [pre], read with [tail] behind. *)
Fixpoint no_match_before {A} (m : Re.matcher A) (pre tail : string) : bool :=
  match pre with
  | EmptyString => true
  | String _ pre' =>
      negb (is_Some_bool (m (pre +:+ tail))) && no_match_before m pre' tail
  end.

Lemma search_skip {A} (m : Re.matcher A) pre tail :
  no_match_before m pre tail = true ->
  Re.search m (pre +:+ tail) = Re.search m tail.
Proof.
  induction pre as [|c pre IH]; intros H; [reflexivity|].
  cbn [no_match_before] in H. apply andb_true_iff in H. destruct H as [H1 H2].
  apply negb_true_iff in H1.
  change (String c pre +:+ tail) with (String c (pre +:+ tail)) in *.
  cbn [Re.search]. destruct (m (String c (pre +:+ tail))); [discriminate|].
  apply IH. exact H2.
Qed.

Lemma search_here {A} (m : Re.matcher A) s x : m s = Some x -> Re.search m s = Some x.
Proof. intros H. destruct s; cbn [Re.search]; rewrite H; reflexivity. Qed.

(** In a page that holds the tag written for a path, the match of
    [discover_manifest_url] has the path as its group. *)
Lemma meta_match_tag (pre path post : string) :
  path <> EmptyString -> all_chars not_quote path = true ->
  ends_ci "content=" path = false ->
  no_match_before _META_PATTERN pre (meta_tag path +:+ post) = true ->
  meta_match (pre +:+ meta_tag path +:+ post) = Some path.
Proof.
  intros Hne Hp Hend Hpre. unfold meta_match.
  rewrite (search_skip _ _ _ Hpre).
  rewrite (search_here _ _ path); [reflexivity|].
  apply _META_PATTERN_meta_tag; assumption.
Qed.

(** X13. The tag [meta_tag] writes is the link the discovery finds: in a
    page that holds the tag written for a path (not empty, without quote
    character, not ending with [content=]) and in which the pattern
    matches nowhere before the tag, the match of [discover_manifest_url]
    has the path as its group, whatever follows the tag. *)
Theorem meta_tag_is_discovered (pre path post : string) :
  path <> EmptyString -> all_chars not_quote path = true ->
  ends_ci "content=" path = false ->
  no_match_before _META_PATTERN pre (meta_tag path +:+ post) = true ->
  meta_match (pre +:+ meta_tag path +:+ post) = Some path.
Proof. exact (meta_match_tag pre path post). Qed.

Definition page_head : string :=
  "<html><head><meta charset=" +:+ String Py.dquote_char ("utf-8"
    +:+ String Py.dquote_char ">").

Lemma meta_tag_is_discovered_witness :
  meta_match (page_head +:+ meta_tag "/webagents.md" +:+ "</head></html>")
  = Some "/webagents.md".
Proof.
  apply (meta_tag_is_discovered page_head "/webagents.md" "</head></html>").
  - discriminate.
  - reflexivity.
  - reflexivity.
  - vm_compute. reflexivity.
Defined.

(* ===================================================================== *)
(** * [client.py]: what the client gives the language model, and the
      discovery it runs *)
(* ===================================================================== *)

(** [AgentClient.context_for_llm]. *)
Definition context_for_llm (self : AgentClient) : result string :=
  match _manifest self with
  | None => Raise no_manifest_loaded
  | Some manifest =>
      let ts := generate_typescript manifest in
      let md := manifest_content manifest in
      if Py.nonempty md
      then Ok (ts +:+ Py.nl +:+ "/*" +:+ Py.nl +:+ md +:+ Py.nl +:+ "*/" +:+ Py.nl)
      else Ok ts
  end.

Lemma parse_content text m : parse text = Ok m -> manifest_content m = Py.strip text.
Proof.
  unfold parse. destruct (Py.nonempty (Py.strip text)) eqn:E; cbn [negb].
  - destruct (if has_tool_line (Py.strip text) then _ else _) as [m0|e];
      cbn [bind]; [|discriminate].
    intros [= <-]. reflexivity.
  - intros [= <-]. destruct (Py.strip text); [reflexivity|discriminate].
Qed.

(** X14. The context for the language model after a manifest text was
    parsed and loaded: the declarations of the tools, followed by the whole
    trimmed text inside a comment; for a blank text the declarations
    alone. *)
Theorem context_holds_the_manifest_text (self : AgentClient) (text : string)
    (m : Manifest) :
  parse text = Ok m ->
  context_for_llm (load_manifest self m)
  = Ok (if Py.nonempty (Py.strip text)
        then generate_typescript m +:+ Py.nl +:+ "/*" +:+ Py.nl
             +:+ Py.strip text +:+ Py.nl +:+ "*/" +:+ Py.nl
        else generate_typescript m).
Proof.
  intros H. unfold context_for_llm, load_manifest. cbn [_manifest].
  rewrite (parse_content text m H).
  destruct (Py.nonempty (Py.strip text)); reflexivity.
Qed.

Lemma context_holds_the_manifest_text_witness :
  exists m,
    parse (" ## search" +:+ Py.nl) = Ok m
    /\ context_for_llm (load_manifest new_client m)
       = Ok (generate_typescript m +:+ Py.nl +:+ "/*" +:+ Py.nl
             +:+ "## search" +:+ Py.nl +:+ "*/" +:+ Py.nl).
Proof.
  eexists. split; [vm_compute; reflexivity|].
  apply (context_holds_the_manifest_text new_client (" ## search" +:+ Py.nl)).
  vm_compute. reflexivity.
Defined.

(** The discovery, over the network as one call sees it. *)
Section Network.

(** [urllib.parse.urljoin]. *)
Variable urljoin : string -> string -> string.

(** A GET request with its status check: the text of the response, or the
    exception the request or [raise_for_status] raises. *)
Variable http_get : string -> result string.

(** [discover_manifest_url]. *)
Definition discover_manifest_url (page_url : string) : result (option string) :=
  let* html := http_get page_url in
  match meta_match html with
  | None => Ok None
  | Some relative_url => Ok (Some (urljoin page_url relative_url))
  end.

(** [fetch_manifest]. *)
Definition fetch_manifest (manifest_url : string) : result Manifest :=
  let* text := http_get manifest_url in
  parse text.

(** [discover]. *)
Definition discover (page_url : string) : result (option Manifest) :=
  let* url := discover_manifest_url page_url in
  match url with
  | None => Ok None
  | Some url =>
      let* manifest := fetch_manifest url in
      Ok (Some manifest)
  end.

(** [AgentClient.detect]: the client after the call and what the call
    returns or raises; the assignment is not reached when [discover]
    raises. *)
Definition detect (self : AgentClient) (page_url : string)
    : AgentClient * result (option Manifest) :=
  match discover page_url with
  | Ok manifest => (mkAgentClient manifest, Ok manifest)
  | Raise e => (self, Raise e)
  end.

(** [AgentClient.load]. *)
Definition load (self : AgentClient) (manifest_url : string)
    : AgentClient * result Manifest :=
  match fetch_manifest manifest_url with
  | Ok manifest => (mkAgentClient (Some manifest), Ok manifest)
  | Raise e => (self, Raise e)
  end.

(** X15. From the tag to the tools: when the page holds the tag written by
    [meta_tag] for a path (as in X13) and the URL joined from the page URL
    and the path serves a text that [parse] reads as [m], [detect] returns
    [m], the client holds it, and [list_tools] gives the names of its
    tools. *)
Theorem detect_finds_the_served_manifest (self : AgentClient)
    (page_url pre path post text : string) (m : Manifest) :
  path <> EmptyString -> all_chars not_quote path = true ->
  ends_ci "content=" path = false ->
  no_match_before _META_PATTERN pre (meta_tag path +:+ post) = true ->
  http_get page_url = Ok (pre +:+ meta_tag path +:+ post) ->
  http_get (urljoin page_url path) = Ok text ->
  parse text = Ok m ->
  detect self page_url = (load_manifest self m, Ok (Some m))
  /\ list_tools (fst (detect self page_url)) = Ok (tool_names m).
Proof.
  intros Hne Hp Hend Hpre Hpage Hfile Hparse.
  assert (Hd : detect self page_url = (load_manifest self m, Ok (Some m))).
  { unfold detect, discover, discover_manifest_url, fetch_manifest.
    rewrite Hpage. cbn [bind].
    rewrite (meta_match_tag pre path post Hne Hp Hend Hpre). cbn [bind].
    rewrite Hfile. cbn [bind]. rewrite Hparse. reflexivity. }
  split; [exact Hd|]. rewrite Hd. reflexivity.
Qed.

(** X16. A page without the tag unloads the client: when the request
    succeeds and neither pattern matches the page, [detect] returns [None]
    and the client holds no manifest afterwards, whatever it held before,
    so that [get_tool] and [context_for_llm] raise the no-manifest error. *)
Theorem detect_without_tag_unloads (self : AgentClient)
    (page_url html name : string) :
  http_get page_url = Ok html -> meta_match html = None ->
  detect self page_url = (new_client, Ok None)
  /\ get_tool (fst (detect self page_url)) name = Raise no_manifest_loaded
  /\ context_for_llm (fst (detect self page_url)) = Raise no_manifest_loaded.
Proof.
  intros Hpage Hm.
  assert (Hd : detect self page_url = (new_client, Ok None)).
  { unfold detect, discover, discover_manifest_url.
    rewrite Hpage. cbn [bind]. rewrite Hm. reflexivity. }
  rewrite Hd. repeat split.
Qed.

End Network.

(** A site with one page and its manifest. *)
Definition shop_page : string := page_head +:+ meta_tag "/webagents.md" +:+ "</head>".

Definition shop_get (url : string) : result string :=
  if String.eqb url "https://shop.example/" then Ok shop_page
  else if String.eqb url "https://shop.example/webagents.md"
  then Ok ("# Shop" +:+ Py.nl +:+ "## search" +:+ Py.nl +:+ "Search.")
  else Raise (HTTPStatusError 404).

Definition shop_join (base relative : string) : string :=
  "https://shop.example" +:+ relative.

Lemma detect_finds_the_served_manifest_witness :
  exists m,
    (detect shop_join shop_get new_client "https://shop.example/"
     = (load_manifest new_client m, Ok (Some m))
     /\ list_tools (fst (detect shop_join shop_get new_client "https://shop.example/"))
        = Ok (tool_names m))
    /\ tool_names m = ["search"].
Proof.
  eexists. split.
  - apply (detect_finds_the_served_manifest shop_join shop_get new_client
             "https://shop.example/" page_head "/webagents.md" "</head>"
             ("# Shop" +:+ Py.nl +:+ "## search" +:+ Py.nl +:+ "Search.")).
    + discriminate.
    + reflexivity.
    + reflexivity.
    + vm_compute. reflexivity.
    + reflexivity.
    + reflexivity.
    + vm_compute. reflexivity.
  - reflexivity.
Defined.

Lemma detect_without_tag_unloads_witness :
  detect shop_join shop_get (load_manifest new_client test_manifest)
    "https://shop.example/webagents.md"
  = (new_client, Ok None)
  /\ get_tool (fst (detect shop_join shop_get (load_manifest new_client test_manifest)
                      "https://shop.example/webagents.md")) "search"
     = Raise no_manifest_loaded
  /\ context_for_llm
       (fst (detect shop_join shop_get (load_manifest new_client test_manifest)
               "https://shop.example/webagents.md"))
     = Raise no_manifest_loaded.
Proof.
  apply (detect_without_tag_unloads shop_join shop_get
           (load_manifest new_client test_manifest)
           "https://shop.example/webagents.md"
           ("# Shop" +:+ Py.nl +:+ "## search" +:+ Py.nl +:+ "Search.") "search").
  - reflexivity.
  - vm_compute. reflexivity.
Defined.

(* ===================================================================== *)
(** * The manifests [validate] accepts *)
(* ===================================================================== *)

(** A tool that draws no warning of its own: it has a name, a description,
    and params or a sample code. *)
Definition tool_ok (tool : Tool) : bool :=
  Py.nonempty (tool_name tool) && Py.nonempty (tool_description tool)
  && negb (params_empty tool && negb (Py.nonempty (tool_sample_code tool))).

(** One turn of the loop appends warnings; it appends none exactly for a
    sound tool whose name was not seen, and then the name is seen. *)
Lemma validate_tool_extra vs tool :
  exists extra,
    vs_warnings (validate_tool vs tool) = vs_warnings vs ++ extra
    /\ (extra = [] <-> tool_ok tool = true /\ tool_name tool ∉ vs_seen_names vs)
    /\ (extra = [] ->
        vs_seen_names (validate_tool vs tool)
        = {[tool_name tool]} ∪ vs_seen_names vs).
Proof.
  unfold validate_tool, tool_ok.
  destruct (Py.nonempty (tool_name tool)) eqn:En,
    (bool_decide (tool_name tool ∈ vs_seen_names vs)) eqn:Es,
    (Py.nonempty (tool_description tool)) eqn:Ed,
    (params_empty tool && negb (Py.nonempty (tool_sample_code tool))) eqn:Ep;
    cbn [negb andb warn see vs_warnings vs_seen_names];
    first
      [ exists []; split; [symmetry; apply app_nil_r|]
      | eexists; split; [rewrite <- ?app_assoc; reflexivity|] ].
  all: try (apply bool_decide_eq_true in Es).
  all: try (apply bool_decide_eq_false in Es).
  all: split;
         [split;
            [intros H; first [discriminate H|split; [reflexivity|exact Es]]
            |intros [H1 H2]; first [reflexivity|discriminate H1|contradiction]]
         |intros H; first [discriminate H|reflexivity]].
Qed.

(** The names of the tools are new, distinct, and the tools are sound. *)
Definition tools_accepted (seen : gset string) (tools : list Tool) : Prop :=
  Forall (fun tool => tool_ok tool = true) tools
  /\ NoDup (map tool_name tools)
  /\ Forall (fun tool => tool_name tool ∉ seen) tools.

Lemma tools_accepted_cons seen tool tools :
  tools_accepted seen (tool :: tools)
  <-> (tool_ok tool = true /\ tool_name tool ∉ seen)
      /\ tools_accepted ({[tool_name tool]} ∪ seen) tools.
Proof.
  unfold tools_accepted. cbn [map].
  rewrite !Forall_cons, NoDup_cons. rewrite list_elem_of_fmap.
  split.
  - intros ((Hok & Hoks) & (Hnew & Hnd) & (Hs & Hss)).
    repeat split; try assumption.
    apply Forall_forall. intros t Ht. rewrite Forall_forall in Hss.
    specialize (Hss t Ht). intros Hin. apply elem_of_union in Hin.
    destruct Hin as [Hin|Hin]; [|contradiction].
    apply elem_of_singleton in Hin. apply Hnew. exists t. split; [symmetry|]; assumption.
  - intros ((Hok & Hs) & (Hoks & Hnd & Hss)).
    rewrite Forall_forall in Hss.
    repeat split; try assumption.
    + intros (t & Hname & Ht). apply (Hss t Ht). apply elem_of_union. left.
      apply elem_of_singleton. symmetry. exact Hname.
    + apply Forall_forall. intros t Ht Hin. apply (Hss t Ht).
      apply elem_of_union. right. exact Hin.
Qed.

Lemma validate_loop_extra tools : forall vs,
  exists extra,
    vs_warnings (fold_left validate_tool tools vs) = vs_warnings vs ++ extra
    /\ (extra = [] <-> tools_accepted (vs_seen_names vs) tools).
Proof.
  induction tools as [|tool tools IH]; intros vs.
  - exists []. split; [symmetry; apply app_nil_r|].
    split; [intros _|reflexivity].
    repeat split; constructor.
  - cbn [fold_left].
    destruct (validate_tool_extra vs tool) as (e1 & Hw1 & He1 & Hseen).
    destruct (IH (validate_tool vs tool)) as (e2 & Hw2 & He2).
    exists (e1 ++ e2). split; [rewrite Hw2, Hw1, app_assoc; reflexivity|].
    rewrite tools_accepted_cons. split.
    + intros H. apply app_eq_nil in H. destruct H as [H1 H2].
      split; [apply He1; exact H1|].
      rewrite <- (Hseen H1). apply He2. exact H2.
    + intros [H1 H2]. apply He1 in H1.
      rewrite <- (Hseen H1) in H2. apply He2 in H2. subst. reflexivity.
Qed.

(** X17. [validate] returns no warning exactly for the manifests with a
    name and at least one tool, whose tools all have a name, a description
    and params or a sample code, and no two of which have the same name. *)
Theorem validate_accepts_iff (manifest : Manifest) :
  validate manifest = []
  <-> Py.nonempty (manifest_name manifest) = true
      /\ manifest_tools manifest <> []
      /\ Forall (fun tool => tool_ok tool = true) (manifest_tools manifest)
      /\ NoDup (map tool_name (manifest_tools manifest)).
Proof.
  unfold validate, validate_run.
  set (vs0 := match manifest_tools manifest with
              | [] => _
              | _ :: _ => _
              end).
  destruct (validate_loop_extra (manifest_tools manifest) vs0) as (extra & -> & He).
  assert (Hseen : vs_seen_names vs0 = ∅).
  { subst vs0. destruct (manifest_tools manifest), (Py.nonempty (manifest_name manifest));
      reflexivity. }
  rewrite Hseen in He.
  assert (Hw0 : vs_warnings vs0 = []
                <-> Py.nonempty (manifest_name manifest) = true
                    /\ manifest_tools manifest <> []).
  { subst vs0. destruct (manifest_tools manifest), (Py.nonempty (manifest_name manifest));
      cbn; split; try discriminate; try (intros [? ?]; congruence);
      intros _; split; [reflexivity|discriminate]. }
  split.
  - intros H. apply app_eq_nil in H. destruct H as [H0 H1].
    apply Hw0 in H0. apply He in H1. destruct H0 as [Hn Ht].
    destruct H1 as (Hok & Hnd & _). auto.
  - intros (Hn & Ht & Hok & Hnd).
    assert (H0 : vs_warnings vs0 = []) by (apply Hw0; auto).
    assert (H1 : extra = []).
    { apply He. repeat split; try assumption.
      apply Forall_forall. intros t _. apply not_elem_of_empty. }
    rewrite H0, H1. reflexivity.
Qed.

(* ===================================================================== *)
(** * The header of the compact dialect *)
(* ===================================================================== *)

(** The lines in front of the first tool header: the lines up to the first
    line that the whole pattern [_TOOL_HEADER_RE] matches. *)
Fixpoint preamble (lines : list string) : list string :=
  match lines with
  | [] => []
  | line :: lines' =>
      if is_title line then line :: preamble lines'
      else if is_Some_bool (_TOOL_HEADER_RE line) then []
      else line :: preamble lines'
  end.

Definition titles (lines : list string) : list string :=
  filter (fun l => is_title l = true) lines.
Definition plain_lines (lines : list string) : list string :=
  filter (fun l => is_title l = false) lines.

Lemma preamble_loop_spec lines : forall name preamble_lines,
  preamble_loop lines name preamble_lines
  = (match last (titles (preamble lines)) with
     | Some line => Py.strip (Py.removeprefix "# " line)
     | None => name
     end,
     preamble_lines ++ plain_lines (preamble lines)).
Proof.
  unfold titles, plain_lines.
  induction lines as [|line lines IH]; intros name preamble_lines.
  - cbn. rewrite app_nil_r. reflexivity.
  - cbn [preamble_loop preamble].
    change (is_title line) with (Py.startswith "# " line).
    destruct (Py.startswith "# " line) eqn:Et.
    + rewrite IH.
      rewrite filter_cons_True by exact Et.
      rewrite filter_cons_False by (unfold is_title; rewrite Et; discriminate).
      rewrite last_cons. destruct (last _); reflexivity.
    + destruct (is_Some_bool (_TOOL_HEADER_RE line)).
      * cbn. rewrite app_nil_r. reflexivity.
      * rewrite IH.
        rewrite filter_cons_False by (unfold is_title; rewrite Et; discriminate).
        rewrite filter_cons_True by (unfold is_title; exact Et).
        rewrite <- app_assoc. reflexivity.
Qed.

(** X18. The header of a compact text: the name is read from the last line
    starting with [# ] in front of the first tool header (the empty name
    when there is none), and the description is made of all the other
    lines in front of that header, title or not before them; a line that
    starts a tool block without matching the whole header pattern does
    not end the header. *)
Theorem compact_header_is_the_preamble (text : string) (m : Manifest) :
  has_tool_line (Py.strip text) = true ->
  parse text = Ok m ->
  manifest_name m
  = match last (titles (preamble (Py.splitlines (Py.strip text)))) with
    | Some line => Py.strip (Py.removeprefix "# " line)
    | None => EmptyString
    end
  /\ manifest_description m
     = Py.strip (Py.join Py.nl
         (plain_lines (preamble (Py.splitlines (Py.strip text))))).
Proof.
  intros Htool. unfold parse. rewrite Htool.
  destruct (Py.nonempty (Py.strip text)) eqn:E; cbn [negb].
  - unfold _parse_compact. rewrite preamble_loop_spec.
    destruct (map_result _parse_compact_tool _) as [tools|e]; cbn [bind]; [|discriminate].
    intros [= <-]. cbn. split; reflexivity.
  - apply nonempty_false_eq in E. rewrite E. intros [= <-]. split; reflexivity.
Qed.

Definition loose_header_text : string :=
  "About the shop." +:+ Py.nl +:+ "tool: see below" +:+ Py.nl
  +:+ "# Shop" +:+ Py.nl +:+ "tool: search(query)" +:+ Py.nl +:+ "# Later".

Lemma compact_header_is_the_preamble_witness :
  exists m,
    has_tool_line (Py.strip loose_header_text) = true
    /\ parse loose_header_text = Ok m
    /\ preamble (Py.splitlines (Py.strip loose_header_text))
       = ["About the shop."; "tool: see below"; "# Shop"]
    /\ manifest_name m = "Shop"
    /\ manifest_description m = "About the shop." +:+ Py.nl +:+ "tool: see below".
Proof.
  eexists. split; [vm_compute; reflexivity|].
  split; [vm_compute; reflexivity|].
  split; [vm_compute; reflexivity|].
  destruct (compact_header_is_the_preamble loose_header_text _
              ltac:(vm_compute; reflexivity) ltac:(vm_compute; reflexivity))
    as [Hn Hd].
  rewrite Hn, Hd. split; vm_compute; reflexivity.
Defined.

(* ===================================================================== *)
(** * The sub-sections of a heading tool *)
(* ===================================================================== *)

(** The key of a sub-section, as the dict has it: its first line, trimmed
    and in lower case; and its text: what follows the first line feed. *)
Definition section_title (s : string) : string :=
  Py.lower (Py.strip (hd EmptyString (Py.split1 Py.nl_char s))).

Definition section_text (s : string) : string :=
  if Py.has_char Py.nl_char s
  then nth 1 (Py.split1 Py.nl_char s) EmptyString
  else EmptyString.

(** The text of the last sub-section with a given key. *)
Definition last_section (key : string) (sub_parts : list string) : option string :=
  section_text <$> last (filter (fun s => section_title s = key) sub_parts).

Lemma add_sub_section_insert d s :
  add_sub_section d s = Ok (<[section_title s := section_text s]> d).
Proof.
  unfold add_sub_section, section_title, section_text.
  pose proof (split1_shape Py.nl_char s) as H.
  destruct (Py.has_char Py.nl_char s).
  - destruct H as (a & b & ->). reflexivity.
  - rewrite H. reflexivity.
Qed.

(** After the dict is built, a key gives the text of the last sub-section
    with that key. *)
Lemma sub_sections_lookup key sub_parts : forall d,
  exists d',
    fold_result add_sub_section sub_parts d = Ok d'
    /\ d' !! key
       = match last_section key sub_parts with
         | Some text => Some text
         | None => d !! key
         end.
Proof.
  unfold last_section.
  induction sub_parts as [|s sub_parts IH]; intros d.
  - exists d. split; reflexivity.
  - cbn [fold_result]. rewrite add_sub_section_insert. cbn [bind].
    destruct (IH (<[section_title s := section_text s]> d)) as (d' & -> & Hd').
    exists d'. split; [reflexivity|]. rewrite Hd'.
    destruct (decide (section_title s = key)) as [E|E].
    + rewrite filter_cons_True by exact E. rewrite last_cons.
      destruct (last (filter _ sub_parts)); cbn [fmap option_fmap option_map];
        [reflexivity|].
      rewrite E. apply lookup_insert_eq.
    + rewrite filter_cons_False by exact E.
      destruct (last (filter _ sub_parts)); cbn [fmap option_fmap option_map];
        [reflexivity|].
      apply lookup_insert_ne. exact E.
Qed.

(** X19. The sub-sections of a heading tool: [_parse_heading_tool] never
    raises; the params are read from the last sub-section whose title,
    trimmed and in lower case, is [params], the sample code from the last
    one titled [sample code], and the returns from the last one titled
    [output], or without any such, from the last one titled [returns]; a
    field without sub-section is empty. *)
Theorem heading_tool_reads_last_sections (section : string) :
  exists tool,
    _parse_heading_tool section = Ok tool
    /\ tool_params tool
       = match last_section "params" (tl (Re.split_lines_at h3_prefix section)) with
         | Some text => _parse_params_block text
         | None => []
         end
    /\ tool_sample_code tool
       = match last_section "sample code" (tl (Re.split_lines_at h3_prefix section)) with
         | Some text => _extract_code_block text
         | None => EmptyString
         end
    /\ tool_returns tool
       = match last_section "output" (tl (Re.split_lines_at h3_prefix section)) with
         | Some text => _extract_code_block text
         | None =>
             match last_section "returns" (tl (Re.split_lines_at h3_prefix section)) with
             | Some text => _extract_code_block text
             | None => EmptyString
             end
         end.
Proof.
  unfold _parse_heading_tool.
  destruct (split_bol_cons h3_prefix true 0 section) as (p & ps & E).
  unfold Re.split_lines_at. rewrite E. cbn [index nth_error bind tl].
  destruct (sub_sections_lookup "params" ps ∅) as (d & Hd & Hp).
  destruct (sub_sections_lookup "sample code" ps ∅) as (d1 & Hd1 & Hs).
  destruct (sub_sections_lookup "output" ps ∅) as (d2 & Hd2 & Ho).
  destruct (sub_sections_lookup "returns" ps ∅) as (d3 & Hd3 & Hr).
  rewrite Hd in Hd1, Hd2, Hd3.
  injection Hd1 as <-. injection Hd2 as <-. injection Hd3 as <-.
  rewrite Hd. cbn [bind]. eexists. split; [reflexivity|].
  cbn [tool_params tool_sample_code tool_returns].
  rewrite Hp, Hs, Ho, Hr, !lookup_empty.
  repeat split.
  - destruct (last_section "params" ps); reflexivity.
  - destruct (last_section "sample code" ps); reflexivity.
  - destruct (last_section "output" ps); [reflexivity|].
    destruct (last_section "returns" ps); reflexivity.
Qed.

(** A tool with its params section written twice, the second time in
    capitals: the second section counts. *)
Definition twice_params_section : string :=
  "search" +:+ Py.nl
  +:+ "### Params" +:+ Py.nl +:+ "- `a` (string): old" +:+ Py.nl
  +:+ "### PARAMS " +:+ Py.nl +:+ "- `b` (number): new".

Lemma twice_params_section_reads_second :
  _parse_heading_tool twice_params_section
  = Ok (mkTool "search" EmptyString [mkParam "b" "number" "new" true None]
          EmptyString EmptyString).
Proof. vm_compute. reflexivity. Qed.

(* ===================================================================== *)
(** * Lines of a params section that are no param lines *)
(* ===================================================================== *)

Lemma _PARAM_RE_dash line :
  String.prefix "-" line = false -> _PARAM_RE line = None.
Proof.
  intros H. destruct line as [|c line]; [reflexivity|].
  rewrite StrFacts.prefix_cons, StrFacts.prefix_nil, andb_true_r in H.
  unfold _PARAM_RE, Re.lit. rewrite H. reflexivity.
Qed.

(** X20. A params section none of whose lines, trimmed, starts with a dash
    gives no param: free text in the section is skipped without error. *)
Theorem params_block_without_dash_lines (text : string) :
  forallb (fun line => negb (Py.startswith "-" (Py.strip line)))
    (Py.splitlines (Py.strip text)) = true ->
  _parse_params_block text = [].
Proof.
  unfold _parse_params_block. intros H.
  induction (Py.splitlines (Py.strip text)) as [|line lines IH]; [reflexivity|].
  cbn [forallb] in H. apply andb_true_iff in H. destruct H as [Hl Hls].
  apply negb_true_iff in Hl. unfold Py.startswith in Hl.
  cbn [omap list_omap]. unfold parse_param_line at 1.
  rewrite (_PARAM_RE_dash _ Hl). apply IH. exact Hls.
Qed.

Lemma params_block_without_dash_lines_witness :
  _parse_params_block ("None." +:+ Py.nl +:+ "* `q` (string): q") = [].
Proof.
  apply (params_block_without_dash_lines ("None." +:+ Py.nl +:+ "* `q` (string): q")).
  reflexivity.
Defined.

(** ** A tag with the attributes in the other order *)

(** A [meta] element written by hand, with [content] in front of [name]. *)
Definition reversed_tag (path : string) : string :=
  "<meta content=" +:+ String Py.dquote_char (path
    +:+ String Py.dquote_char (" name="
    +:+ String Py.dquote_char ("webagents-md" +:+ String Py.dquote_char ">"))).

(** The two attributes of the reversed pattern, as it reads them. *)
Definition name_last (url : string) : Re.matcher string :=
  lits_ci "name=" (Re.one Py.is_quote (
  lits_ci "webagents-md" (Re.one Py.is_quote (fun _ => Some url)))).

Definition content_first : Re.matcher string :=
  lits_ci "content=" (Re.one Py.is_quote (
  Re.plus not_quote (fun url =>
  Re.one Py.is_quote (
  Re.star not_gt (fun _ => name_last url))))).

(** What follows the closing quote of the value in a reversed tag. *)
Definition name_text (post : string) : string :=
  "name=" +:+ String Py.dquote_char ("webagents-md"
    +:+ String Py.dquote_char (String ">" post)).

Lemma reversed_tag_app path post :
  reversed_tag path +:+ post
  = "<meta" +:+ (" " +:+ ("content=" +:+ String Py.dquote_char (path
      +:+ String Py.dquote_char (" " +:+ name_text post)))).
Proof.
  unfold reversed_tag, name_text. cbn [String.append].
  rewrite StrFacts.app_assoc. reflexivity.
Qed.

Lemma name_last_ok url post : name_last url (name_text post) = Some url.
Proof.
  unfold name_last, name_text. rewrite lits_ci_same.
  rewrite one_ok by reflexivity. rewrite lits_ci_same.
  rewrite one_ok by reflexivity. reflexivity.
Qed.

Lemma name_last_no_later url post : no_later not_gt (name_last url) (name_text post).
Proof.
  unfold name_text. cbn [String.append no_later].
  repeat (intros _; split; [reflexivity|]).
  intros H. discriminate H.
Qed.

Lemma content_first_ok path post :
  path <> EmptyString -> all_chars not_quote path = true ->
  content_first ("content=" +:+ String Py.dquote_char (path
      +:+ String Py.dquote_char (" " +:+ name_text post)))
  = Some path.
Proof.
  intros Hne Hp. unfold content_first. rewrite lits_ci_same.
  rewrite one_ok by reflexivity.
  destruct path as [|c w]; [congruence|].
  apply plus_greedy; [exact Hp|reflexivity|].
  cbv beta. rewrite one_ok by reflexivity.
  apply star_const_shift; [reflexivity| |].
  - apply name_last_ok.
  - apply name_last_no_later.
Qed.

Lemma content_first_behind post :
  Re.plus not_quote (fun url =>
    Re.one Py.is_quote (Re.star not_gt (fun _ => name_last url)))
    (" " +:+ name_text post)
  = None.
Proof. reflexivity. Qed.

Lemma content_first_no_later path post :
  all_chars not_quote path = true ->
  no_later not_gt content_first
    ("content=" +:+ String Py.dquote_char (path
      +:+ String Py.dquote_char (" " +:+ name_text post))).
Proof.
  intros Hp. cbn [String.append no_later].
  repeat (intros _; split; [reflexivity|]).
  intros _. unfold content_first.
  change (String " " (name_text post)) with (" " +:+ name_text post).
  apply no_later_value; try reflexivity; try assumption.
  - right. apply content_first_behind.
  - unfold name_text. cbn [String.append no_later].
    repeat (intros _; split; [reflexivity|]).
    intros H. discriminate H.
Qed.

Lemma _META_PATTERN_REVERSED_tag path post :
  path <> EmptyString -> all_chars not_quote path = true ->
  _META_PATTERN_REVERSED (reversed_tag path +:+ post) = Some path.
Proof.
  intros Hne Hp. rewrite reversed_tag_app.
  change _META_PATTERN_REVERSED
    with (lits_ci "<meta" (Re.plus Py.is_space (fun _ =>
            Re.star not_gt (fun _ => content_first)))).
  rewrite lits_ci_same.
  apply (plus_greedy Py.is_space " " EmptyString); [reflexivity|reflexivity|].
  apply star_const_first.
  - apply content_first_ok; assumption.
  - apply content_first_no_later; assumption.
Qed.

(** X21. A tag with the [content] attribute in front of the [name]
    attribute is found as well: in a page where the first pattern matches
    nowhere and the reversed pattern matches nowhere before such a tag, the
    match of [discover_manifest_url] has the path of the tag as its group,
    for every path that is not empty and holds no quote character. *)
Theorem reversed_tag_is_discovered (pre path post : string) :
  path <> EmptyString -> all_chars not_quote path = true ->
  Re.search _META_PATTERN (pre +:+ reversed_tag path +:+ post) = None ->
  no_match_before _META_PATTERN_REVERSED pre (reversed_tag path +:+ post) = true ->
  meta_match (pre +:+ reversed_tag path +:+ post) = Some path.
Proof.
  intros Hne Hp Hfirst Hpre. unfold meta_match. rewrite Hfirst.
  rewrite (search_skip _ _ _ Hpre).
  apply search_here. apply _META_PATTERN_REVERSED_tag; assumption.
Qed.

Lemma reversed_tag_is_discovered_witness :
  meta_match (page_head +:+ reversed_tag "/api/webagents.md" +:+ "</head></html>")
  = Some "/api/webagents.md".
Proof.
  apply (reversed_tag_is_discovered page_head "/api/webagents.md" "</head></html>").
  - discriminate.
  - reflexivity.
  - vm_compute. reflexivity.
  - vm_compute. reflexivity.
Defined.
